(** * Tiercade test-result analyzer: a shallow embedding of
      [analyze_test_results.py] and the properties of its report engine.

    Conventions of the embedding.

    - A parsed JSON document is a [json] value; a Python [dict] is an
      association list in insertion order, as [json.load] builds it.
    - Python's numbers are [number]: [bool] (a subclass of [int], so JSON
      [true] and [false] are numbers too), [int] and [float].  A float
      carries the rational it denotes and arithmetic on floats is exact:
      rounding to binary64, infinities, NaN and the sign of zero are not
      part of the embedding.  The section on the totals in binary64 adds
      the rounding back for the sums of the report, whose value depends on
      it.
    - A Python expression that may raise evaluates to a [res]: [Ok v],
      [Raise e] with the exception, or [Unsupported] where the behaviour
      of CPython falls outside the embedding (repetition of a sequence by
      [* 100], [repr] of containers and of non-integral floats, ...).
    - Strings are [string]; characters stand for code points.
    - The clock, the directory scan and [load_report] are inputs: [main]
      takes the reading of the clock and, for each file found, its name and
      the result of loading it. *)

From Stdlib Require Import ZArith QArith Qround Qabs Qminmax List String Ascii Bool.
From Stdlib Require Import Lia Lqa Permutation Sorted DecimalString.
Import ListNotations.

Set Warnings "-register-all".
Local Open Scope string_scope.
Local Open Scope list_scope.
Local Open Scope Q_scope.

(** ** Python values *)

Inductive number : Type :=
| PyBool (b : bool)
| PyInt (z : Z)
| PyFloat (q : Q).

Inductive json : Type :=
| JNull
| JNum (n : number)
| JStr (s : string)
| JArr (l : list json)
| JObj (m : list (string * json)).

Inductive exn : Type :=
| TypeError (msg : string)
| AttributeError (msg : string)
| ValueError (msg : string)
| KeyError (msg : string)
| ZeroDivisionError (msg : string)
| IndexError (msg : string)
| JSONDecodeError (msg : string).

Definition exn_str (e : exn) : string :=
  match e with
  | TypeError m | AttributeError m | ValueError m | KeyError m
  | ZeroDivisionError m | IndexError m | JSONDecodeError m => m
  end.

Inductive res (A : Type) : Type :=
| Ok (a : A)
| Raise (e : exn)
| Unsupported.
Arguments Ok {A} a.
Arguments Raise {A} e.
Arguments Unsupported {A}.

Definition bind {A B : Type} (r : res A) (k : A -> res B) : res B :=
  match r with
  | Ok a => k a
  | Raise e => Raise e
  | Unsupported => Unsupported
  end.

Notation "x <- c1 ;; c2" := (bind c1 (fun x => c2))
  (at level 61, c1 at next level, right associativity).

Definition cat (a b : string) : string := String.append a b.
Infix "+++" := cat (at level 60, right associativity).

Definition num_val (n : number) : Q :=
  match n with
  | PyBool true => 1
  | PyBool false => 0
  | PyInt z => inject_Z z
  | PyFloat q => q
  end.

Definition num_int (n : number) : option Z :=
  match n with
  | PyBool true => Some 1%Z
  | PyBool false => Some 0%Z
  | PyInt z => Some z
  | PyFloat _ => None
  end.

(** [type(v).__name__] *)
Definition num_type_name (n : number) : string :=
  match n with
  | PyBool _ => "bool"
  | PyInt _ => "int"
  | PyFloat _ => "float"
  end.

Definition type_name (v : json) : string :=
  match v with
  | JNull => "NoneType"
  | JNum n => num_type_name n
  | JStr _ => "str"
  | JArr _ => "list"
  | JObj _ => "dict"
  end.

(** [a + b] and [a * b] on numbers: [int] unless an operand is a float. *)
Definition py_add (a b : number) : number :=
  match num_int a, num_int b with
  | Some x, Some y => PyInt (x + y)
  | _, _ => PyFloat (num_val a + num_val b)
  end.

Definition py_mul (a b : number) : number :=
  match num_int a, num_int b with
  | Some x, Some y => PyInt (x * y)
  | _, _ => PyFloat (num_val a * num_val b)
  end.

(** [a / b]: true division, always a float. *)
Definition py_truediv (a b : number) : res number :=
  if Qeq_bool (num_val b) 0
  then Raise (ZeroDivisionError "division by zero")
  else Ok (PyFloat (num_val a / num_val b)).

Definition py_lt (a b : number) : bool :=
  negb (Qle_bool (num_val b) (num_val a)).

(** [max(1, x)]: the first maximal argument. *)
Definition py_max1 (x : number) : number :=
  if py_lt (PyInt 1) x then x else PyInt 1.

(** [d.get(key, default)] on the association list of a dict. *)
Fixpoint assoc_get (key : string) (m : list (string * json)) : option json :=
  match m with
  | [] => None
  | (k, v) :: m' => if String.eqb k key then Some v else assoc_get key m'
  end.

Definition no_attr_get {A : Type} (v : json) : res A :=
  Raise (AttributeError
    ("'" +++ type_name v +++ "' object has no attribute 'get'")).

Definition py_get (v : json) (key : string) (default : json) : res json :=
  match v with
  | JObj m =>
      Ok (match assoc_get key m with Some x => x | None => default end)
  | _ => no_attr_get v
  end.

(** [max(1, v)] on a raw value. *)
Definition max1 (v : json) : res number :=
  match v with
  | JNum n => Ok (py_max1 n)
  | _ => Raise (TypeError ("'>' not supported between instances of '"
                           +++ type_name v +++ "' and 'int'"))
  end.

(** [v / d] where [d] is a number. *)
Definition truediv (v : json) (d : number) : res number :=
  match v with
  | JNum n => py_truediv n d
  | _ => Raise (TypeError ("unsupported operand type(s) for /: '"
                           +++ type_name v +++ "' and '"
                           +++ num_type_name d +++ "'"))
  end.

(** [v * 100]. On a string or a list Python repeats the sequence. *)
Definition mul100 (v : json) : res number :=
  match v with
  | JNum n => Ok (py_mul n (PyInt 100))
  | JStr _ | JArr _ => Unsupported
  | _ => Raise (TypeError ("unsupported operand type(s) for *: '"
                           +++ type_name v +++ "' and 'int'"))
  end.

(** [v[:n]] *)
Fixpoint str_take (n : nat) (s : string) : string :=
  match n, s with
  | S n', String c s' => String c (str_take n' s')
  | _, _ => EmptyString
  end.

Definition slice_to (n : nat) (v : json) : res json :=
  match v with
  | JArr l => Ok (JArr (firstn n l))
  | JStr s => Ok (JStr (str_take n s))
  | JObj _ => Unsupported
  | _ => Raise (TypeError ("'" +++ type_name v
                           +++ "' object is not subscriptable"))
  end.

(** [for x in v]: the items the loop visits. *)
Fixpoint str_chars (s : string) : list json :=
  match s with
  | EmptyString => []
  | String c s' => JStr (String c EmptyString) :: str_chars s'
  end.

Definition py_iter (v : json) : res (list json) :=
  match v with
  | JArr l => Ok l
  | JStr s => Ok (str_chars s)
  | JObj m => Ok (map (fun kv => JStr (fst kv)) m)
  | _ => Raise (TypeError ("'" +++ type_name v
                           +++ "' object is not iterable"))
  end.

(** ** A stable sort: [list.sort(key=..., reverse=...)] and [sorted] *)

Section Sort.
Context {A : Type}.
Variable key : A -> Q.
Variable reverse : bool.

(** [goes_before x y]: [x], met earlier, stays in front of [y]. *)
Definition goes_before (x y : A) : bool :=
  if reverse then Qle_bool (key y) (key x) else Qle_bool (key x) (key y).

Fixpoint insert_sorted (x : A) (l : list A) : list A :=
  match l with
  | [] => [x]
  | y :: l' =>
      if goes_before x y then x :: y :: l' else y :: insert_sorted x l'
  end.

Definition list_sort (l : list A) : list A :=
  fold_right insert_sorted [] l.

(** The order the sort produces: ascending keys, or descending ones when
    [reverse] is set. *)
Definition in_order (x y : A) : Prop :=
  if reverse then key y <= key x else key x <= key y.

Definition same_key (k : Q) (x : A) : bool := Qeq_bool (key x) k.
End Sort.

(** ** [analyze_suite] *)

Record PromptStats : Type := {
  promptId : json;
  promptName : json;
  passAtNRate : number;
  meanDupRate : number;
  stdevDupRate : number;
  jsonStrictRate : number;
  insufficientRate : number;
  formatErrorRate : number;
  meanQualityScore : json;
  totalRuns : json
}.

Record TopPrompts : Type := {
  byPassRate : json;
  byQuality : json;
  bySpeed : json;
  byConsistency : json
}.

Record SuiteAnalysis : Type := {
  suite_id : string;
  suite_name : json;
  total_runs : json;
  successful_runs : json;
  failed_runs : json;
  success_rate : number;
  total_duration : json;
  avg_duration_per_run : number;
  top_prompts : TopPrompts;
  prompt_analysis : list PromptStats;
  environment : json
}.

Definition zero : json := JNum (PyInt 0).

(** The body of the loop over [aggregates]. *)
Definition analyze_prompt (agg : json) : res PromptStats :=
  stats <- py_get agg "overallStats" (JObj []) ;;
  pid <- py_get agg "promptId" JNull ;;
  pname <- py_get agg "promptName" JNull ;;
  r1 <- (v <- py_get stats "passAtNRate" zero ;; mul100 v) ;;
  r2 <- (v <- py_get stats "meanDupRate" zero ;; mul100 v) ;;
  r3 <- (v <- py_get stats "stdevDupRate" zero ;; mul100 v) ;;
  r4 <- (v <- py_get stats "jsonStrictRate" zero ;; mul100 v) ;;
  r5 <- (v <- py_get stats "insufficientRate" zero ;; mul100 v) ;;
  r6 <- (v <- py_get stats "formatErrorRate" zero ;; mul100 v) ;;
  q <- py_get stats "meanQualityScore" zero ;;
  runs <- py_get agg "totalRuns" zero ;;
  Ok {| promptId := pid; promptName := pname;
        passAtNRate := r1; meanDupRate := r2; stdevDupRate := r3;
        jsonStrictRate := r4; insufficientRate := r5; formatErrorRate := r6;
        meanQualityScore := q; totalRuns := runs |}.

Fixpoint map_res {A B : Type} (f : A -> res B) (l : list A) : res (list B) :=
  match l with
  | [] => Ok []
  | x :: l' => y <- f x ;; ys <- map_res f l' ;; Ok (y :: ys)
  end.

Definition pass_key (p : PromptStats) : Q := num_val (passAtNRate p).

Definition analyze_suite (suite_id0 : string) (report : json)
  : res SuiteAnalysis :=
  total_runs0 <- py_get report "totalRuns" zero ;;
  successful_runs0 <- py_get report "successfulRuns" zero ;;
  failed_runs0 <- py_get report "failedRuns" zero ;;
  total_duration0 <- py_get report "totalDuration" zero ;;
  success_rate0 <-
    (d <- max1 total_runs0 ;;
     x <- truediv successful_runs0 d ;;
     Ok (py_mul x (PyInt 100))) ;;
  avg_duration <- (d <- max1 total_runs0 ;; truediv total_duration0 d) ;;
  rankings <- py_get report "rankings" (JObj []) ;;
  t1 <- (v <- py_get rankings "byPassRate" (JArr []) ;; slice_to 3 v) ;;
  t2 <- (v <- py_get rankings "byQuality" (JArr []) ;; slice_to 3 v) ;;
  t3 <- (v <- py_get rankings "bySpeed" (JArr []) ;; slice_to 3 v) ;;
  t4 <- (v <- py_get rankings "byConsistency" (JArr []) ;; slice_to 3 v) ;;
  aggregates <- py_get report "aggregateResults" (JArr []) ;;
  items <- py_iter aggregates ;;
  prompt_analysis0 <- map_res analyze_prompt items ;;
  name <- py_get report "suiteName" (JStr suite_id0) ;;
  env <- py_get report "environment" (JObj []) ;;
  Ok {| suite_id := suite_id0;
        suite_name := name;
        total_runs := total_runs0;
        successful_runs := successful_runs0;
        failed_runs := failed_runs0;
        success_rate := success_rate0;
        total_duration := total_duration0;
        avg_duration_per_run := avg_duration;
        top_prompts := {| byPassRate := t1; byQuality := t2;
                          bySpeed := t3; byConsistency := t4 |};
        prompt_analysis := list_sort pass_key true prompt_analysis0;
        environment := env |}.

(** The rows [analyze_suite] sorts: one per item of [aggregateResults],
    in the order of the input. *)
Definition rows_of_report (report : json) (rows : list PromptStats) : Prop :=
  exists aggregates items,
    py_get report "aggregateResults" (JArr []) = Ok aggregates /\
    py_iter aggregates = Ok items /\
    Forall2 (fun agg row => analyze_prompt agg = Ok row) items rows.

(** ** Formatting: [str()], [format(x, '.nf')], [format(x, ',')] *)

Definition newline : string := String (ascii_of_nat 10) EmptyString.

Definition Z_str (z : Z) : string := NilZero.string_of_int (Z.to_int z).
Definition nat_str (n : nat) : string := Z_str (Z.of_nat n).

Fixpoint str_repeat (c : string) (n : nat) : string :=
  match n with
  | O => EmptyString
  | S n' => c +++ str_repeat c n'
  end.

Definition pad_left (c : string) (width : nat) (s : string) : string :=
  str_repeat c (width - String.length s) +++ s.

Definition pad_right (c : string) (width : nat) (s : string) : string :=
  s +++ str_repeat c (width - String.length s).

Fixpoint join (sep : string) (l : list string) : string :=
  match l with
  | [] => EmptyString
  | [x] => x
  | x :: l' => x +++ sep +++ join sep l'
  end.

(** Rounding to an integer, ties to even: the rounding of [format]. *)
Definition round_half_even (x : Q) : Z :=
  let f := Qfloor x in
  match Qcompare (x - inject_Z f) (1 # 2) with
  | Lt => f
  | Gt => (f + 1)%Z
  | Eq => if Z.even f then f else (f + 1)%Z
  end.

(** [format(x, '.df')] for a float of value [q]. *)
Definition fmt_fixed (d : nat) (q : Q) : string :=
  let n := round_half_even (Qabs q * inject_Z (10 ^ Z.of_nat d)) in
  let ds := pad_left "0" (d + 1) (Z_str n) in
  let k := (String.length ds - d)%nat in
  (if Qle_bool 0 q then "" else "-")
  +++ substring 0 k ds
  +++ (if Nat.eqb d 0 then "" else "." +++ substring k d ds).

(** The digits of a natural number in groups of three: [format(n, ',')]. *)
Fixpoint group3 (fuel : nat) (n : Z) : string :=
  match fuel with
  | O => Z_str n
  | S fuel' =>
      if (n <? 1000)%Z then Z_str n
      else group3 fuel' (n / 1000) +++ ","
           +++ pad_left "0" 3 (Z_str (n mod 1000))
  end.

Definition int_comma (z : Z) : string :=
  (if (z <? 0)%Z then "-" else "")
  +++ group3 (Z.to_nat (Z.log2 (Z.abs z))) (Z.abs z).

(** The integer a float denotes, when [repr] prints it as [<digits>.0]. *)
Definition float_integral (q : Q) : option Z :=
  if Qeq_bool q (inject_Z (Qfloor q)) && Qle_bool (Qabs q) (inject_Z (10 ^ 15))
  then Some (Qfloor q) else None.

Definition num_str (n : number) : res string :=
  match n with
  | PyBool true => Ok "True"
  | PyBool false => Ok "False"
  | PyInt z => Ok (Z_str z)
  | PyFloat q =>
      match float_integral q with
      | Some z => Ok (Z_str z +++ ".0")
      | None => Unsupported
      end
  end.

Definition num_comma (n : number) : res string :=
  match n with
  | PyBool true => Ok "1"
  | PyBool false => Ok "0"
  | PyInt z => Ok (int_comma z)
  | PyFloat q =>
      match float_integral q with
      | Some z => Ok (int_comma z +++ ".0")
      | None => Unsupported
      end
  end.

(** [f"{v}"] *)
Definition py_str (v : json) : res string :=
  match v with
  | JNull => Ok "None"
  | JNum n => num_str n
  | JStr s => Ok s
  | JArr _ | JObj _ => Unsupported
  end.

Definition num_fmt (d : nat) (n : number) : string := fmt_fixed d (num_val n).

(** [f"{v:.df}"] *)
Definition py_fmt (d : nat) (v : json) : res string :=
  match v with
  | JNum n => Ok (num_fmt d n)
  | JStr _ =>
      Raise (ValueError "Unknown format code 'f' for object of type 'str'")
  | _ => Raise (TypeError ("unsupported format string passed to "
                           +++ type_name v +++ ".__format__"))
  end.

(** Truth value of a Python object. *)
Definition py_truthy (v : json) : bool :=
  match v with
  | JNull => false
  | JNum n => negb (Qeq_bool (num_val n) 0)
  | JStr s => negb (String.eqb s "")
  | JArr l => match l with [] => false | _ => true end
  | JObj m => match m with [] => false | _ => true end
  end.

(** [v[key]] for a string key. *)
Definition py_index (v : json) (key : string) : res json :=
  match v with
  | JObj m =>
      match assoc_get key m with
      | Some x => Ok x
      | None => Raise (KeyError ("'" +++ key +++ "'"))
      end
  | JStr _ =>
      Raise (TypeError "string indices must be integers, not 'str'")
  | JArr _ =>
      Raise (TypeError "list indices must be integers or slices, not str")
  | _ => Raise (TypeError ("'" +++ type_name v
                           +++ "' object is not subscriptable"))
  end.

(** [sum(...)] of raw values, starting from the int [0]. *)
Definition add_to (acc : number) (v : json) : res number :=
  match v with
  | JNum n => Ok (py_add acc n)
  | _ => Raise (TypeError ("unsupported operand type(s) for +: '"
                           +++ num_type_name acc +++ "' and '"
                           +++ type_name v +++ "'"))
  end.

Fixpoint sum_from (acc : number) (l : list json) : res number :=
  match l with
  | [] => Ok acc
  | v :: l' => acc' <- add_to acc v ;; sum_from acc' l'
  end.

Definition py_sum (l : list json) : res number := sum_from (PyInt 0) l.

(** [datetime.now()] and [strftime('%Y-%m-%d %H:%M:%S')]. *)
Record datetime : Type := {
  year : nat; month : nat; day : nat;
  hour : nat; minute : nat; second : nat
}.

Definition strftime (t : datetime) : string :=
  pad_left "0" 4 (nat_str (year t)) +++ "-"
  +++ pad_left "0" 2 (nat_str (month t)) +++ "-"
  +++ pad_left "0" 2 (nat_str (day t)) +++ " "
  +++ pad_left "0" 2 (nat_str (hour t)) +++ ":"
  +++ pad_left "0" 2 (nat_str (minute t)) +++ ":"
  +++ pad_left "0" 2 (nat_str (second t)).


(** ** [generate_markdown_report] *)

(** A line of a Markdown table or list, as the f-string concatenates it. *)
Definition table_row (cells : list string) : string :=
  "| " +++ join " | " cells +++ " |".

(** Items of [enumerate(l, 1)] mapped through [f]. *)
Fixpoint map_enum {A B : Type} (f : nat -> A -> res B) (i : nat) (l : list A)
  : res (list B) :=
  match l with
  | [] => Ok []
  | x :: l' => y <- f i x ;; ys <- map_enum f (S i) l' ;; Ok (y :: ys)
  end.

Definition header_lines (now : datetime) : list string :=
  [ "# Detailed AI Prompt Test Analysis";
    "";
    "**Generated:** " +++ strftime now;
    "";
    "---";
    "";
    "## Executive Summary";
    "" ].

(** Overall statistics (lines 89-93). *)
Definition total_tests (analyses : list SuiteAnalysis) : res number :=
  py_sum (map total_runs analyses).

Definition total_passed (analyses : list SuiteAnalysis) : res number :=
  py_sum (map successful_runs analyses).

Definition total_failed (analyses : list SuiteAnalysis) : res number :=
  py_sum (map failed_runs analyses).

Definition total_time (analyses : list SuiteAnalysis) : res number :=
  py_sum (map total_duration analyses).

Definition overall_rate (passed tests : number) : res number :=
  x <- py_truediv passed (py_max1 tests) ;; Ok (py_mul x (PyInt 100)).

Definition summary_lines (analyses : list SuiteAnalysis) : res (list string) :=
  tests <- total_tests analyses ;;
  passed <- total_passed analyses ;;
  _ <- total_failed analyses ;;
  rate <- overall_rate passed tests ;;
  time <- total_time analyses ;;
  s_tests <- num_comma tests ;;
  minutes <- py_truediv time (PyInt 60) ;;
  per_test <- py_truediv time (py_max1 tests) ;;
  Ok [ "- **Total Test Runs Across All Suites:** " +++ s_tests;
       "- **Overall Success Rate:** " +++ num_fmt 1 rate +++ "%";
       "- **Total Test Duration:** " +++ num_fmt 1 time +++ "s ("
         +++ num_fmt 1 minutes +++ " minutes)";
       "- **Average Time Per Test:** " +++ num_fmt 2 per_test +++ "s";
       "";
       "### Suite Performance Comparison";
       "";
       "| Suite | Runs | Success Rate | Duration | Avg/Run |";
       "|-------|------|--------------|----------|---------|" ].

Definition comparison_row (a : SuiteAnalysis) : res string :=
  name <- py_str (suite_name a) ;;
  runs <- py_str (total_runs a) ;;
  dur <- py_fmt 1 (total_duration a) ;;
  Ok (table_row [ name; runs;
                  num_fmt 1 (success_rate a) +++ "%";
                  dur +++ "s";
                  num_fmt 2 (avg_duration_per_run a) +++ "s" ]).

Definition environment_lines (env : json) : res (list string) :=
  if py_truthy env then
    os <- (v <- py_get env "osVersion" (JStr "N/A") ;; py_str v) ;;
    topp <- py_get env "hasTopP" JNull ;;
    build <- (v <- py_get env "buildDate" (JStr "N/A") ;; py_str v) ;;
    Ok [ "#### Test Environment";
         "";
         "- **OS Version:** " +++ os;
         "- **Top-P Sampling:** "
           +++ (if py_truthy topp then "Available" else "Not Available");
         "- **Build Date:** " +++ build;
         "" ]
  else Ok [].

Definition ranking_line (i : nat) (prompt : json) : res string :=
  name <- (v <- py_index prompt "promptName" ;; py_str v) ;;
  score <- (v <- py_index prompt "score" ;; py_fmt 3 v) ;;
  Ok (nat_str i +++ ". **" +++ name +++ "** - Score: " +++ score).

Definition ranking_lines (title : string) (ranking : json)
  : res (list string) :=
  if py_truthy ranking then
    items <- py_iter ranking ;;
    ls <- map_enum ranking_line 1 items ;;
    Ok ([title; ""] ++ ls ++ [""])
  else Ok [].

Definition prompt_row (prompt : PromptStats) : res string :=
  name <- (v <- slice_to 30 (promptName prompt) ;; py_str v) ;;
  quality <- py_fmt 3 (meanQualityScore prompt) ;;
  runs <- py_str (totalRuns prompt) ;;
  Ok (table_row [ name;
                  num_fmt 1 (passAtNRate prompt) +++ "%";
                  num_fmt 1 (meanDupRate prompt) +++ "±"
                    +++ num_fmt 1 (stdevDupRate prompt) +++ "%";
                  num_fmt 0 (jsonStrictRate prompt) +++ "%";
                  quality;
                  runs ]).

Definition prompt_table (rows : list PromptStats) : res (list string) :=
  match rows with
  | [] => Ok []
  | _ =>
      ls <- map_res prompt_row (firstn 10 rows) ;;
      Ok ([ "#### Detailed Prompt Analysis";
            "";
            "| Prompt | Pass@N | Dup Rate | JSON | Quality | Runs |";
            "|--------|--------|----------|------|---------|------|" ]
          ++ ls ++ [""])
  end.

(** The section of one suite (the body of the loop at line 124). *)
Definition suite_section (a : SuiteAnalysis) : res (list string) :=
  name <- py_str (suite_name a) ;;
  runs <- py_str (total_runs a) ;;
  ok <- py_str (successful_runs a) ;;
  failed <- py_str (failed_runs a) ;;
  dur <- py_fmt 1 (total_duration a) ;;
  env <- environment_lines (environment a) ;;
  r1 <- ranking_lines "#### 🏆 Top Prompts by Pass Rate"
          (byPassRate (top_prompts a)) ;;
  r2 <- ranking_lines "#### ⭐ Top Prompts by Quality Score"
          (byQuality (top_prompts a)) ;;
  r3 <- ranking_lines "#### ⚡ Top Prompts by Speed"
          (bySpeed (top_prompts a)) ;;
  table <- prompt_table (prompt_analysis a) ;;
  Ok ([ "### " +++ name;
        "";
        "**Suite ID:** `" +++ suite_id a +++ "`";
        "";
        "#### Performance Metrics";
        "";
        "- **Total Runs:** " +++ runs;
        "- **Successful:** " +++ ok +++ " ("
          +++ num_fmt 1 (success_rate a) +++ "%)";
        "- **Failed:** " +++ failed;
        "- **Total Duration:** " +++ dur +++ "s";
        "- **Average Duration/Run:** "
          +++ num_fmt 2 (avg_duration_per_run a) +++ "s";
        "" ]
      ++ env ++ r1 ++ r2 ++ r3 ++ table
      ++ [ "---"; "" ]).

(** *** The cross-suite leaderboard (lines 226-246) *)

(** The value stored under a prompt id in [all_prompts]. *)
Record PromptTotals : Type := {
  name : json;
  sum_runs : number;
  total_pass_rate : number;
  total_dup_rate : number;
  suite_count : Z
}.

Record LeaderboardEntry : Type := {
  totals : PromptTotals;
  avg_pass_rate : number;
  avg_dup_rate : number
}.

(** Keys of a dict: equality of hashable values. *)
Definition key_eqb (a b : json) : bool :=
  match a, b with
  | JNull, JNull => true
  | JNum x, JNum y => Qeq_bool (num_val x) (num_val y)
  | JStr s, JStr t => String.eqb s t
  | _, _ => false
  end.

Definition hashable (v : json) : res unit :=
  match v with
  | JArr _ | JObj _ =>
      Raise (TypeError ("unhashable type: '" +++ type_name v +++ "'"))
  | _ => Ok tt
  end.

(** [total += v] *)
Definition iadd (acc : number) (v : json) : res number :=
  match v with
  | JNum n => Ok (py_add acc n)
  | _ => Raise (TypeError ("unsupported operand type(s) for +=: '"
                           +++ num_type_name acc +++ "' and '"
                           +++ type_name v +++ "'"))
  end.

Definition new_totals (prompt : PromptStats) : PromptTotals :=
  {| name := promptName prompt;
     sum_runs := PyInt 0;
     total_pass_rate := PyInt 0;
     total_dup_rate := PyInt 0;
     suite_count := 0 |}.

(** The four [+=] of lines 238-241. *)
Definition bump (prompt : PromptStats) (d : PromptTotals) : res PromptTotals :=
  runs <- iadd (sum_runs d) (totalRuns prompt) ;;
  Ok {| name := name d;
        sum_runs := runs;
        total_pass_rate := py_add (total_pass_rate d) (passAtNRate prompt);
        total_dup_rate := py_add (total_dup_rate d) (meanDupRate prompt);
        suite_count := suite_count d + 1 |}.

(** One iteration of the inner loop on the dict [m], kept in insertion
    order: the entry of the prompt's id is created at the end when the id
    is new, and updated in place otherwise. *)
Fixpoint add_prompt (prompt : PromptStats) (m : list (json * PromptTotals))
  : res (list (json * PromptTotals)) :=
  match m with
  | [] => d <- bump prompt (new_totals prompt) ;; Ok [(promptId prompt, d)]
  | (k, d) :: m' =>
      if key_eqb k (promptId prompt)
      then d' <- bump prompt d ;; Ok ((k, d') :: m')
      else m'' <- add_prompt prompt m' ;; Ok ((k, d) :: m'')
  end.

Fixpoint add_prompts (rows : list PromptStats) (m : list (json * PromptTotals))
  : res (list (json * PromptTotals)) :=
  match rows with
  | [] => Ok m
  | p :: rows' =>
      _ <- hashable (promptId p) ;;
      m' <- add_prompt p m ;;
      add_prompts rows' m'
  end.

(** Every (suite, prompt) pair in the order of the two nested loops. *)
Definition all_rows (analyses : list SuiteAnalysis) : list PromptStats :=
  List.concat (map prompt_analysis analyses).

Definition with_averages (kd : json * PromptTotals)
  : res (json * LeaderboardEntry) :=
  let d := snd kd in
  p <- py_truediv (total_pass_rate d) (PyInt (suite_count d)) ;;
  u <- py_truediv (total_dup_rate d) (PyInt (suite_count d)) ;;
  Ok (fst kd, {| totals := d; avg_pass_rate := p; avg_dup_rate := u |}).

Definition all_prompts (analyses : list SuiteAnalysis)
  : res (list (json * LeaderboardEntry)) :=
  m <- add_prompts (all_rows analyses) [] ;;
  map_res with_averages m.

Definition avg_key (e : json * LeaderboardEntry) : Q :=
  num_val (avg_pass_rate (snd e)).

Definition best_overall (entries : list (json * LeaderboardEntry))
  : list (json * LeaderboardEntry) :=
  firstn 5 (list_sort avg_key true entries).

Definition worst_overall (entries : list (json * LeaderboardEntry))
  : list (json * LeaderboardEntry) :=
  firstn 3 (list_sort avg_key false entries).

Definition best_lines (i : nat) (e : json * LeaderboardEntry)
  : res (list string) :=
  nm <- py_str (name (totals (snd e))) ;;
  pid <- py_str (fst e) ;;
  runs <- num_str (sum_runs (totals (snd e))) ;;
  Ok [ nat_str i +++ ". **" +++ nm +++ "** (`" +++ pid +++ "`)";
       "   - Average Pass Rate: " +++ num_fmt 1 (avg_pass_rate (snd e)) +++ "%";
       "   - Average Dup Rate: " +++ num_fmt 1 (avg_dup_rate (snd e)) +++ "%";
       "   - Tested in " +++ Z_str (suite_count (totals (snd e)))
         +++ " suite(s)";
       "   - Total Runs: " +++ runs;
       "" ].

Definition worst_lines (i : nat) (e : json * LeaderboardEntry)
  : res (list string) :=
  nm <- py_str (name (totals (snd e))) ;;
  pid <- py_str (fst e) ;;
  Ok [ nat_str i +++ ". **" +++ nm +++ "** (`" +++ pid +++ "`)";
       "   - Average Pass Rate: " +++ num_fmt 1 (avg_pass_rate (snd e)) +++ "%";
       "   - Consider revising or removing this prompt";
       "" ].

Definition recommendation_lines (analyses : list SuiteAnalysis)
  : res (list string) :=
  entries <- all_prompts analyses ;;
  best <- map_enum best_lines 1 (best_overall entries) ;;
  worst <- map_enum worst_lines 1 (worst_overall entries) ;;
  Ok ([ "## Recommendations & Insights";
        "";
        "### Best Performing Prompts Overall";
        "" ]
      ++ List.concat best
      ++ [ "### Areas for Improvement"; "" ]
      ++ List.concat worst).

(** The list [lines] at the [return] of [generate_markdown_report]. *)
Definition report_lines (now : datetime) (analyses : list SuiteAnalysis)
  : res (list string) :=
  summary <- summary_lines analyses ;;
  rows <- map_res comparison_row analyses ;;
  sections <- map_res suite_section analyses ;;
  recs <- recommendation_lines analyses ;;
  Ok (header_lines now ++ summary ++ rows
      ++ [ ""; "---"; ""; "## Detailed Suite Analysis"; "" ]
      ++ List.concat sections ++ recs).

Definition generate_markdown_report (now : datetime)
  (analyses : list SuiteAnalysis) : res string :=
  ls <- report_lines now analyses ;; Ok (join newline ls).


(** ** [main] *)

(** *** The coordinator appendix (lines 333-375) *)

(** The per-scenario statistics of lines 358-369: the locals [name], [n],
    [p], [avg_u], [avg_dup] and [esc]. *)
Record ScenarioSummary : Type := {
  scenarioName : json;
  runCount : nat;
  passCount : nat;
  avgUniqueItems : number;
  avgDupRate : number;
  escalationCount : nat
}.

Definition py_len (v : json) : res nat :=
  match v with
  | JArr l => Ok (List.length l)
  | JStr s => Ok (String.length s)
  | JObj m => Ok (List.length m)
  | _ => Raise (TypeError ("object of type '" +++ type_name v
                           +++ "' has no len()"))
  end.

(** [sum(1 for r in runs if r.get(key))] *)
Fixpoint count_flag (key : string) (runs : list json) : res nat :=
  match runs with
  | [] => Ok O
  | r :: runs' =>
      v <- py_get r key JNull ;;
      k <- count_flag key runs' ;;
      Ok (if py_truthy v then S k else k)
  end.

(** [', '.join(v)] *)
Fixpoint join_items (i : nat) (items : list json) : res (list string) :=
  match items with
  | [] => Ok []
  | JStr s :: items' => ss <- join_items (S i) items' ;; Ok (s :: ss)
  | v :: _ =>
      Raise (TypeError ("sequence item " +++ nat_str i
                        +++ ": expected str instance, " +++ type_name v
                        +++ " found"))
  end.

Definition py_join (sep : string) (v : json) : res string :=
  match v with
  | JArr _ | JStr _ | JObj _ =>
      items <- py_iter v ;; ss <- join_items 0 items ;; Ok (join sep ss)
  | _ => Raise (TypeError "can only join an iterable")
  end.

(** [by_scenario.setdefault(sid, []).append(r)] *)
Fixpoint group_add (sid r : json) (m : list (json * list json))
  : list (json * list json) :=
  match m with
  | [] => [(sid, [r])]
  | (k, rs) :: m' =>
      if key_eqb k sid then (k, rs ++ [r]) :: m'
      else (k, rs) :: group_add sid r m'
  end.

Fixpoint by_scenario (results : list json) (m : list (json * list json))
  : res (list (json * list json)) :=
  match results with
  | [] => Ok m
  | r :: results' =>
      sid <- py_get r "scenarioId" (JStr "unknown") ;;
      _ <- hashable sid ;;
      by_scenario results' (group_add sid r m)
  end.

(** The loop of lines 363-367: the numeric [diagnostics.dupRate] values. *)
Fixpoint dup_vals (runs : list json) : res (list json) :=
  match runs with
  | [] => Ok []
  | r :: runs' =>
      d <- py_get r "diagnostics" JNull ;;
      val <- py_get (if py_truthy d then d else JObj []) "dupRate" JNull ;;
      vals <- dup_vals runs' ;;
      Ok (match val with JNum _ => val :: vals | _ => vals end)
  end.

Fixpoint unique_items (runs : list json) : res (list json) :=
  match runs with
  | [] => Ok []
  | r :: runs' =>
      v <- py_get r "uniqueItems" zero ;;
      vs <- unique_items runs' ;;
      Ok (v :: vs)
  end.

Definition scenario_summary (sid : json) (runs : list json)
  : res ScenarioSummary :=
  name0 <- match runs with
           | r :: _ => py_get r "scenarioName" sid
           | [] => Raise (IndexError "list index out of range")
           end ;;
  let n := List.length runs in
  p <- count_flag "passAtN" runs ;;
  items <- unique_items runs ;;
  total <- py_sum items ;;
  avg_u <- py_truediv total (py_max1 (PyInt (Z.of_nat n))) ;;
  vals <- dup_vals runs ;;
  avg_dup <- match vals with
             | [] => Ok (PyFloat 0)
             | _ => s <- py_sum vals ;;
                    py_truediv s (PyInt (Z.of_nat (List.length vals)))
             end ;;
  esc <- count_flag "wouldEscalatePCC" runs ;;
  Ok {| scenarioName := name0; runCount := n; passCount := p;
        avgUniqueItems := avg_u; avgDupRate := avg_dup;
        escalationCount := esc |}.

(** The cells of the row of line 371. *)
Definition scenario_cells (s : ScenarioSummary) : res (list string) :=
  name0 <- (v <- slice_to 24 (scenarioName s) ;; py_str v) ;;
  Ok [ name0;
       nat_str (runCount s);
       nat_str (passCount s);
       num_fmt 1 (avgUniqueItems s);
       num_fmt 1 (py_mul (avgDupRate s) (PyInt 100)) +++ "%";
       nat_str (escalationCount s) ].

Definition scenario_row (sid : json) (runs : list json) : res string :=
  s <- scenario_summary sid runs ;;
  cells <- scenario_cells s ;;
  Ok (table_row cells).

(** The rows appended before the loop ends or raises. *)
Fixpoint scenario_rows (groups : list (json * list json))
  : list string * res unit :=
  match groups with
  | [] => ([], Ok tt)
  | (sid, runs) :: groups' =>
      match scenario_row sid runs with
      | Ok row => let (rows, r) := scenario_rows groups' in (row :: rows, r)
      | Raise e => ([], Raise e)
      | Unsupported => ([], Unsupported)
      end
  end.

(** Lines 338-349: what is computed before the first [lines.extend]. *)
Definition coord_header (fname : string) (data : json)
  : res (list string * list json) :=
  results <- py_get data "results" (JArr []) ;;
  scenarios <- py_get data "scenarios" (JArr []) ;;
  len <- py_len results ;;
  total_runs0 <- py_get data "totalRuns" (JNum (PyInt (Z.of_nat len))) ;;
  items <- py_iter results ;;
  passed <- count_flag "passAtN" items ;;
  success <-
    py_get data "successfulRuns" (JNum (PyInt (Z.of_nat passed))) ;;
  names <- (if py_truthy scenarios then py_join ", " scenarios
            else Ok "n/a") ;;
  s_runs <- py_str total_runs0 ;;
  s_success <- py_str success ;;
  Ok ([ "### " +++ fname;
        "";
        "- **Scenarios:** " +++ names;
        "- **Runs:** " +++ s_runs;
        "- **Successful:** " +++ s_success;
        "" ], items).

Definition scenario_table_head : list string :=
  [ "| Scenario | Runs | Pass | Avg Unique | Avg DupRate | Escalate |";
    "|---------|------|------|------------|-------------|----------|" ].

(** The body of the [try] for one file: the lines appended to [lines],
    and how the body ended. *)
Definition coord_body (fname : string) (data : json)
  : list string * res unit :=
  match coord_header fname data with
  | Ok (hdr, items) =>
      match by_scenario items [] with
      | Ok groups =>
          let (rows, r) := scenario_rows groups in
          (hdr ++ scenario_table_head ++ rows
           ++ match r with Ok _ => [""] | _ => [] end, r)
      | Raise e => (hdr, Raise e)
      | Unsupported => (hdr, Unsupported)
      end
  | Raise e => ([], Raise e)
  | Unsupported => ([], Unsupported)
  end.

Definition coord_error (fname : string) (e : exn) : list string :=
  [ "### " +++ fname; ""; "(error parsing report: " +++ exn_str e +++ ")"; "" ].

(** One iteration of the loop at line 335; [load] is the result of
    [load_report(path)]. *)
Definition coord_file (file : string * res json) : res (list string) :=
  match snd file with
  | Ok data =>
      match coord_body (fst file) data with
      | (ls, Ok _) => Ok ls
      | (ls, Raise e) => Ok (ls ++ coord_error (fst file) e)
      | (_, Unsupported) => Unsupported
      end
  | Raise e => Ok (coord_error (fst file) e)
  | Unsupported => Unsupported
  end.

(** The text appended to the report when coordinator files are present. *)
Definition coordinator_appendix (coord_files : list (string * res json))
  : res string :=
  match coord_files with
  | [] => Ok ""
  | _ =>
      sections <- map_res coord_file coord_files ;;
      Ok (newline +++ join newline
            ([ newline +++ "---" +++ newline;
               "## Coordinator Experiments (Appendix)";
               newline ] ++ List.concat sections))
  end.

(** *** The analysis loop (lines 308-319) *)

(** The two calls inside the [try] of line 313; [snd file] is the result
    of [load_report(report_path)]. *)
Definition analysis_of (file : string * res json) : res SuiteAnalysis :=
  report <- snd file ;; analyze_suite (fst file) report.

(** One iteration: the lines printed and the analysis appended, if any. *)
Definition analyze_file (file : string * res json)
  : res (list string * list SuiteAnalysis) :=
  let announce := "Analyzing " +++ fst file +++ "..." in
  match analysis_of file with
  | Ok analysis =>
      Ok ([ announce;
            "  ✅ Success rate: " +++ num_fmt 1 (success_rate analysis)
              +++ "%" ],
          [analysis])
  | Raise e => Ok ([ announce; "  ❌ Error: " +++ exn_str e ], [])
  | Unsupported => Unsupported
  end.

Fixpoint analyze_files (files : list (string * res json))
  : res (list string * list SuiteAnalysis) :=
  match files with
  | [] => Ok ([], [])
  | f :: files' =>
      one <- analyze_file f ;;
      rest <- analyze_files files' ;;
      Ok (fst one ++ fst rest, snd one ++ snd rest)
  end.

(** *** The console summary (lines 386-402) *)

(** [f"{v:<30}"] *)
Definition py_ljust (width : nat) (v : json) : res string :=
  match v with
  | JStr s => Ok (pad_right " " width s)
  | JNum (PyBool b) => Ok (pad_right " " width (if b then "1" else "0"))
  | JNum n => s <- num_str n ;; Ok (pad_right " " width s)
  | _ => Raise (TypeError ("unsupported format string passed to "
                           +++ type_name v +++ ".__format__"))
  end.

Definition status_line (a : SuiteAnalysis) : res string :=
  let rate := num_val (success_rate a) in
  let status := if Qle_bool 80 rate then "✅"
                else if Qle_bool 60 rate then "⚠️" else "❌" in
  nm <- py_ljust 30 (suite_name a) ;;
  Ok ("  " +++ status +++ " " +++ nm +++ " "
      +++ pad_left " " 6 (num_fmt 1 (success_rate a)) +++ "%").

(** The status lines printed before the loop at line 399 ends or raises. *)
Fixpoint status_lines (analyses : list SuiteAnalysis)
  : list string * res unit :=
  match analyses with
  | [] => ([], Ok tt)
  | a :: analyses' =>
      match status_line a with
      | Ok l => let (ls, r) := status_lines analyses' in (l :: ls, r)
      | Raise e => ([], Raise e)
      | Unsupported => ([], Unsupported)
      end
  end.

Definition console_totals (analyses : list SuiteAnalysis)
  : res (list string) :=
  tests <- total_tests analyses ;;
  passed <- total_passed analyses ;;
  rate <- overall_rate passed tests ;;
  s_tests <- num_comma tests ;;
  Ok [ "Total Tests: " +++ s_tests;
       "Overall Success Rate: " +++ num_fmt 1 rate +++ "%";
       "";
       "Suite Performance:" ].

(** The lines printed from line 386 on, and how the printing ended. *)
Definition console_summary (analyses : list SuiteAnalysis)
  : list string * res unit :=
  let banner :=
    [ str_repeat "=" 70; "ANALYSIS SUMMARY"; str_repeat "=" 70; "" ] in
  match console_totals analyses with
  | Ok totals =>
      let (ls, r) := status_lines analyses in
      (banner ++ totals ++ ls ++ match r with Ok _ => [""] | _ => [] end, r)
  | Raise e => (banner, Raise e)
  | Unsupported => (banner, Unsupported)
  end.

(** *** The run *)

(** How a run of [main] ends: the standard output, the text written to
    [01_DETAILED_ANALYSIS.md] if the run got that far, and the exit status
    ([Crashed]: an uncaught exception, exit status 1). *)
Inductive outcome : Type :=
| Exited (code : nat) (console : list string) (document : option string)
| Crashed (e : exn) (console : list string) (document : option string)
| OutOfModel.

(** The text written to the output file: the report of the suites, then
    the coordinator appendix (line 375). *)
Definition document (now : datetime) (analyses : list SuiteAnalysis)
  (coord_files : list (string * res json)) : res string :=
  report <- generate_markdown_report now analyses ;;
  appendix <- coordinator_appendix coord_files ;;
  Ok (report +++ appendix).

(** [main] from line 298 on: [results_dir] exists, [report_files] are the
    sorted [*_report.json] files, given by suite id and by the result of
    loading them, and [coord_files] the coordinator files found at lines
    328-331, given by name and by the result of loading them. *)
Definition main (now : datetime) (results_dir : string)
  (report_files coord_files : list (string * res json)) : outcome :=
  match report_files with
  | [] => Exited 1 ["Error: No report files found in " +++ results_dir] None
  | _ =>
      let out0 := [ "Found " +++ nat_str (List.length report_files)
                      +++ " unified test reports"; "" ] in
      match analyze_files report_files with
      | Unsupported => OutOfModel
      | Raise e => Crashed e out0 None
      | Ok (printed, analyses) =>
          let out1 := out0 ++ printed
                      ++ [""; "Generating detailed analysis report..."] in
          match document now analyses coord_files with
          | Unsupported => OutOfModel
          | Raise e => Crashed e out1 None
          | Ok document =>
              let out2 := out1
                ++ [ "✅ Detailed analysis saved to: " +++ results_dir
                       +++ "/01_DETAILED_ANALYSIS.md"; "" ] in
              match console_summary analyses with
              | (_, Unsupported) => OutOfModel
              | (ls, Raise e) => Crashed e (out2 ++ ls) (Some document)
              | (ls, Ok _) => Exited 0 (out2 ++ ls) (Some document)
              end
          end
      end
  end.


(** ** The totals in binary64

    The embedding above adds floats exactly.  CPython adds them in
    binary64: [sum] goes through the items from left to right, adds ints
    exactly and rounds every addition that involves a float to the nearest
    binary64 number.  The definitions of this section follow that order of
    additions, to tell what the exact sums leave out.  (From version 3.12
    on, [sum] also carries a correction term between additions of two
    floats; that is not part of the embedding.) *)

(** The binary64 number nearest to [q], ties to even: 53 significant bits.
    The range of the exponent is not modelled (no overflow, no subnormal
    numbers). *)
Definition binary64 (q : Q) : Q :=
  if Qeq_bool q 0 then 0
  else
    let a := Qabs q in
    let e0 := (Z.log2 (Qnum a) - Z.log2 (Zpos (Qden a)))%Z in
    let e := if Qle_bool (2 ^ e0) a then e0 else (e0 - 1)%Z in
    let s := (52 - e)%Z in
    Qred (inject_Z (round_half_even (q * 2 ^ s)) * 2 ^ (- s)).

(** [a + b]: exact on ints; when an operand is a float the other one is
    converted to a float and the sum is rounded. *)
Definition py_add64 (a b : number) : number :=
  match num_int a, num_int b with
  | Some x, Some y => PyInt (x + y)
  | _, _ => PyFloat (binary64 (binary64 (num_val a) + binary64 (num_val b)))
  end.

Definition add_to64 (acc : number) (v : json) : res number :=
  match v with
  | JNum n => Ok (py_add64 acc n)
  | _ => Raise (TypeError ("unsupported operand type(s) for +: '"
                           +++ num_type_name acc +++ "' and '"
                           +++ type_name v +++ "'"))
  end.

Fixpoint sum_from64 (acc : number) (l : list json) : res number :=
  match l with
  | [] => Ok acc
  | v :: l' => acc' <- add_to64 acc v ;; sum_from64 acc' l'
  end.

Definition py_sum64 (l : list json) : res number := sum_from64 (PyInt 0) l.

(** The sums of lines 89, 90 and 93. *)
Definition total_tests64 (analyses : list SuiteAnalysis) : res number :=
  py_sum64 (map total_runs analyses).

Definition total_passed64 (analyses : list SuiteAnalysis) : res number :=
  py_sum64 (map successful_runs analyses).

Definition total_time64 (analyses : list SuiteAnalysis) : res number :=
  py_sum64 (map total_duration analyses).

(** An [int] (or a [bool], which adds as one). *)
Definition is_int (v : json) : bool :=
  match v with
  | JNum (PyInt _) | JNum (PyBool _) => true
  | _ => false
  end.

Definition int_val (v : json) : Z :=
  match v with
  | JNum n => match num_int n with Some z => z | None => 0%Z end
  | _ => 0%Z
  end.

Definition z_sum (l : list json) : Z :=
  fold_right (fun v acc => (int_val v + acc)%Z) 0%Z l.


(** ** Specification vocabulary for the leaderboard *)

(** The rows filed under the id [k]. *)
Definition rows_for (k : json) (rows : list PromptStats) : list PromptStats :=
  filter (fun p => key_eqb (promptId p) k) rows.

(** Ids in the order of their first sighting: scan the ids from left to
    right and append each one that was not met before. *)
Definition note_key (k : json) (seen : list json) : list json :=
  if existsb (fun k' => key_eqb k' k) seen then seen else seen ++ [k].

Definition first_seen (ks : list json) : list json :=
  fold_left (fun seen k => note_key k seen) ks [].

(** [d] accumulates exactly the rows [rs], each once, under the name of
    the first of them. *)
Definition tracks (rs : list PromptStats) (d : PromptTotals) : Prop :=
  hd_error (map promptName rs) = Some (name d) /\
  total_pass_rate d = fold_left py_add (map passAtNRate rs) (PyInt 0) /\
  total_dup_rate d = fold_left py_add (map meanDupRate rs) (PyInt 0) /\
  suite_count d = Z.of_nat (List.length rs).

Definition distinct_keys (ks : list json) : Prop :=
  ForallOrdPairs (fun a b => key_eqb a b = false) ks.

(** The state of [all_prompts] after the rows [rows]. *)
Definition leaderboard_inv (rows : list PromptStats)
    (m : list (json * PromptTotals)) : Prop :=
  Forall (fun kd => key_eqb (fst kd) (fst kd) = true /\
                    tracks (rows_for (fst kd) rows) (snd kd)) m /\
  distinct_keys (map fst m) /\
  (forall p, In p rows ->
     Exists (fun k => key_eqb k (promptId p) = true) (map fst m)) /\
  map fst m = first_seen (map promptId rows).


(** The rows without an id: [agg.get('promptId')] was [None]. *)
Definition idless_rows (rows : list PromptStats) : list PromptStats :=
  filter (fun p => match promptId p with JNull => true | _ => false end) rows.


(** ** Specification vocabulary for the coordinator summary *)

(** [r.get(key)] is true. *)
Definition flag (key : string) (r : json) : bool :=
  match py_get r key JNull with
  | Ok v => py_truthy v
  | _ => false
  end.

(** The numeric [diagnostics.dupRate] of a run record, if it carries one. *)
Definition dup_rate_of (r : json) : option number :=
  match py_get r "diagnostics" JNull with
  | Ok d =>
      match py_get (if py_truthy d then d else JObj []) "dupRate" JNull with
      | Ok (JNum n) => Some n
      | _ => None
      end
  | _ => None
  end.

Definition numeric_dup_rates (runs : list json) : list number :=
  flat_map (fun r => match dup_rate_of r with
                     | Some n => [n]
                     | None => []
                     end) runs.

Definition q_sum (ns : list number) : Q :=
  fold_right (fun n acc => num_val n + acc) 0 ns.


(** Equality of Python numbers: the same value, and a float on both sides
    or on neither. *)
Definition is_float (n : number) : bool :=
  match n with PyFloat _ => true | _ => false end.

Definition same_number (a b : number) : Prop :=
  is_float a = is_float b /\ num_val a == num_val b.


(** ** Specification vocabulary for documents *)

(** What every document starts with, up to the timestamp. *)
Definition doc_prefix : string :=
  "# Detailed AI Prompt Test Analysis" +++ newline +++ newline
  +++ "**Generated:** ".

Fixpoint has_newline (s : string) : bool :=
  match s with
  | EmptyString => false
  | String c s' => Ascii.eqb c (ascii_of_nat 10) || has_newline s'
  end.

(** [needle in text] *)
Definition occurs (needle text : string) : bool :=
  match index 0 needle text with
  | Some _ => true
  | None => false
  end.

(** The analyses of the files that load and analyze, in order. *)
Definition analysed (files : list (string * res json)) : list SuiteAnalysis :=
  flat_map (fun f => match analysis_of f with
                     | Ok a => [a]
                     | _ => []
                     end) files.


(** The scenario a run record is filed under, and the records of one
    scenario. *)
Definition scenario_of (r : json) : json :=
  match py_get r "scenarioId" (JStr "unknown") with
  | Ok sid => sid
  | _ => JNull
  end.

Definition records_for (sid : json) (results : list json) : list json :=
  filter (fun r => key_eqb (scenario_of r) sid) results.

(** The state of [by_scenario] after the records [done]. *)
Definition groups_inv (done : list json) (m : list (json * list json))
  : Prop :=
  Forall (fun g => key_eqb (fst g) (fst g) = true /\
                   snd g <> [] /\
                   snd g = records_for (fst g) done) m /\
  distinct_keys (map fst m) /\
  (forall r, In r done ->
     Exists (fun k => key_eqb k (scenario_of r) = true) (map fst m)).


(** ** Specification vocabulary for the shape of a report *)

Definition is_num (v : json) : bool :=
  match v with JNum _ => true | _ => false end.

Definition is_arr (v : json) : bool :=
  match v with JArr _ => true | _ => false end.

(** The key is missing from the dict, or its value satisfies [p]. *)
Definition absent_or (p : json -> bool) (key : string)
    (m : list (string * json)) : bool :=
  match assoc_get key m with
  | Some v => p v
  | None => true
  end.

Definition well_shaped_stats (v : json) : bool :=
  match v with
  | JObj m =>
      absent_or is_num "passAtNRate" m && absent_or is_num "meanDupRate" m
      && absent_or is_num "stdevDupRate" m
      && absent_or is_num "jsonStrictRate" m
      && absent_or is_num "insufficientRate" m
      && absent_or is_num "formatErrorRate" m
  | _ => false
  end.

Definition well_shaped_agg (v : json) : bool :=
  match v with
  | JObj m => absent_or well_shaped_stats "overallStats" m
  | _ => false
  end.

Definition well_shaped_rankings (v : json) : bool :=
  match v with
  | JObj m =>
      absent_or is_arr "byPassRate" m && absent_or is_arr "byQuality" m
      && absent_or is_arr "bySpeed" m && absent_or is_arr "byConsistency" m
  | _ => false
  end.

Definition well_shaped_aggregates (v : json) : bool :=
  match v with
  | JArr l => forallb well_shaped_agg l
  | _ => false
  end.

(** A report in which every field [analyze_suite] computes with is missing
    or has the expected type: numbers for the counts and the duration, a
    dict of lists for [rankings], a list of dicts with numeric statistics
    for [aggregateResults]. *)
Definition well_shaped_report (v : json) : bool :=
  match v with
  | JObj m =>
      absent_or is_num "totalRuns" m && absent_or is_num "successfulRuns" m
      && absent_or is_num "totalDuration" m
      && absent_or well_shaped_rankings "rankings" m
      && absent_or well_shaped_aggregates "aggregateResults" m
  | _ => false
  end.

(** The exceptions of an ill-typed value. *)
Definition is_type_error (e : exn) : bool :=
  match e with
  | TypeError _ | AttributeError _ => true
  | _ => false
  end.

(** [r] raises nothing but exceptions in [P]. *)
Definition raises_only {A : Type} (P : exn -> Prop) (r : res A) : Prop :=
  forall e, r = Raise e -> P e.


(** An analysis that [analyze_suite] returned for some report. *)
Definition produced (a : SuiteAnalysis) : Prop :=
  exists id r, analyze_suite id r = Ok a.

(** The counts of an analysis are numbers with
    [0 <= successful_runs <= total_runs]. *)
Definition consistent_counts (a : SuiteAnalysis) : Prop :=
  exists s t, successful_runs a = JNum s /\ total_runs a = JNum t /\
              0 <= num_val s <= num_val t.


(** The lines of a report on no suite at all, after the header. *)
Definition empty_report_body : list string :=
  [ "- **Total Test Runs Across All Suites:** 0";
    "- **Overall Success Rate:** 0.0%";
    "- **Total Test Duration:** 0.0s (0.0 minutes)";
    "- **Average Time Per Test:** 0.00s";
    "";
    "### Suite Performance Comparison";
    "";
    "| Suite | Runs | Success Rate | Duration | Avg/Run |";
    "|-------|------|--------------|----------|---------|";
    ""; "---"; ""; "## Detailed Suite Analysis"; "";
    "## Recommendations & Insights";
    "";
    "### Best Performing Prompts Overall";
    "";
    "### Areas for Improvement";
    "" ].

(** The run ended on an uncaught exception, or outside the embedding,
    before anything was written. *)
Definition aborted_without_document (o : outcome) : Prop :=
  o = OutOfModel \/ exists e out, o = Crashed e out None.


(** The exception that ended the [try] of a coordinator file, if any:
    raised by [load_report] or in the body. *)
Definition coord_failure (file : string * res json) : option exn :=
  match snd file with
  | Raise e => Some e
  | Ok data =>
      match snd (coord_body (fst file) data) with
      | Raise e => Some e
      | _ => None
      end
  | Unsupported => None
  end.

(** The mean of the numbers [ns], as line 368 computes it. *)
Definition mean_or_zero (ns : list number) : number :=
  match ns with
  | [] => PyFloat 0
  | _ => PyFloat (num_val (fold_left py_add ns (PyInt 0))
                  / inject_Z (Z.of_nat (List.length ns)))
  end.


(** A value that the left-aligned format of line 401 accepts: a string or
    a number. *)
Definition formattable (v : json) : bool :=
  match v with
  | JStr _ | JNum _ => true
  | _ => false
  end.

(** The exception of [f"{v:<30}"] on another value. *)
Definition format_error (v : json) : exn :=
  TypeError ("unsupported format string passed to " +++ type_name v
             +++ ".__format__").


(** The exception of [f"{None:<30}"] at line 401. *)
Definition none_format_error : exn :=
  TypeError "unsupported format string passed to NoneType.__format__".


(** ** Specification vocabulary for what the report leaves out *)

(** The [sum_runs] of every entry is the sum of the [totalRuns] of its
    rows, which are all numbers. *)
Definition runs_tracked (rows : list PromptStats)
    (m : list (json * PromptTotals)) : Prop :=
  Forall (fun kd =>
            exists ns,
              map totalRuns (rows_for (fst kd) rows) = map JNum ns /\
              sum_runs (snd kd) = fold_left py_add ns (PyInt 0)) m.

(** A prompt row and an analysis without the fields that
    [generate_markdown_report] never reads. *)
Definition forget_row (p : PromptStats) : PromptStats :=
  {| promptId := promptId p; promptName := promptName p;
     passAtNRate := passAtNRate p; meanDupRate := meanDupRate p;
     stdevDupRate := stdevDupRate p; jsonStrictRate := jsonStrictRate p;
     insufficientRate := PyInt 0; formatErrorRate := PyInt 0;
     meanQualityScore := meanQualityScore p; totalRuns := totalRuns p |}.

Definition forget_unused (a : SuiteAnalysis) : SuiteAnalysis :=
  {| suite_id := suite_id a; suite_name := suite_name a;
     total_runs := total_runs a; successful_runs := successful_runs a;
     failed_runs := failed_runs a; success_rate := success_rate a;
     total_duration := total_duration a;
     avg_duration_per_run := avg_duration_per_run a;
     top_prompts := {| byPassRate := byPassRate (top_prompts a);
                       byQuality := byQuality (top_prompts a);
                       bySpeed := bySpeed (top_prompts a);
                       byConsistency := JArr [] |};
     prompt_analysis := map forget_row (prompt_analysis a);
     environment := environment a |}.


(** ** Specification vocabulary for the rescaling of rates *)

(** [field] is the number stored under [key] in [stats] (0 when the key
    is missing), multiplied by 100. *)
Definition rescaled (stats : json) (key : string) (field : number) : Prop :=
  exists raw, py_get stats key zero = Ok (JNum raw) /\
              field = py_mul raw (PyInt 100).


(** ** Specification vocabulary for the reports outside the embedding *)

Definition is_obj (v : json) : bool :=
  match v with JObj _ => true | _ => false end.

(** A string or a list: a sequence, which [* 100] repeats. *)
Definition is_sequence (v : json) : bool :=
  match v with JStr _ | JArr _ => true | _ => false end.

Definition ranking_keys : list string :=
  [ "byPassRate"; "byQuality"; "bySpeed"; "byConsistency" ].

Definition rate_keys : list string :=
  [ "passAtNRate"; "meanDupRate"; "stdevDupRate"; "jsonStrictRate";
    "insufficientRate"; "formatErrorRate" ].

(** The value found under [key] satisfies [p]. *)
Definition holds_at (p : json -> bool) (v : json) (default : json)
    (key : string) : bool :=
  match py_get v key default with
  | Ok x => p x
  | _ => false
  end.

(** Some ranking of the report is a dict, which lines 32-35 slice. *)
Definition slices_dict (report : json) : bool :=
  match py_get report "rankings" (JObj []) with
  | Ok rankings => existsb (holds_at is_obj rankings (JArr [])) ranking_keys
  | _ => false
  end.

(** Some rate of a prompt is a string or a list, which lines 47-52
    repeat a hundred times. *)
Definition repeats_rate (agg : json) : bool :=
  match py_get agg "overallStats" (JObj []) with
  | Ok stats => existsb (holds_at is_sequence stats zero) rate_keys
  | _ => false
  end.

Definition repeats_sequence (report : json) : bool :=
  match py_get report "aggregateResults" (JArr []) with
  | Ok aggregates =>
      match py_iter aggregates with
      | Ok items => existsb repeats_rate items
      | _ => false
      end
  | _ => false
  end.


(** ** Example inputs *)

Definition jint (z : Z) : json := JNum (PyInt z).
Definition jfloat (q : Q) : json := JNum (PyFloat q).

(** [{"totalRuns": 10, "successfulRuns": 7, "failedRuns": 3,
      "totalDuration": 50.0}] *)
Definition report_7_of_10 : json :=
  JObj [ ("totalRuns", jint 10); ("successfulRuns", jint 7);
         ("failedRuns", jint 3); ("totalDuration", jfloat 50) ].

(** [{"successfulRuns": 2}]: no [totalRuns], which defaults to 0. *)
Definition report_2_of_0 : json :=
  JObj [ ("successfulRuns", jint 2) ].

(** The analyses [main] collects from the given files. *)
Definition analyses_of (files : list (string * res json))
  : list SuiteAnalysis :=
  match analyze_files files with
  | Ok (_, analyses) => analyses
  | _ => []
  end.

Definition prompt_agg (id : option string) (nm : string) (runs : Z)
    (pass dup : Q) : json :=
  JObj ((match id with Some i => [("promptId", JStr i)] | None => [] end)
        ++ [ ("promptName", JStr nm);
             ("totalRuns", jint runs);
             ("overallStats",
              JObj [ ("passAtNRate", jfloat pass);
                     ("meanDupRate", jfloat dup) ]) ]).

(** Suite A: prompt p1 passes 0.8 of its runs and p2 0.7. *)
Definition report_A : json :=
  JObj [ ("suiteName", JStr "Suite A");
         ("totalRuns", jint 20); ("successfulRuns", jint 15);
         ("failedRuns", jint 5); ("totalDuration", jfloat 40);
         ("aggregateResults",
          JArr [ prompt_agg (Some "p1") "Prompt One" 10 (8 # 10) (1 # 10);
                 prompt_agg (Some "p2") "Prompt Two" 10 (7 # 10) (2 # 10) ]) ].

(** Suite B: p1 passes 0.6, p3 0.9 and p2 0.7. *)
Definition report_B : json :=
  JObj [ ("suiteName", JStr "Suite B");
         ("totalRuns", jint 30); ("successfulRuns", jint 22);
         ("failedRuns", jint 8); ("totalDuration", jfloat 75);
         ("aggregateResults",
          JArr [ prompt_agg (Some "p1") "Prompt One" 10 (6 # 10) (3 # 10);
                 prompt_agg (Some "p3") "Prompt Three" 10 (9 # 10) 0;
                 prompt_agg (Some "p2") "Prompt Two" 10 (7 # 10) (2 # 10) ]) ].

Definition analyses_AB : list SuiteAnalysis :=
  analyses_of [ ("A", Ok report_A); ("B", Ok report_B) ].

(** Two suites, each with one prompt that has no [promptId]. *)
Definition report_idless_1 : json :=
  JObj [ ("totalRuns", jint 4); ("successfulRuns", jint 2);
         ("aggregateResults",
          JArr [ prompt_agg None "Alpha" 4 (5 # 10) 0 ]) ].

Definition report_idless_2 : json :=
  JObj [ ("totalRuns", jint 6); ("successfulRuns", jint 6);
         ("aggregateResults",
          JArr [ prompt_agg None "Beta" 6 1 0 ]) ].

Definition analyses_idless : list SuiteAnalysis :=
  analyses_of [ ("one", Ok report_idless_1); ("two", Ok report_idless_2) ].

(** Three prompts of one suite, the first and the last with equal rates. *)
Definition report_ties : json :=
  JObj [ ("aggregateResults",
          JArr [ prompt_agg (Some "a") "First" 1 (5 # 10) 0;
                 prompt_agg (Some "b") "Second" 1 (9 # 10) 0;
                 prompt_agg (Some "c") "Third" 1 (5 # 10) 0 ]) ].


(** Four run records of scenario s1: three pass, two carry a numeric
    [diagnostics.dupRate], 0.1 and 0.3. *)
Definition run_record (pass : bool) (items : Z) (diag : option json) : json :=
  JObj ([ ("scenarioId", JStr "s1");
          ("scenarioName", JStr "Scenario One");
          ("passAtN", JNum (PyBool pass));
          ("uniqueItems", jint items);
          ("wouldEscalatePCC", JNum (PyBool false)) ]
        ++ match diag with
           | Some d => [("diagnostics", JObj [("dupRate", d)])]
           | None => []
           end).

Definition runs_s1 : list json :=
  [ run_record true 10 (Some (jfloat (1 # 10)));
    run_record true 12 None;
    run_record false 6 (Some (JStr "n/a"));
    run_record true 8 (Some (jfloat (3 # 10))) ].


Definition noon : datetime :=
  {| year := 2025; month := 10; day := 28;
     hour := 12; minute := 0; second := 5 |}.

Definition midnight : datetime :=
  {| year := 2026; month := 1; day := 1;
     hour := 0; minute := 0; second := 0 |}.



(** A coordinator report with the four runs of scenario s1. *)
Definition coord_report : json :=
  JObj [ ("scenarios", JArr [JStr "s1"]); ("results", JArr runs_s1) ].

Definition coord_files_1 : list (string * res json) :=
  [ ("coordinator_experiments_report.json", Ok coord_report) ].


Definition ranked (nm : string) (score : Q) : json :=
  JObj [ ("promptName", JStr nm); ("score", jfloat score) ].

(** A report whose pass-rate ranking has four entries and whose speed
    ranking has one; the two other rankings are missing. *)
Definition report_rankings : json :=
  JObj [ ("rankings",
          JObj [ ("byPassRate",
                  JArr [ ranked "w" 1; ranked "x" (9 # 10);
                         ranked "y" (8 # 10); ranked "z" (7 # 10) ]);
                 ("bySpeed", JArr [ ranked "y" (1 # 2) ]) ]) ].


(** Two suites that give the prompt p1 different names. *)
Definition analyses_renamed : list SuiteAnalysis :=
  analyses_of
    [ ("first",
       Ok (JObj [ ("aggregateResults",
                   JArr [ prompt_agg (Some "p1") "Old name" 5 1 0 ]) ]));
      ("second",
       Ok (JObj [ ("aggregateResults",
                   JArr [ prompt_agg (Some "p1") "New name" 5 0 0 ]) ])) ].

(** A suite with twelve prompts, p0 to p11, of decreasing pass rate. *)
Definition twelve_prompts : list json :=
  map (fun i => prompt_agg (Some ("p" +++ nat_str i)) ("Prompt " +++ nat_str i)
                  1 ((12 - Z.of_nat i) # 12) 0)
      (seq 0 12).

Definition rows_twelve : list PromptStats :=
  all_rows
    (analyses_of
       [ ("twelve",
          Ok (JObj [ ("aggregateResults", JArr twelve_prompts) ])) ]).


(** A report with one prompt that has an id but no name. *)
Definition nameless_file : string * res json :=
  ("nameless",
   Ok (JObj [ ("aggregateResults",
               JArr [ JObj [ ("promptId", JStr "p9");
                             ("totalRuns", jint 3) ] ]) ])).

(** A report whose [failedRuns] is a string. *)
Definition failed_text_file : string * res json :=
  ("text", Ok (JObj [ ("totalRuns", jint 3); ("failedRuns", JStr "none") ])).

(** Two files that do not load. *)
Definition broken_files : list (string * res json) :=
  [ ("one", Raise (JSONDecodeError "Expecting value: line 1 column 1 (char 0)"));
    ("two", Ok (JArr [])) ].


(** A coordinator file whose second record is not a dict: the header and
    nothing of the table is written before the body raises. *)
Definition coord_half_file : string * res json :=
  ("coordinator_experiments_half_report.json",
   Ok (JObj [ ("totalRuns", jint 2); ("successfulRuns", jint 1);
              ("results",
               JArr [ run_record true 5 None;
                      JObj [ ("scenarioId", JArr []) ] ]) ])).

(** Run records of three scenarios, one of them without [scenarioId]. *)
Definition runs_mixed : list json :=
  [ JObj [ ("scenarioId", JStr "s2"); ("passAtN", JNum (PyBool true)) ];
    JObj [ ("passAtN", JNum (PyBool false)) ];
    JObj [ ("scenarioId", JStr "s2"); ("passAtN", JNum (PyBool false)) ];
    JObj [ ("scenarioId", JStr "unknown") ];
    JObj [ ("scenarioId", JStr "s3") ] ].

(** A report whose [suiteName] is JSON [null]. *)
Definition null_name_file : string * res json :=
  ("anonymous",
   Ok (JObj [ ("suiteName", JNull); ("totalRuns", jint 4);
              ("successfulRuns", jint 4) ])).


(** Suite A again, with a consistency ranking and with other
    [insufficientRate] and [formatErrorRate] statistics. *)
Definition report_A_more : json :=
  JObj [ ("suiteName", JStr "Suite A");
         ("totalRuns", jint 20); ("successfulRuns", jint 15);
         ("failedRuns", jint 5); ("totalDuration", jfloat 40);
         ("rankings",
          JObj [ ("byConsistency", JArr [ ranked "Prompt Two" 1 ]) ]);
         ("aggregateResults",
          JArr [ JObj [ ("promptId", JStr "p1");
                        ("promptName", JStr "Prompt One");
                        ("totalRuns", jint 10);
                        ("overallStats",
                         JObj [ ("passAtNRate", jfloat (8 # 10));
                                ("meanDupRate", jfloat (1 # 10));
                                ("insufficientRate", jfloat (1 # 4));
                                ("formatErrorRate", jfloat (1 # 5)) ]) ];
                 prompt_agg (Some "p2") "Prompt Two" 10 (7 # 10) (2 # 10) ]) ].

(** A report with a prompt whose id is a list. *)
Definition list_id_file : string * res json :=
  ("listid",
   Ok (JObj [ ("aggregateResults",
               JArr [ JObj [ ("promptId", JArr [JStr "p"]);
                             ("promptName", JStr "Listed") ] ]) ])).


(** A prompt with every statistic that [analyze_suite] reads. *)
Definition agg_all_rates : json :=
  JObj [ ("promptId", JStr "p1");
         ("promptName", JStr "Prompt One");
         ("totalRuns", jint 10);
         ("overallStats",
          JObj [ ("passAtNRate", jfloat (8 # 10));
                 ("meanDupRate", jfloat (1 # 10));
                 ("stdevDupRate", jfloat (5 # 100));
                 ("jsonStrictRate", jfloat (97 # 100));
                 ("insufficientRate", jfloat (1 # 4));
                 ("formatErrorRate", jfloat (1 # 5));
                 ("meanQualityScore", jfloat (3 # 4)) ]) ].


(** Three suites that took 0.01, 0.11 and 0.03 seconds. *)
Definition timed (id : string) (duration : json) : string * res json :=
  (id, Ok (JObj [ ("totalRuns", jint 1); ("successfulRuns", jint 1);
                  ("totalDuration", duration) ])).

Definition suites_timed : list SuiteAnalysis :=
  analyses_of [ timed "a" (jfloat (1 # 100)); timed "b" (jfloat (11 # 100));
                timed "c" (jfloat (3 # 100)) ].

(** Suites that took 0.01, 2 and 14 seconds, and the same suites with the
    first one last. *)
Definition suites_mixed : list SuiteAnalysis :=
  analyses_of [ timed "x" (jfloat (1 # 100)); timed "y" (jint 2);
                timed "z" (jint 14) ].

Definition suites_mixed_last : list SuiteAnalysis :=
  analyses_of [ timed "y" (jint 2); timed "z" (jint 14);
                timed "x" (jfloat (1 # 100)) ].

(** Suites whose durations are whole seconds. *)
Definition suites_whole : list SuiteAnalysis :=
  analyses_of [ timed "a" (jint 3); timed "b" (jint 40); timed "c" (jint 7) ].


(** A report with a ranking that is a dict, and one with a rate that is a
    string. *)
Definition report_dict_ranking : json :=
  JObj [ ("rankings", JObj [ ("byQuality", JObj []) ]) ].

Definition report_text_rate : json :=
  JObj [ ("aggregateResults",
          JArr [ JObj [ ("overallStats",
                         JObj [ ("meanDupRate", JStr "low") ]) ] ]) ].


(** * Properties *)

(** ** Inversion of the error monad *)

Lemma bind_Ok {A B : Type} (r : res A) (k : A -> res B) (b : B) :
  bind r k = Ok b -> exists a, r = Ok a /\ k a = Ok b.
Proof.
  destruct r as [a | e |]; simpl; intros H; try discriminate.
  exists a; split; [reflexivity | exact H].
Qed.

Ltac inv_bind H :=
  let a := fresh "v" in
  let Ha := fresh "Hv" in
  apply bind_Ok in H; destruct H as (a & Ha & H).

Lemma max1_Ok (v : json) (d : number) :
  max1 v = Ok d -> exists n, v = JNum n /\ d = py_max1 n.
Proof.
  destruct v; simpl; intros H; try discriminate.
  injection H as <-. eauto.
Qed.

Lemma truediv_Ok (v : json) (d x : number) :
  truediv v d = Ok x ->
  exists n, v = JNum n /\ x = PyFloat (num_val n / num_val d).
Proof.
  destruct v; simpl; intros H; try discriminate.
  unfold py_truediv in H. destruct (Qeq_bool (num_val d) 0); try discriminate.
  injection H as <-. eauto.
Qed.

Lemma py_max1_val (n : number) : num_val (py_max1 n) == Qmax 1 (num_val n).
Proof.
  unfold py_max1, py_lt. simpl num_val.
  destruct (Qle_bool (num_val n) (inject_Z 1)) eqn:E; simpl.
  - apply Qle_bool_iff in E. symmetry. apply Q.max_l. exact E.
  - assert (~ num_val n <= 1) as N
      by (intros C; apply Qle_bool_iff in C; change (inject_Z 1) with 1 in E;
          congruence).
    symmetry. apply Q.max_r. apply Qnot_le_lt in N. apply Qlt_le_weak, N.
Qed.

Lemma py_mul_val (a b : number) :
  num_val (py_mul a b) == num_val a * num_val b.
Proof.
  unfold py_mul.
  destruct a as [[|]|x|x], b as [[|]|y|y]; cbn [num_int num_val];
    try rewrite inject_Z_mult; try reflexivity; ring.
Qed.

Lemma py_add_val (a b : number) :
  num_val (py_add a b) == num_val a + num_val b.
Proof.
  unfold py_add.
  destruct a as [[|]|x|x], b as [[|]|y|y]; cbn [num_int num_val];
    try rewrite inject_Z_plus; try reflexivity; ring.
Qed.

(** What [analyze_suite] computes for the success rate. *)
Lemma analyze_suite_success_rate (id : string) (r : json) (a : SuiteAnalysis) :
  analyze_suite id r = Ok a ->
  exists s t, successful_runs a = JNum s /\ total_runs a = JNum t /\
    num_val (success_rate a)
    == num_val s / Qmax 1 (num_val t) * 100.
Proof.
  unfold analyze_suite. intros H.
  inv_bind H. inv_bind H. inv_bind H. inv_bind H.
  apply bind_Ok in H. destruct H as (rate & Hrate & H).
  do 11 (let x := fresh "w" in let Hx := fresh "Hw" in
         apply bind_Ok in H; destruct H as (x & Hx & H)).
  injection H as <-. simpl.
  apply bind_Ok in Hrate. destruct Hrate as (d & Hd & Hrate).
  apply bind_Ok in Hrate. destruct Hrate as (x & Hx & Hrate).
  injection Hrate as <-.
  apply max1_Ok in Hd. destruct Hd as (t & -> & ->).
  apply truediv_Ok in Hx. destruct Hx as (s & -> & ->).
  exists s, t. repeat split.
  rewrite py_mul_val. simpl num_val. rewrite py_max1_val. reflexivity.
Qed.

Lemma rate_bounds (s t : Q) :
  0 <= s <= t ->
  0 <= s / Qmax 1 t * 100 <= 100 /\
  (s / Qmax 1 t * 100 == 0 <-> t == 0 \/ s == 0).
Proof.
  intros [Hs Hst].
  assert (1 <= Qmax 1 t) as H1 by apply Q.le_max_l.
  assert (t <= Qmax 1 t) as H2 by apply Q.le_max_r.
  set (d := Qmax 1 t) in *.
  assert (0 < d) as Hd by lra.
  assert (s / d * 100 == s * 100 / d) as E by (field; lra).
  split; [split|split].
  - rewrite E. apply Qle_shift_div_l; lra.
  - rewrite E. apply Qle_shift_div_r; lra.
  - intros H0. right. rewrite E in H0.
    assert (s * 100 == 0 * d) as H3.
    { rewrite <- H0. field. lra. }
    lra.
  - intros [Ht | Hs0].
    + assert (s == 0) as -> by lra. field. lra.
    + rewrite Hs0. field. lra.
Qed.

(** ** The success rate of a suite *)

(** C1, as stated, fails: the report [{"successfulRuns": 2}], whose absent
    [totalRuns] defaults to 0, is analysed without error, and its success
    rate is 2 / max(1, 0) * 100 = 200: above 100, and not 0 although
    [totalRuns] is 0. *)
Lemma success_rate_above_100 :
  exists a, analyze_suite "s" report_2_of_0 = Ok a /\
            total_runs a = JNum (PyInt 0) /\
            num_val (success_rate a) == 200 /\
            ~ (0 <= num_val (success_rate a) <= 100) /\
            ~ (num_val (success_rate a) == 0).
Proof.
  eexists. split; [reflexivity|]. split; [reflexivity|].
  split; [reflexivity|]. split.
  - intros [_ H]. revert H. vm_compute. intros H. apply H. reflexivity.
  - vm_compute. discriminate.
Qed.

(** C1 (amended): the success rate of an analysed report is
    [successfulRuns / max(1, totalRuns) * 100]; when
    [0 <= successfulRuns <= totalRuns] it lies between 0 and 100, and it is 0
    exactly when [totalRuns = 0] or [successfulRuns = 0]. *)
Theorem success_rate_bounds (id : string) (r : json) (a : SuiteAnalysis)
    (s t : number) :
  analyze_suite id r = Ok a ->
  successful_runs a = JNum s ->
  total_runs a = JNum t ->
  0 <= num_val s <= num_val t ->
  num_val (success_rate a) == num_val s / Qmax 1 (num_val t) * 100 /\
  0 <= num_val (success_rate a) <= 100 /\
  (num_val (success_rate a) == 0 <-> num_val t == 0 \/ num_val s == 0).
Proof.
  intros Ha Hs Ht Hb.
  destruct (analyze_suite_success_rate id r a Ha) as (s' & t' & Hs' & Ht' & E).
  rewrite Hs in Hs'. rewrite Ht in Ht'.
  injection Hs' as <-. injection Ht' as <-.
  split; [exact E|].
  destruct (rate_bounds _ _ Hb) as [B Z].
  rewrite E. split; [exact B | exact Z].
Qed.

Lemma success_rate_bounds_witness :
  exists a, analyze_suite "demo" report_7_of_10 = Ok a /\
    num_val (success_rate a) == 70 /\
    num_val (avg_duration_per_run a) == 5 /\
    0 <= num_val (success_rate a) <= 100.
Proof.
  eexists. split; [reflexivity|].
  split; [reflexivity|]. split; [reflexivity|].
  refine (proj1 (proj2 (success_rate_bounds "demo" report_7_of_10 _
                          (PyInt 7) (PyInt 10) eq_refl eq_refl eq_refl _))).
  split; discriminate.
Defined.

(** ** The stable sort *)

Section SortFacts.
Context {A : Type}.
Variable key : A -> Q.
Variable reverse : bool.

Lemma goes_before_in_order (x y : A) :
  goes_before key reverse x y = true <-> in_order key reverse x y.
Proof.
  unfold goes_before, in_order. destruct reverse; apply Qle_bool_iff.
Qed.

Lemma goes_before_false (x y : A) :
  goes_before key reverse x y = false ->
  in_order key reverse y x /\ ~ key x == key y.
Proof.
  intros H.
  assert (~ in_order key reverse x y) as N.
  { intros C. apply goes_before_in_order in C. congruence. }
  unfold in_order in *. destruct reverse.
  - apply Qnot_le_lt in N. split; [apply Qlt_le_weak, N|].
    intros E. rewrite E in N. exact (Qlt_irrefl _ N).
  - apply Qnot_le_lt in N. split; [apply Qlt_le_weak, N|].
    intros E. rewrite E in N. exact (Qlt_irrefl _ N).
Qed.

Lemma in_order_trans (x y z : A) :
  in_order key reverse x y -> in_order key reverse y z -> in_order key reverse x z.
Proof.
  unfold in_order. destruct reverse; intros H1 H2.
  - exact (Qle_trans _ _ _ H2 H1).
  - exact (Qle_trans _ _ _ H1 H2).
Qed.

Lemma insert_sorted_perm (x : A) (l : list A) :
  Permutation (x :: l) (insert_sorted key reverse x l).
Proof.
  induction l as [|y l IH]; simpl.
  - apply Permutation_refl.
  - destruct (goes_before key reverse x y).
    + apply Permutation_refl.
    + apply perm_trans with (y :: x :: l).
      * apply perm_swap.
      * apply perm_skip, IH.
Qed.

Lemma list_sort_perm (l : list A) : Permutation l (list_sort key reverse l).
Proof.
  induction l as [|x l IH]; simpl.
  - apply perm_nil.
  - apply perm_trans with (x :: list_sort key reverse l).
    + apply perm_skip, IH.
    + apply insert_sorted_perm.
Qed.

Lemma insert_sorted_sorted (x : A) (l : list A) :
  StronglySorted (in_order key reverse) l ->
  StronglySorted (in_order key reverse) (insert_sorted key reverse x l).
Proof.
  induction 1 as [|y l Hl IH Hy]; simpl.
  - constructor; constructor.
  - destruct (goes_before key reverse x y) eqn:E.
    + apply goes_before_in_order in E.
      constructor; [constructor; assumption|].
      constructor; [exact E|].
      apply Forall_impl with (P := (in_order key reverse) y); [|exact Hy].
      intros z Hz. exact (in_order_trans _ _ _ E Hz).
    + apply goes_before_false in E. destruct E as [E _].
      constructor; [exact IH|].
      eapply Permutation_Forall.
      * apply insert_sorted_perm.
      * constructor; assumption.
Qed.

Lemma list_sort_sorted (l : list A) :
  StronglySorted (in_order key reverse) (list_sort key reverse l).
Proof.
  induction l as [|x l IH]; simpl.
  - constructor.
  - apply insert_sorted_sorted, IH.
Qed.

Lemma insert_sorted_stable (k : Q) (x : A) (l : list A) :
  filter (same_key key k) (insert_sorted key reverse x l)
  = filter (same_key key k) (x :: l).
Proof.
  induction l as [|y l IH].
  - reflexivity.
  - cbn [insert_sorted].
    destruct (goes_before key reverse x y) eqn:E; [reflexivity|].
    apply goes_before_false in E. destruct E as [_ N].
    cbn [filter] in *. rewrite IH.
    destruct (same_key key k x) eqn:Ex, (same_key key k y) eqn:Ey; try reflexivity.
    exfalso. apply N. unfold same_key in *.
    apply Qeq_bool_iff in Ex, Ey. rewrite Ex, Ey. reflexivity.
Qed.

(** Stability: the elements of any one key keep their order. *)
Lemma list_sort_stable (k : Q) (l : list A) :
  filter (same_key key k) (list_sort key reverse l) = filter (same_key key k) l.
Proof.
  induction l as [|x l IH].
  - reflexivity.
  - cbn [list_sort fold_right]. rewrite insert_sorted_stable.
    cbn [filter]. fold (list_sort key reverse l). rewrite IH. reflexivity.
Qed.

(** A prefix of a list, filtered, is a prefix of the filtered list. *)
Lemma filter_firstn_prefix (f : A -> bool) (n : nat) (l : list A) :
  exists rest, filter f l = filter f (firstn n l) ++ rest.
Proof.
  exists (filter f (skipn n l)).
  rewrite <- filter_app, firstn_skipn. reflexivity.
Qed.

End SortFacts.

(** ** The prompt rows of a suite *)

Lemma map_res_Forall2 {A B : Type} (f : A -> res B) (l : list A)
    (l' : list B) :
  map_res f l = Ok l' -> Forall2 (fun x y => f x = Ok y) l l'.
Proof.
  revert l'. induction l as [|x l IH]; simpl; intros l' H.
  - injection H as <-. constructor.
  - inv_bind H. inv_bind H. injection H as <-.
    constructor; [assumption | apply IH; assumption].
Qed.

Lemma analyze_suite_rows (id : string) (r : json) (a : SuiteAnalysis) :
  analyze_suite id r = Ok a ->
  exists rows, rows_of_report r rows /\
               prompt_analysis a = list_sort pass_key true rows.
Proof.
  unfold analyze_suite. intros H.
  do 13 (let x := fresh "w" in let Hx := fresh "Hw" in
         apply bind_Ok in H; destruct H as (x & Hx & H)).
  apply bind_Ok in H. destruct H as (rows & Hrows & H).
  inv_bind H. inv_bind H. injection H as <-. simpl.
  exists rows. split; [|reflexivity].
  do 2 eexists. split; [eassumption|]. split; [eassumption|].
  apply map_res_Forall2. assumption.
Qed.

(** C5: the prompt rows of an analysed report are the rows of
    [aggregateResults] sorted by descending [passAtNRate], and the sort is
    stable: the rows of any one rate appear in the order they have in
    [aggregateResults]. *)
Theorem prompt_analysis_sorted_stable (id : string) (r : json)
    (a : SuiteAnalysis) :
  analyze_suite id r = Ok a ->
  exists rows,
    rows_of_report r rows /\
    Permutation rows (prompt_analysis a) /\
    StronglySorted (fun x y => pass_key y <= pass_key x) (prompt_analysis a) /\
    forall k, filter (same_key pass_key k) (prompt_analysis a)
              = filter (same_key pass_key k) rows.
Proof.
  intros H. destruct (analyze_suite_rows id r a H) as (rows & Hr & ->).
  exists rows. split; [exact Hr|]. split; [apply list_sort_perm|].
  split; [exact (list_sort_sorted pass_key true rows)|].
  intros k. apply list_sort_stable.
Qed.

(** ** The cross-suite leaderboard *)

Lemma key_eqb_sym (a b : json) : key_eqb a b = key_eqb b a.
Proof.
  destruct a, b; simpl; try reflexivity.
  - destruct (Qeq_bool (num_val n) (num_val n0)) eqn:E1,
             (Qeq_bool (num_val n0) (num_val n)) eqn:E2; try reflexivity.
    + apply Qeq_bool_iff in E1. symmetry in E1.
      apply Qeq_bool_iff in E1. congruence.
    + apply Qeq_bool_iff in E2. symmetry in E2.
      apply Qeq_bool_iff in E2. congruence.
  - apply String.eqb_sym.
Qed.

Lemma key_eqb_trans (a b c : json) :
  key_eqb a b = true -> key_eqb b c = true -> key_eqb a c = true.
Proof.
  destruct a, b, c; simpl; try discriminate; try reflexivity.
  - intros H1 H2. apply Qeq_bool_iff in H1, H2. apply Qeq_bool_iff.
    rewrite H1. exact H2.
  - intros H1 H2. apply String.eqb_eq in H1, H2. apply String.eqb_eq.
    congruence.
Qed.

Lemma key_eqb_refl (k : json) : hashable k = Ok tt -> key_eqb k k = true.
Proof.
  destruct k; simpl; try discriminate; intros _.
  - reflexivity.
  - apply Qeq_bool_iff. reflexivity.
  - apply String.eqb_refl.
Qed.

(** Equal keys are interchangeable. *)
Lemma key_eqb_congr (a b c : json) :
  key_eqb a b = true -> key_eqb a c = key_eqb b c.
Proof.
  intros H. destruct (key_eqb b c) eqn:E.
  - exact (key_eqb_trans _ _ _ H E).
  - destruct (key_eqb a c) eqn:E'; [|reflexivity].
    rewrite key_eqb_sym in H.
    rewrite (key_eqb_trans _ _ _ H E') in E. discriminate.
Qed.

Lemma bump_Ok (p : PromptStats) (d d' : PromptTotals) :
  bump p d = Ok d' ->
  name d' = name d /\
  total_pass_rate d' = py_add (total_pass_rate d) (passAtNRate p) /\
  total_dup_rate d' = py_add (total_dup_rate d) (meanDupRate p) /\
  suite_count d' = (suite_count d + 1)%Z.
Proof.
  unfold bump. intros H. inv_bind H. injection H as <-. simpl. tauto.
Qed.

(** Where [add_prompt] puts the row: a new entry at the end, or the one
    entry of its id. *)
Lemma add_prompt_Ok (p : PromptStats) (m m' : list (json * PromptTotals)) :
  add_prompt p m = Ok m' ->
  (Forall (fun kd => key_eqb (fst kd) (promptId p) = false) m /\
   exists d0, bump p (new_totals p) = Ok d0 /\ m' = m ++ [(promptId p, d0)])
  \/
  (exists m1 k d m2 d',
     m = m1 ++ (k, d) :: m2 /\
     Forall (fun kd => key_eqb (fst kd) (promptId p) = false) m1 /\
     key_eqb k (promptId p) = true /\
     bump p d = Ok d' /\
     m' = m1 ++ (k, d') :: m2).
Proof.
  revert m'. induction m as [|[k d] m IH]; simpl; intros m' H.
  - inv_bind H. injection H as <-. left. split; [constructor|]. eauto.
  - destruct (key_eqb k (promptId p)) eqn:E.
    + inv_bind H. injection H as <-. right.
      exists [], k, d, m, v. simpl. repeat split; auto.
    + inv_bind H. injection H as <-.
      destruct (IH _ Hv) as [(Hall & d0 & Hd0 & ->)
                            | (m1 & k1 & d1 & m2 & d' & -> & Hall & Hk & Hb & ->)].
      * left. split; [constructor; assumption|]. eauto.
      * right. exists ((k, d) :: m1), k1, d1, m2, d'. simpl.
        repeat split; auto.
Qed.

Lemma rows_for_snoc (k : json) (rows : list PromptStats) (p : PromptStats) :
  rows_for k (rows ++ [p])
  = rows_for k rows ++ (if key_eqb (promptId p) k then [p] else []).
Proof.
  unfold rows_for. rewrite filter_app. reflexivity.
Qed.

Lemma tracks_snoc (rs : list PromptStats) (p : PromptStats)
    (d d' : PromptTotals) :
  tracks rs d -> bump p d = Ok d' -> tracks (rs ++ [p]) d'.
Proof.
  intros (Hn & Hp & Hu & Hc) Hb.
  apply bump_Ok in Hb. destruct Hb as (Bn & Bp & Bu & Bc).
  unfold tracks. rewrite !map_app, !fold_left_app, length_app. simpl.
  rewrite Bn, Bp, Bu, Bc, <- Hp, <- Hu, Hc.
  repeat split; try reflexivity.
  - destruct rs; simpl in *; [discriminate | exact Hn].
  - lia.
Qed.

Lemma tracks_first (p : PromptStats) (d : PromptTotals) :
  bump p (new_totals p) = Ok d -> tracks [p] d.
Proof.
  intros Hb. apply bump_Ok in Hb. destruct Hb as (Bn & Bp & Bu & Bc).
  unfold tracks. simpl. rewrite Bn, Bp, Bu, Bc. simpl. tauto.
Qed.

Lemma distinct_keys_snoc (ks : list json) (k : json) :
  distinct_keys ks ->
  Forall (fun a => key_eqb a k = false) ks ->
  distinct_keys (ks ++ [k]).
Proof.
  unfold distinct_keys. induction 1 as [|a l Ha Hl IH]; simpl; intros Hk.
  - constructor; constructor.
  - inversion Hk; subst. constructor; [|apply IH; assumption].
    apply Forall_app. split; [exact Ha | constructor; [assumption|constructor]].
Qed.

Lemma distinct_keys_after (l1 l2 : list json) (k : json) :
  distinct_keys (l1 ++ k :: l2) -> Forall (fun b => key_eqb k b = false) l2.
Proof.
  unfold distinct_keys. induction l1 as [|a l1 IH]; simpl; intros H.
  - inversion H; subst. assumption.
  - inversion H; subst. apply IH. assumption.
Qed.

Lemma note_key_new (k : json) (seen : list json) :
  Forall (fun a => key_eqb a k = false) seen ->
  note_key k seen = seen ++ [k].
Proof.
  intros H. unfold note_key.
  replace (existsb (fun k' => key_eqb k' k) seen) with false; [reflexivity|].
  symmetry. induction H as [|a l Ha Hl IH]; simpl; [reflexivity|].
  rewrite Ha. exact IH.
Qed.

Lemma note_key_old (k : json) (seen : list json) :
  Exists (fun a => key_eqb a k = true) seen -> note_key k seen = seen.
Proof.
  intros H. unfold note_key.
  replace (existsb (fun k' => key_eqb k' k) seen) with true; [reflexivity|].
  symmetry. apply existsb_exists. apply Exists_exists in H. exact H.
Qed.

Lemma first_seen_snoc (ks : list json) (k : json) :
  first_seen (ks ++ [k]) = note_key k (first_seen ks).
Proof.
  unfold first_seen. rewrite fold_left_app. reflexivity.
Qed.

Lemma rows_for_other (k : json) (rows : list PromptStats) (p : PromptStats) :
  key_eqb k (promptId p) = false -> rows_for k (rows ++ [p]) = rows_for k rows.
Proof.
  intros H. rewrite rows_for_snoc, key_eqb_sym, H. apply app_nil_r.
Qed.

Lemma rows_for_same (k : json) (rows : list PromptStats) (p : PromptStats) :
  key_eqb k (promptId p) = true ->
  rows_for k (rows ++ [p]) = rows_for k rows ++ [p].
Proof.
  intros H. rewrite rows_for_snoc, key_eqb_sym, H. reflexivity.
Qed.

Lemma inv_entries_other (rows : list PromptStats) (p : PromptStats)
    (m : list (json * PromptTotals)) :
  Forall (fun kd => key_eqb (fst kd) (fst kd) = true /\
                    tracks (rows_for (fst kd) rows) (snd kd)) m ->
  Forall (fun kd => key_eqb (fst kd) (promptId p) = false) m ->
  Forall (fun kd => key_eqb (fst kd) (fst kd) = true /\
                    tracks (rows_for (fst kd) (rows ++ [p])) (snd kd)) m.
Proof.
  intros H1 H2. rewrite Forall_forall in *. intros kd Hin.
  rewrite rows_for_other by (apply H2; exact Hin). apply H1. exact Hin.
Qed.

Lemma Forall_fst {V : Type} (P : json -> Prop) (m : list (json * V)) :
  Forall (fun kd => P (fst kd)) m <-> Forall P (map fst m).
Proof.
  rewrite Forall_map. reflexivity.
Qed.

Lemma add_prompt_inv (rows : list PromptStats) (p : PromptStats)
    (m m' : list (json * PromptTotals)) :
  leaderboard_inv rows m ->
  hashable (promptId p) = Ok tt ->
  add_prompt p m = Ok m' ->
  leaderboard_inv (rows ++ [p]) m'.
Proof.
  intros (I1 & I2 & I3 & I4) Hh Ha.
  apply key_eqb_refl in Hh.
  destruct (add_prompt_Ok _ _ _ Ha)
    as [(Hall & d0 & Hd0 & ->)
       | (m1 & k & d & m2 & d' & -> & Hall & Hk & Hb & ->)].
  - (* a new id *)
    assert (rows_for (promptId p) rows = []) as Hnone.
    { unfold rows_for.
      destruct (filter _ rows) as [|q qs] eqn:E; [reflexivity|exfalso].
      assert (In q (filter (fun p0 => key_eqb (promptId p0) (promptId p)) rows))
        as Hq by (rewrite E; left; reflexivity).
      apply filter_In in Hq. destruct Hq as [Hq Hqk].
      specialize (I3 q Hq). apply Exists_exists in I3.
      destruct I3 as (k & Hkin & Hkq).
      apply (proj1 (Forall_fst (fun a => key_eqb a (promptId p) = false) m)) in Hall.
      rewrite Forall_forall in Hall. specialize (Hall k Hkin). simpl in Hall.
      rewrite (key_eqb_trans _ _ _ Hkq Hqk) in Hall. discriminate. }
    repeat split.
    + apply Forall_app. split; [apply inv_entries_other; assumption|].
      constructor; [|constructor]. simpl. split; [exact Hh|].
      rewrite rows_for_same by exact Hh. rewrite Hnone. simpl.
      apply tracks_first. exact Hd0.
    + rewrite map_app. simpl. apply distinct_keys_snoc; [exact I2|].
      apply (Forall_fst (fun a => key_eqb a (promptId p) = false)). exact Hall.
    + intros q Hq. rewrite map_app. apply Exists_app.
      apply in_app_or in Hq. destruct Hq as [Hq | [<- | []]].
      * left. apply I3. exact Hq.
      * right. constructor. exact Hh.
    + rewrite !map_app. simpl. rewrite first_seen_snoc, <- I4.
      symmetry. apply note_key_new. apply (Forall_fst (fun a => key_eqb a (promptId p) = false)). exact Hall.
  - (* an id met before *)
    assert (map fst (m1 ++ (k, d') :: m2) = map fst (m1 ++ (k, d) :: m2))
      as Hkeys by (rewrite !map_app; reflexivity).
    assert (Forall (fun kd => key_eqb (fst kd) (promptId p) = false) m2)
      as Hall2.
    { rewrite map_app in I2. simpl in I2.
      apply distinct_keys_after in I2. apply (Forall_fst (fun a => key_eqb a (promptId p) = false)).
      apply Forall_impl with (2 := I2). intros b Hkb.
      rewrite key_eqb_sym in Hk.
      rewrite <- (key_eqb_congr _ _ b Hk), key_eqb_sym in Hkb.
      exact Hkb. }
    apply Forall_app in I1. destruct I1 as [I1a I1b].
    inversion I1b as [|? ? [Hkk Hd] I1c]; subst. simpl in Hkk, Hd.
    repeat split.
    + apply Forall_app. split; [apply inv_entries_other; assumption|].
      constructor; [|apply inv_entries_other; assumption].
      simpl. split; [exact Hkk|].
      rewrite rows_for_same by exact Hk.
      apply tracks_snoc with (d := d); assumption.
    + rewrite Hkeys. exact I2.
    + intros q Hq. rewrite Hkeys.
      apply in_app_or in Hq. destruct Hq as [Hq | [<- | []]].
      * apply I3. exact Hq.
      * rewrite map_app. apply Exists_app. right. constructor. exact Hk.
    + rewrite Hkeys, I4, map_app. simpl. rewrite first_seen_snoc.
      symmetry. apply note_key_old. rewrite <- I4, map_app.
      apply Exists_app. right. constructor. exact Hk.
Qed.

Lemma add_prompts_inv (rows : list PromptStats) :
  forall (done : list PromptStats) (m m' : list (json * PromptTotals)),
  leaderboard_inv done m ->
  add_prompts rows m = Ok m' ->
  leaderboard_inv (done ++ rows) m'.
Proof.
  induction rows as [|p rows IH]; simpl; intros done m m' Hinv H.
  - injection H as <-. rewrite app_nil_r. exact Hinv.
  - inv_bind H. destruct v. inv_bind H.
    replace (done ++ p :: rows) with ((done ++ [p]) ++ rows)
      by (rewrite <- app_assoc; reflexivity).
    apply IH with (m := v); [|exact H].
    apply add_prompt_inv with (m := m); assumption.
Qed.

Lemma leaderboard_inv_nil : leaderboard_inv [] [].
Proof.
  repeat split; try constructor. intros p [].
Qed.

Lemma with_averages_Ok (kd : json * PromptTotals)
    (ke : json * LeaderboardEntry) :
  with_averages kd = Ok ke ->
  fst ke = fst kd /\ totals (snd ke) = snd kd /\
  avg_pass_rate (snd ke)
  = PyFloat (num_val (total_pass_rate (snd kd))
             / inject_Z (suite_count (snd kd))) /\
  avg_dup_rate (snd ke)
  = PyFloat (num_val (total_dup_rate (snd kd))
             / inject_Z (suite_count (snd kd))).
Proof.
  unfold with_averages, py_truediv. simpl num_val.
  destruct (Qeq_bool (inject_Z (suite_count (snd kd))) 0); simpl;
    [discriminate|].
  intros H. injection H as <-. simpl. tauto.
Qed.

Lemma Forall2_In_r {A B : Type} (R : A -> B -> Prop) (l : list A)
    (l' : list B) (y : B) :
  Forall2 R l l' -> In y l' -> exists x, In x l /\ R x y.
Proof.
  induction 1 as [|a b l l' Hab Hl IH]; simpl; intros Hin; [contradiction|].
  destruct Hin as [<- | Hin].
  - exists a. auto.
  - destruct (IH Hin) as (x & Hx & Hr). exists x. auto.
Qed.

Lemma Forall2_map_fst {A B K : Type} (R : K * A -> K * B -> Prop)
    (l : list (K * A)) (l' : list (K * B)) :
  (forall x y, R x y -> fst y = fst x) ->
  Forall2 R l l' -> map fst l' = map fst l.
Proof.
  intros HR. induction 1 as [|a b l l' Hab Hl IH]; simpl; [reflexivity|].
  rewrite (HR _ _ Hab), IH. reflexivity.
Qed.

(** The dict [all_prompts] at line 249, in terms of the rows it was built
    from. *)
Lemma all_prompts_spec (analyses : list SuiteAnalysis)
    (entries : list (json * LeaderboardEntry)) :
  all_prompts analyses = Ok entries ->
  exists m, leaderboard_inv (all_rows analyses) m /\
            Forall2 (fun kd ke => with_averages kd = Ok ke) m entries.
Proof.
  unfold all_prompts. intros H. inv_bind H. exists v. split.
  - apply (add_prompts_inv _ [] [] v leaderboard_inv_nil Hv).
  - apply map_res_Forall2. exact H.
Qed.

Lemma all_prompts_keys (analyses : list SuiteAnalysis)
    (entries : list (json * LeaderboardEntry)) :
  all_prompts analyses = Ok entries ->
  map fst entries = first_seen (map promptId (all_rows analyses)) /\
  distinct_keys (map fst entries).
Proof.
  intros H. destruct (all_prompts_spec _ _ H) as (m & (I1 & I2 & I3 & I4) & F).
  assert (map fst entries = map fst m) as E.
  { apply Forall2_map_fst with (2 := F).
    intros x y Hxy. apply with_averages_Ok in Hxy. tauto. }
  rewrite E. auto.
Qed.

Lemma all_prompts_entry (analyses : list SuiteAnalysis)
    (entries : list (json * LeaderboardEntry)) (k : json)
    (e : LeaderboardEntry) :
  all_prompts analyses = Ok entries ->
  In (k, e) entries ->
  tracks (rows_for k (all_rows analyses)) (totals e) /\
  key_eqb k k = true /\
  avg_pass_rate e
  = PyFloat (num_val (total_pass_rate (totals e))
             / inject_Z (suite_count (totals e))) /\
  avg_dup_rate e
  = PyFloat (num_val (total_dup_rate (totals e))
             / inject_Z (suite_count (totals e))).
Proof.
  intros H Hin.
  destruct (all_prompts_spec _ _ H) as (m & (I1 & _) & F).
  destruct (Forall2_In_r _ _ _ _ F Hin) as ([k0 d] & Hkd & Hw).
  apply with_averages_Ok in Hw. simpl in Hw.
  destruct Hw as (-> & -> & Hp & Hu).
  rewrite Forall_forall in I1. destruct (I1 _ Hkd) as [Hkk Ht].
  simpl in Hkk, Ht. auto.
Qed.

Lemma all_prompts_covers (analyses : list SuiteAnalysis)
    (entries : list (json * LeaderboardEntry)) (p : PromptStats) :
  all_prompts analyses = Ok entries ->
  In p (all_rows analyses) ->
  exists k e, In (k, e) entries /\ key_eqb k (promptId p) = true.
Proof.
  intros H Hin.
  destruct (all_prompts_keys _ _ H) as [_ _].
  destruct (all_prompts_spec _ _ H) as (m & (_ & _ & I3 & _) & F).
  assert (map fst entries = map fst m) as E.
  { apply Forall2_map_fst with (2 := F).
    intros x y Hxy. apply with_averages_Ok in Hxy. tauto. }
  specialize (I3 p Hin). rewrite <- E in I3.
  apply Exists_exists in I3. destruct I3 as (k & Hk & Hkp).
  apply in_map_iff in Hk. destruct Hk as ([k' e] & <- & Hke).
  exists k', e. auto.
Qed.

(** C4: the leaderboard files every (suite, prompt) row exactly once, under
    the entry of its [promptId] whatever its name; an entry's [suite_count]
    is the number of its rows, its totals are the sums over them and its
    averages are the totals divided by [suite_count]. *)
Theorem leaderboard_accumulates (analyses : list SuiteAnalysis)
    (entries : list (json * LeaderboardEntry)) :
  all_prompts analyses = Ok entries ->
  distinct_keys (map fst entries) /\
  (forall p, In p (all_rows analyses) ->
     exists k e, In (k, e) entries /\ key_eqb k (promptId p) = true) /\
  forall k e, In (k, e) entries ->
    let rs := rows_for k (all_rows analyses) in
    suite_count (totals e) = Z.of_nat (List.length rs) /\
    (1 <= suite_count (totals e))%Z /\
    total_pass_rate (totals e)
    = fold_left py_add (map passAtNRate rs) (PyInt 0) /\
    total_dup_rate (totals e)
    = fold_left py_add (map meanDupRate rs) (PyInt 0) /\
    num_val (avg_pass_rate e)
    == num_val (total_pass_rate (totals e))
       / inject_Z (suite_count (totals e)) /\
    num_val (avg_dup_rate e)
    == num_val (total_dup_rate (totals e))
       / inject_Z (suite_count (totals e)).
Proof.
  intros H. split; [apply (all_prompts_keys _ _ H)|].
  split; [intros p Hp; apply (all_prompts_covers _ _ _ H Hp)|].
  intros k e Hin rs.
  destruct (all_prompts_entry _ _ _ _ H Hin)
    as ((Hn & Hp & Hu & Hc) & _ & Ep & Eu).
  fold rs in Hn, Hp, Hu, Hc.
  repeat split; try assumption.
  - rewrite Hc. destruct rs; simpl in *; [discriminate | lia].
  - rewrite Ep. reflexivity.
  - rewrite Eu. reflexivity.
Qed.

Lemma leaderboard_accumulates_witness :
  exists e rest,
    all_prompts analyses_AB = Ok ((JStr "p1", e) :: rest) /\
    suite_count (totals e) = 2%Z /\
    num_val (avg_pass_rate e) == 70 /\
    total_pass_rate (totals e)
    = fold_left py_add
        (map passAtNRate (rows_for (JStr "p1") (all_rows analyses_AB)))
        (PyInt 0).
Proof.
  do 2 eexists. split; [vm_compute; reflexivity|].
  split; [reflexivity|]. split; [reflexivity|].
  refine (proj1 (proj2 (proj2
    (proj2 (proj2 (leaderboard_accumulates analyses_AB _ eq_refl))
       (JStr "p1") _ (or_introl eq_refl))))).
Defined.

Lemma prompt_analysis_sorted_stable_witness :
  exists a,
    analyze_suite "ties" report_ties = Ok a /\
    map promptId (prompt_analysis a) = [JStr "b"; JStr "a"; JStr "c"] /\
    exists rows,
      rows_of_report report_ties rows /\
      Permutation rows (prompt_analysis a) /\
      StronglySorted (fun x y => pass_key y <= pass_key x)
        (prompt_analysis a) /\
      forall k, filter (same_key pass_key k) (prompt_analysis a)
                = filter (same_key pass_key k) rows.
Proof.
  eexists. split; [vm_compute; reflexivity|]. split; [reflexivity|].
  exact (prompt_analysis_sorted_stable "ties" report_ties _ eq_refl).
Defined.

(** ** Rows without an id *)

Lemma analyze_prompt_no_id (m : list (string * json)) (row : PromptStats) :
  assoc_get "promptId" m = None ->
  analyze_prompt (JObj m) = Ok row ->
  promptId row = JNull.
Proof.
  unfold analyze_prompt. intros Hm H.
  inv_bind H. apply bind_Ok in H. destruct H as (pid & Hpid & H).
  do 9 (let x := fresh "w" in let Hx := fresh "Hw" in
        apply bind_Ok in H; destruct H as (x & Hx & H)).
  injection H as <-. simpl.
  simpl in Hpid. rewrite Hm in Hpid. injection Hpid as <-. reflexivity.
Qed.

Lemma rows_for_null (rows : list PromptStats) :
  rows_for JNull rows = idless_rows rows.
Proof.
  unfold rows_for, idless_rows. apply filter_ext.
  intros p. destruct (promptId p); reflexivity.
Qed.

Lemma key_eqb_null (k : json) : key_eqb k JNull = true -> k = JNull.
Proof.
  destruct k; simpl; intros H; try discriminate. reflexivity.
Qed.

(** At most one of a set of distinct keys equals a given key. *)
Lemma distinct_keys_once (ks : list json) (k : json) :
  distinct_keys ks ->
  (List.length (filter (fun a => key_eqb a k) ks) <= 1)%nat.
Proof.
  unfold distinct_keys. induction 1 as [|a l Ha Hl IH]; simpl; [lia|].
  destruct (key_eqb a k) eqn:E; [|exact IH].
  replace (filter (fun a0 => key_eqb a0 k) l) with (@nil json); [simpl; lia|].
  symmetry. clear IH Hl. induction Ha as [|b l Hb Hl IH]; simpl; [reflexivity|].
  rewrite (key_eqb_congr _ _ b E), key_eqb_sym in Hb.
  rewrite Hb. exact IH.
Qed.

(** C10: a row of [aggregateResults] without [promptId] is recorded with the
    id [None]; the leaderboard files all such rows of all suites under the
    single entry of key [None], whose [suite_count] counts each of them and
    whose name is that of the first. *)
Theorem idless_rows_share_one_entry (analyses : list SuiteAnalysis)
    (entries : list (json * LeaderboardEntry)) :
  all_prompts analyses = Ok entries ->
  idless_rows (all_rows analyses) <> [] ->
  (forall m row, assoc_get "promptId" m = None ->
                 analyze_prompt (JObj m) = Ok row -> promptId row = JNull) /\
  filter (fun k => key_eqb k JNull) (map fst entries) = [JNull] /\
  exists e,
    In (JNull, e) entries /\
    suite_count (totals e)
    = Z.of_nat (List.length (idless_rows (all_rows analyses))) /\
    hd_error (map promptName (idless_rows (all_rows analyses)))
    = Some (name (totals e)).
Proof.
  intros H Hne. split; [exact analyze_prompt_no_id|].
  destruct (idless_rows (all_rows analyses)) as [|p ps] eqn:Eid;
    [congruence|].
  assert (In p (all_rows analyses) /\ promptId p = JNull) as [Hp Hpid].
  { assert (In p (idless_rows (all_rows analyses))) as Hin
      by (rewrite Eid; left; reflexivity).
    unfold idless_rows in Hin. apply filter_In in Hin.
    destruct Hin as [Hin Hnull]. split; [exact Hin|].
    destruct (promptId p); try discriminate. reflexivity. }
  destruct (all_prompts_covers _ _ _ H Hp) as (k & e & Hin & Hk).
  rewrite Hpid in Hk. apply key_eqb_null in Hk. subst k.
  split.
  - destruct (all_prompts_keys _ _ H) as [_ Hd].
    pose proof (distinct_keys_once _ JNull Hd) as Hle.
    assert (In JNull (filter (fun k => key_eqb k JNull) (map fst entries)))
      as Hmem.
    { apply filter_In. split; [|reflexivity].
      apply in_map_iff. exists (JNull, e). auto. }
    destruct (filter (fun k => key_eqb k JNull) (map fst entries))
      as [|a [|b l]]; simpl in *; try contradiction; try lia.
    destruct Hmem as [-> | []]. reflexivity.
  - exists e. split; [exact Hin|].
    destruct (all_prompts_entry _ _ _ _ H Hin) as ((Hn & _ & _ & Hc) & _).
    rewrite rows_for_null, Eid in Hn, Hc. auto.
Qed.

Lemma idless_rows_share_one_entry_witness :
  exists e,
    all_prompts analyses_idless = Ok [(JNull, e)] /\
    name (totals e) = JStr "Alpha" /\
    suite_count (totals e) = 2%Z /\
    filter (fun k => key_eqb k JNull) (map fst [(JNull, e)]) = [JNull].
Proof.
  eexists. split; [vm_compute; reflexivity|].
  split; [reflexivity|]. split; [reflexivity|].
  refine (proj1 (proj2
    (idless_rows_share_one_entry analyses_idless _ eq_refl _))).
  vm_compute. discriminate.
Defined.

(** ** Best and worst prompts *)

(** C6: [best_overall] is the first five entries of the leaderboard sorted
    by descending average pass rate and [worst_overall] the first three
    sorted by ascending average pass rate; both sorts are stable, so entries
    of equal average keep the order of the dict, which is the order in which
    their ids were first met. *)
Theorem best_worst_overall (analyses : list SuiteAnalysis)
    (entries : list (json * LeaderboardEntry)) :
  all_prompts analyses = Ok entries ->
  map fst entries = first_seen (map promptId (all_rows analyses)) /\
  (exists ranked,
     Permutation entries ranked /\
     StronglySorted (fun x y => avg_key y <= avg_key x) ranked /\
     (forall k, filter (same_key avg_key k) ranked
                = filter (same_key avg_key k) entries) /\
     best_overall entries = firstn 5 ranked) /\
  (exists ranked,
     Permutation entries ranked /\
     StronglySorted (fun x y => avg_key x <= avg_key y) ranked /\
     (forall k, filter (same_key avg_key k) ranked
                = filter (same_key avg_key k) entries) /\
     worst_overall entries = firstn 3 ranked).
Proof.
  intros H. split; [apply (all_prompts_keys _ _ H)|]. split.
  - exists (list_sort avg_key true entries).
    split; [apply list_sort_perm|].
    split; [exact (list_sort_sorted avg_key true entries)|].
    split; [intros k; apply list_sort_stable | reflexivity].
  - exists (list_sort avg_key false entries).
    split; [apply list_sort_perm|].
    split; [exact (list_sort_sorted avg_key false entries)|].
    split; [intros k; apply list_sort_stable | reflexivity].
Qed.

Lemma best_worst_overall_witness :
  exists entries,
    all_prompts analyses_AB = Ok entries /\
    map fst entries = [JStr "p1"; JStr "p2"; JStr "p3"] /\
    map fst (best_overall entries) = [JStr "p3"; JStr "p1"; JStr "p2"] /\
    map fst (worst_overall entries) = [JStr "p1"; JStr "p2"; JStr "p3"] /\
    map fst entries = first_seen (map promptId (all_rows analyses_AB)).
Proof.
  eexists. split; [vm_compute; reflexivity|].
  split; [reflexivity|]. split; [reflexivity|]. split; [reflexivity|].
  exact (proj1 (best_worst_overall analyses_AB _ eq_refl)).
Defined.

(** ** The coordinator summary *)

Lemma count_flag_Ok (key : string) (runs : list json) (k : nat) :
  count_flag key runs = Ok k -> k = List.length (filter (flag key) runs).
Proof.
  revert k. induction runs as [|r runs IH]; simpl; intros k H.
  - injection H as <-. reflexivity.
  - inv_bind H. inv_bind H. injection H as <-.
    unfold flag at 1. rewrite Hv.
    rewrite (IH _ Hv0). destruct (py_truthy v); reflexivity.
Qed.

Lemma dup_vals_Ok (runs vals : list json) :
  dup_vals runs = Ok vals -> vals = map JNum (numeric_dup_rates runs).
Proof.
  revert vals. induction runs as [|r runs IH]; simpl; intros vals H.
  - injection H as <-. reflexivity.
  - inv_bind H. inv_bind H. inv_bind H. injection H as <-.
    unfold dup_rate_of. rewrite Hv, Hv0.
    rewrite (IH _ Hv1). destruct v0; reflexivity.
Qed.

Lemma sum_from_numbers (ns : list number) (acc : number) :
  sum_from acc (map JNum ns) = Ok (fold_left py_add ns acc).
Proof.
  revert acc. induction ns as [|n ns IH]; simpl; intros acc;
    [reflexivity | apply IH].
Qed.

Lemma fold_py_add_val (ns : list number) (acc : number) :
  num_val (fold_left py_add ns acc) == num_val acc + q_sum ns.
Proof.
  revert acc. induction ns as [|n ns IH]; simpl; intros acc.
  - ring.
  - rewrite IH, py_add_val. ring.
Qed.

Lemma group_add_cases (sid r : json) (m : list (json * list json)) :
  (Forall (fun g => key_eqb (fst g) sid = false) m /\
   group_add sid r m = m ++ [(sid, [r])])
  \/
  (exists m1 k rs m2,
     m = m1 ++ (k, rs) :: m2 /\
     Forall (fun g => key_eqb (fst g) sid = false) m1 /\
     key_eqb k sid = true /\
     group_add sid r m = m1 ++ (k, rs ++ [r]) :: m2).
Proof.
  induction m as [|[k rs] m IH]; simpl.
  - left. split; [constructor | reflexivity].
  - destruct (key_eqb k sid) eqn:E.
    + right. exists [], k, rs, m. simpl. repeat split; auto.
    + destruct IH as [(Hall & ->) | (m1 & k1 & rs1 & m2 & -> & Hall & Hk & ->)].
      * left. split; [constructor; assumption | reflexivity].
      * right. exists ((k, rs) :: m1), k1, rs1, m2. simpl.
        repeat split; auto.
Qed.

Lemma records_for_snoc (k : json) (done : list json) (r : json) :
  records_for k (done ++ [r])
  = records_for k done ++ (if key_eqb (scenario_of r) k then [r] else []).
Proof.
  unfold records_for. rewrite filter_app. reflexivity.
Qed.

Lemma groups_other (done : list json) (r : json)
    (m : list (json * list json)) :
  Forall (fun g => key_eqb (fst g) (fst g) = true /\ snd g <> [] /\
                   snd g = records_for (fst g) done) m ->
  Forall (fun g => key_eqb (fst g) (scenario_of r) = false) m ->
  Forall (fun g => key_eqb (fst g) (fst g) = true /\ snd g <> [] /\
                   snd g = records_for (fst g) (done ++ [r])) m.
Proof.
  intros H1 H2. rewrite Forall_forall in *. intros g Hin.
  destruct (H1 g Hin) as (Hk & Hne & Hg).
  rewrite records_for_snoc, (key_eqb_sym (scenario_of r) (fst g)),
    (H2 g Hin), app_nil_r. auto.
Qed.

Lemma group_add_inv (done : list json) (r : json)
    (m : list (json * list json)) :
  groups_inv done m ->
  hashable (scenario_of r) = Ok tt ->
  groups_inv (done ++ [r]) (group_add (scenario_of r) r m).
Proof.
  intros (I1 & I2 & I3) Hh. apply key_eqb_refl in Hh.
  set (sid := scenario_of r) in *.
  destruct (group_add_cases sid r m)
    as [(Hall & ->) | (m1 & k & rs & m2 & -> & Hall & Hk & ->)].
  - assert (records_for sid done = []) as Hnone.
    { unfold records_for.
      destruct (filter _ done) as [|q qs] eqn:E; [reflexivity|exfalso].
      assert (In q (filter (fun r0 => key_eqb (scenario_of r0) sid) done))
        as Hq by (rewrite E; left; reflexivity).
      apply filter_In in Hq. destruct Hq as [Hq Hqk].
      specialize (I3 q Hq). apply Exists_exists in I3.
      destruct I3 as (k & Hkin & Hkq).
      apply (proj1 (Forall_fst (fun a => key_eqb a sid = false) m)) in Hall.
      rewrite Forall_forall in Hall. specialize (Hall k Hkin). simpl in Hall.
      rewrite (key_eqb_trans _ _ _ Hkq Hqk) in Hall. discriminate. }
    repeat split.
    + apply Forall_app. split; [apply groups_other; assumption|].
      constructor; [|constructor]. simpl. split; [exact Hh|].
      split; [discriminate|].
      rewrite records_for_snoc, Hnone. fold sid. rewrite Hh. reflexivity.
    + rewrite map_app. simpl. apply distinct_keys_snoc; [exact I2|].
      apply (Forall_fst (fun a => key_eqb a sid = false)). exact Hall.
    + intros q Hq. rewrite map_app. apply Exists_app.
      apply in_app_or in Hq. destruct Hq as [Hq | [<- | []]].
      * left. apply I3. exact Hq.
      * right. constructor. exact Hh.
  - assert (map fst (m1 ++ (k, rs ++ [r]) :: m2)
            = map fst (m1 ++ (k, rs) :: m2))
      as Hkeys by (rewrite !map_app; reflexivity).
    assert (Forall (fun g => key_eqb (fst g) sid = false) m2) as Hall2.
    { rewrite map_app in I2. simpl in I2.
      apply distinct_keys_after in I2.
      apply (Forall_fst (fun a => key_eqb a sid = false)).
      apply Forall_impl with (2 := I2). intros b Hkb.
      rewrite key_eqb_sym in Hk.
      rewrite <- (key_eqb_congr _ _ b Hk), key_eqb_sym in Hkb.
      exact Hkb. }
    apply Forall_app in I1. destruct I1 as [I1a I1b].
    inversion I1b as [|? ? (Hkk & Hne & Hg) I1c]; subst. simpl in Hkk, Hne, Hg.
    repeat split.
    + apply Forall_app. split; [apply groups_other; assumption|].
      constructor; [|apply groups_other; assumption].
      simpl. split; [exact Hkk|]. split; [destruct rs; discriminate|].
      rewrite records_for_snoc. fold sid. rewrite (key_eqb_sym sid k), Hk, Hg.
      reflexivity.
    + rewrite Hkeys. exact I2.
    + intros q Hq. rewrite Hkeys.
      apply in_app_or in Hq. destruct Hq as [Hq | [<- | []]].
      * apply I3. exact Hq.
      * rewrite map_app. apply Exists_app. right. constructor. exact Hk.
Qed.

Lemma by_scenario_inv (results : list json) :
  forall (done : list json) (m m' : list (json * list json)),
  groups_inv done m ->
  by_scenario results m = Ok m' ->
  groups_inv (done ++ results) m'.
Proof.
  induction results as [|r results IH]; simpl; intros done m m' Hinv H.
  - injection H as <-. rewrite app_nil_r. exact Hinv.
  - apply bind_Ok in H. destruct H as (sid & Hsid & H).
    apply bind_Ok in H. destruct H as ([] & Hh & H).
    assert (sid = scenario_of r) as ->
      by (unfold scenario_of; rewrite Hsid; reflexivity).
    replace (done ++ r :: results) with ((done ++ [r]) ++ results)
      by (rewrite <- app_assoc; reflexivity).
    apply IH with (m := group_add (scenario_of r) r m); [|exact H].
    apply group_add_inv; assumption.
Qed.

(** The groups of [by_scenario]: one per scenario id, each holding the
    records of that id in input order. *)
Lemma by_scenario_groups (results : list json)
    (groups : list (json * list json)) (sid : json) (runs : list json) :
  by_scenario results [] = Ok groups ->
  In (sid, runs) groups ->
  runs = records_for sid results /\ runs <> [].
Proof.
  intros H Hin.
  assert (groups_inv [] []) as H0.
  { repeat split; try constructor. intros r []. }
  destruct (by_scenario_inv results [] [] groups H0 H) as (I1 & _ & _).
  rewrite Forall_forall in I1. destruct (I1 _ Hin) as (_ & Hne & Hg).
  simpl in *. auto.
Qed.

(** C7: [by_scenario] groups the run records by [scenarioId]; the pass count
    of a group is the number of its records whose [passAtN] is true, and
    its average dup rate is the mean of the numeric [diagnostics.dupRate]
    values alone: records without one count neither in the sum nor in the
    denominator, and the average is 0 when there is none. *)
Theorem scenario_summary_counts (results : list json)
    (groups : list (json * list json)) (sid : json) (runs : list json)
    (s : ScenarioSummary) :
  by_scenario results [] = Ok groups ->
  In (sid, runs) groups ->
  scenario_summary sid runs = Ok s ->
  runs = records_for sid results /\
  runCount s = List.length runs /\
  passCount s = List.length (filter (flag "passAtN") runs) /\
  (numeric_dup_rates runs = [] -> avgDupRate s = PyFloat 0) /\
  (numeric_dup_rates runs <> [] ->
   num_val (avgDupRate s)
   == q_sum (numeric_dup_rates runs)
      / inject_Z (Z.of_nat (List.length (numeric_dup_rates runs)))).
Proof.
  intros Hg Hin H.
  split; [apply (by_scenario_groups _ _ _ _ Hg Hin)|].
  unfold scenario_summary in H.
  inv_bind H. apply bind_Ok in H. destruct H as (p & Hp & H).
  inv_bind H. inv_bind H. inv_bind H.
  apply bind_Ok in H. destruct H as (vals & Hvals & H).
  apply bind_Ok in H. destruct H as (avg & Havg & H).
  inv_bind H. injection H as <-. simpl.
  apply dup_vals_Ok in Hvals. subst vals.
  split; [reflexivity|].
  split; [apply count_flag_Ok; exact Hp|].
  destruct (numeric_dup_rates runs) as [|n ns] eqn:E.
  - simpl in Havg. injection Havg as <-. split; [reflexivity|congruence].
  - split; [discriminate|]. intros _.
    change (map JNum (n :: ns)) with (JNum n :: map JNum ns) in Havg.
    cbv iota in Havg.
    apply bind_Ok in Havg. destruct Havg as (tot & Htot & Havg).
    unfold py_sum in Htot.
    change (JNum n :: map JNum ns) with (map JNum (n :: ns)) in Htot, Havg.
    rewrite sum_from_numbers in Htot. injection Htot as <-.
    unfold py_truediv in Havg.
    destruct (Qeq_bool _ 0); [discriminate|]. injection Havg as <-.
    apply Qdiv_comp.
    + transitivity (num_val (PyInt 0) + q_sum (n :: ns));
        [apply (fold_py_add_val (n :: ns)) | apply Qplus_0_l].
    + rewrite length_map. reflexivity.
Qed.

Lemma scenario_summary_counts_witness :
  exists s,
    by_scenario runs_s1 [] = Ok [(JStr "s1", runs_s1)] /\
    scenario_summary (JStr "s1") runs_s1 = Ok s /\
    runCount s = 4%nat /\
    passCount s = 3%nat /\
    num_val (avgDupRate s) == 2 # 10 /\
    passCount s = List.length (filter (flag "passAtN") runs_s1).
Proof.
  eexists. split; [reflexivity|]. split; [vm_compute; reflexivity|].
  split; [reflexivity|]. split; [reflexivity|]. split; [reflexivity|].
  exact (proj1 (proj2 (proj2
    (scenario_summary_counts runs_s1 _ (JStr "s1") runs_s1 _
       eq_refl (or_introl eq_refl) eq_refl)))).
Defined.

Lemma scenario_summary_parts (sid : json) (runs : list json)
    (s : ScenarioSummary) :
  scenario_summary sid runs = Ok s ->
  runCount s = List.length runs /\
  passCount s = List.length (filter (flag "passAtN") runs) /\
  escalationCount s = List.length (filter (flag "wouldEscalatePCC") runs) /\
  avgDupRate s = mean_or_zero (numeric_dup_rates runs).
Proof.
  unfold scenario_summary. intros H.
  inv_bind H. apply bind_Ok in H. destruct H as (p & Hp & H).
  inv_bind H. inv_bind H. inv_bind H.
  apply bind_Ok in H. destruct H as (vals & Hvals & H).
  apply bind_Ok in H. destruct H as (avg & Havg & H).
  apply bind_Ok in H. destruct H as (esc & Hesc & H).
  injection H as <-. simpl.
  apply dup_vals_Ok in Hvals. subst vals.
  split; [reflexivity|]. split; [apply count_flag_Ok; exact Hp|].
  split; [apply count_flag_Ok; exact Hesc|].
  destruct (numeric_dup_rates runs) as [|n ns].
  - simpl in Havg. injection Havg as <-. reflexivity.
  - change (map JNum (n :: ns)) with (JNum n :: map JNum ns) in Havg.
    cbv iota in Havg.
    apply bind_Ok in Havg. destruct Havg as (tot & Htot & Havg).
    unfold py_sum in Htot.
    change (JNum n :: map JNum ns) with (map JNum (n :: ns)) in Htot, Havg.
    rewrite sum_from_numbers in Htot. injection Htot as <-.
    unfold py_truediv in Havg.
    destruct (Qeq_bool _ 0); [discriminate|]. injection Havg as <-.
    rewrite length_map. reflexivity.
Qed.

Lemma q_sum_unit_interval (ns : list number) :
  Forall (fun n => 0 <= num_val n <= 1) ns ->
  0 <= q_sum ns <= inject_Z (Z.of_nat (List.length ns)).
Proof.
  induction 1 as [|n ns [Hl Hu] _ [IHl IHu]].
  - simpl. split; apply Qle_refl.
  - change (q_sum (n :: ns)) with (num_val n + q_sum ns).
    change (List.length (n :: ns)) with (S (List.length ns)).
    rewrite Nat2Z.inj_succ, <- Z.add_1_r, inject_Z_plus.
    change (inject_Z 1) with 1. split; lra.
Qed.

(** ** Where rates are rescaled *)

(** C2, as stated, fails for the coordinator table: for the four records of
    scenario s1 the summary holds the fraction 0.2, and the cell of the row
    is that fraction multiplied by 100 inside the row's format expression:
    ["20.0%"], not the stored rate formatted to one decimal. *)
Lemma dup_rate_cell_rescaled_in_row :
  exists s cells,
    scenario_summary (JStr "s1") runs_s1 = Ok s /\
    scenario_cells s = Ok cells /\
    num_val (avgDupRate s) == 2 # 10 /\
    num_fmt 1 (avgDupRate s) = "0.2" /\
    nth 4 cells "" = "20.0%" /\
    nth 4 cells "" <> num_fmt 1 (avgDupRate s) /\
    nth 4 cells "" <> num_fmt 1 (avgDupRate s) +++ "%".
Proof.
  do 2 eexists. split; [vm_compute; reflexivity|].
  split; [vm_compute; reflexivity|].
  split; [reflexivity|]. split; [reflexivity|]. split; [reflexivity|].
  split; vm_compute; discriminate.
Qed.

Lemma mul100_Ok (v : json) (n : number) :
  mul100 v = Ok n -> exists raw, v = JNum raw /\ n = py_mul raw (PyInt 100).
Proof.
  destruct v; simpl; intros H; try discriminate.
  injection H as <-. eauto.
Qed.

Lemma rescaled_rate (stats : json) (key : string) (n : number) :
  (v <- py_get stats key zero ;; mul100 v) = Ok n -> rescaled stats key n.
Proof.
  intros H. apply bind_Ok in H. destruct H as (v & Hv & Hm).
  apply mul100_Ok in Hm. destruct Hm as (raw & -> & ->).
  exists raw. split; [exact Hv | reflexivity].
Qed.

(** The fields of a prompt row: the six rates are rescaled, the quality
    score and the number of runs are stored as they are. *)
Lemma analyze_prompt_fields (agg stats : json) (row : PromptStats) :
  py_get agg "overallStats" (JObj []) = Ok stats ->
  analyze_prompt agg = Ok row ->
  rescaled stats "passAtNRate" (passAtNRate row) /\
  rescaled stats "meanDupRate" (meanDupRate row) /\
  rescaled stats "stdevDupRate" (stdevDupRate row) /\
  rescaled stats "jsonStrictRate" (jsonStrictRate row) /\
  rescaled stats "insufficientRate" (insufficientRate row) /\
  rescaled stats "formatErrorRate" (formatErrorRate row) /\
  py_get stats "meanQualityScore" zero = Ok (meanQualityScore row) /\
  py_get agg "totalRuns" zero = Ok (totalRuns row).
Proof.
  unfold analyze_prompt. intros Hs H. rewrite Hs in H. cbn [bind] in H.
  inv_bind H. inv_bind H.
  apply bind_Ok in H. destruct H as (r1 & H1 & H).
  apply bind_Ok in H. destruct H as (r2 & H2 & H).
  apply bind_Ok in H. destruct H as (r3 & H3 & H).
  apply bind_Ok in H. destruct H as (r4 & H4 & H).
  apply bind_Ok in H. destruct H as (r5 & H5 & H).
  apply bind_Ok in H. destruct H as (r6 & H6 & H).
  apply bind_Ok in H. destruct H as (q & Hq & H).
  apply bind_Ok in H. destruct H as (runs & Hruns & H).
  injection H as <-. cbn [passAtNRate meanDupRate stdevDupRate jsonStrictRate
                           insufficientRate formatErrorRate meanQualityScore
                           totalRuns].
  repeat split; try (apply rescaled_rate; assumption); assumption.
Qed.

Lemma mean_or_zero_unit_interval (ns : list number) :
  Forall (fun n => 0 <= num_val n <= 1) ns ->
  0 <= num_val (mean_or_zero ns) <= 1.
Proof.
  intros Hd. pose proof (q_sum_unit_interval _ Hd) as [Hl Hu].
  destruct ns as [|n ns].
  - simpl. split; discriminate.
  - unfold mean_or_zero. cbn [num_val].
    rewrite (fold_py_add_val (n :: ns) (PyInt 0)). cbn [num_val].
    change (inject_Z 0) with 0.
    set (len := inject_Z (Z.of_nat (List.length (n :: ns)))) in *.
    assert (0 < len) as Hpos.
    { unfold len. change 0 with (inject_Z 0). rewrite <- Zlt_Qlt.
      simpl. lia. }
    split.
    + apply Qle_shift_div_l; [exact Hpos | lra].
    + apply Qle_shift_div_r; [exact Hpos | lra].
Qed.

(** C2 (amended): each of the six rates of a prompt row is the number of
    the report multiplied by 100 in [analyze_suite] (the quality score is
    stored as it is), and the prompt table formats the stored values
    without rescaling them, to one decimal (the JSON rate to none).  The
    coordinator dup rate is kept as a fraction: it is the mean of the
    [diagnostics.dupRate] numbers of the records, within [0, 1] when they
    are, and the row of the coordinator table multiplies it by 100 in its
    format expression, so the cell is the stored rate times 100, formatted
    to one decimal. *)
Theorem rates_rescaled_once (agg stats : json) (row : PromptStats)
    (line : string) (sid : json) (runs : list json) (s : ScenarioSummary)
    (cells : list string) :
  py_get agg "overallStats" (JObj []) = Ok stats ->
  analyze_prompt agg = Ok row ->
  prompt_row row = Ok line ->
  scenario_summary sid runs = Ok s ->
  scenario_cells s = Ok cells ->
  (rescaled stats "passAtNRate" (passAtNRate row) /\
   rescaled stats "meanDupRate" (meanDupRate row) /\
   rescaled stats "stdevDupRate" (stdevDupRate row) /\
   rescaled stats "jsonStrictRate" (jsonStrictRate row) /\
   rescaled stats "insufficientRate" (insufficientRate row) /\
   rescaled stats "formatErrorRate" (formatErrorRate row) /\
   py_get stats "meanQualityScore" zero = Ok (meanQualityScore row)) /\
  (exists nm quality shown_runs,
     (v <- slice_to 30 (promptName row) ;; py_str v) = Ok nm /\
     py_fmt 3 (meanQualityScore row) = Ok quality /\
     py_str (totalRuns row) = Ok shown_runs /\
     line = table_row
              [ nm;
                num_fmt 1 (passAtNRate row) +++ "%";
                num_fmt 1 (meanDupRate row) +++ "±"
                  +++ num_fmt 1 (stdevDupRate row) +++ "%";
                num_fmt 0 (jsonStrictRate row) +++ "%";
                quality; shown_runs ]) /\
  avgDupRate s = mean_or_zero (numeric_dup_rates runs) /\
  (Forall (fun n => 0 <= num_val n <= 1) (numeric_dup_rates runs) ->
   0 <= num_val (avgDupRate s) <= 1) /\
  nth 4 cells "" = num_fmt 1 (py_mul (avgDupRate s) (PyInt 100)) +++ "%".
Proof.
  intros Hs Ha Hl Hsum Hc.
  destruct (analyze_prompt_fields _ _ _ Hs Ha)
    as (H1 & H2 & H3 & H4 & H5 & H6 & Hq & _).
  destruct (scenario_summary_parts _ _ _ Hsum) as (_ & _ & _ & Havg).
  split; [repeat split; assumption|].
  split; [|split; [exact Havg|split]].
  - unfold prompt_row in Hl.
    apply bind_Ok in Hl. destruct Hl as (nm & Hnm & Hl).
    apply bind_Ok in Hl. destruct Hl as (quality & Hquality & Hl).
    apply bind_Ok in Hl. destruct Hl as (shown & Hshown & Hl).
    injection Hl as <-. exists nm, quality, shown. auto.
  - intros Hd. rewrite Havg. apply mean_or_zero_unit_interval. exact Hd.
  - unfold scenario_cells in Hc.
    apply bind_Ok in Hc. destruct Hc as (nm & _ & Hc).
    injection Hc as <-. reflexivity.
Qed.

Lemma rates_rescaled_once_witness :
  exists stats row line s cells,
    py_get agg_all_rates "overallStats" (JObj []) = Ok stats /\
    analyze_prompt agg_all_rates = Ok row /\
    prompt_row row = Ok line /\
    line = "| Prompt One | 80.0% | 10.0±5.0% | 97% | 0.750 | 10 |" /\
    scenario_summary (JStr "s1") runs_s1 = Ok s /\
    scenario_cells s = Ok cells /\
    table_row cells = "| Scenario One | 4 | 3 | 9.0 | 20.0% | 0 |" /\
    rescaled stats "insufficientRate" (insufficientRate row) /\
    num_val (insufficientRate row) == 25 /\
    rescaled stats "formatErrorRate" (formatErrorRate row) /\
    num_val (formatErrorRate row) == 20 /\
    0 <= num_val (avgDupRate s) <= 1 /\
    nth 4 cells "" = num_fmt 1 (py_mul (avgDupRate s) (PyInt 100)) +++ "%".
Proof.
  destruct (analyze_prompt agg_all_rates) as [row| |] eqn:Ea;
    [| vm_compute in Ea; discriminate..].
  destruct (prompt_row row) as [line| |] eqn:El;
    [| vm_compute in Ea; injection Ea as <-; vm_compute in El;
       discriminate..].
  destruct (scenario_summary (JStr "s1") runs_s1) as [s| |] eqn:Es;
    [| vm_compute in Es; discriminate..].
  destruct (scenario_cells s) as [cells| |] eqn:Ec;
    [| vm_compute in Es; injection Es as <-; vm_compute in Ec;
       discriminate..].
  destruct (rates_rescaled_once agg_all_rates _ row line (JStr "s1") runs_s1
              s cells eq_refl Ea El Es Ec)
    as ((_ & _ & _ & _ & H5 & H6 & _) & _ & _ & Hunit & Hcell).
  eexists. exists row, line, s, cells.
  split; [reflexivity|]. split; [reflexivity|]. split; [exact El|].
  split.
  { vm_compute in Ea. injection Ea as <-. vm_compute in El.
    injection El as <-. reflexivity. }
  split; [reflexivity|]. split; [exact Ec|].
  split.
  { vm_compute in Es. injection Es as <-. vm_compute in Ec.
    injection Ec as <-. reflexivity. }
  split; [exact H5|].
  split; [vm_compute in Ea; injection Ea as <-; reflexivity|].
  split; [exact H6|].
  split; [vm_compute in Ea; injection Ea as <-; reflexivity|].
  split; [|exact Hcell].
  apply Hunit. repeat constructor; discriminate.
Defined.

(** ** Totals under reordering of the suites *)

Lemma sum_from_Ok (l : list json) (acc n : number) :
  sum_from acc l = Ok n ->
  exists ns, l = map JNum ns /\ n = fold_left py_add ns acc.
Proof.
  revert acc. induction l as [|v l IH]; simpl; intros acc H.
  - injection H as <-. exists []. split; reflexivity.
  - inv_bind H. destruct v as [|x| | |]; simpl in Hv; try discriminate.
    injection Hv as <-.
    destruct (IH _ H) as (ns & -> & ->). exists (x :: ns).
    split; reflexivity.
Qed.

Lemma is_float_py_add (a b : number) :
  is_float (py_add a b) = is_float a || is_float b.
Proof.
  destruct a as [[|]|x|x], b as [[|]|y|y]; reflexivity.
Qed.

Lemma fold_py_add_is_float (ns : list number) (acc : number) :
  is_float (fold_left py_add ns acc) = is_float acc || existsb is_float ns.
Proof.
  revert acc. induction ns as [|n ns IH]; simpl; intros acc.
  - rewrite orb_false_r. reflexivity.
  - rewrite IH, is_float_py_add, orb_assoc. reflexivity.
Qed.

Lemma existsb_perm {A : Type} (f : A -> bool) (l l' : list A) :
  Permutation l l' -> existsb f l = existsb f l'.
Proof.
  induction 1 as [|x l l' _ IH|x y l|l l' l'' _ IH1 _ IH2]; simpl.
  - reflexivity.
  - rewrite IH. reflexivity.
  - destruct (f x), (f y); reflexivity.
  - congruence.
Qed.

Lemma q_sum_perm (l l' : list number) :
  Permutation l l' -> q_sum l == q_sum l'.
Proof.
  induction 1 as [|x l l' _ IH|x y l|l l' l'' _ IH1 _ IH2]; simpl.
  - reflexivity.
  - rewrite IH. reflexivity.
  - ring.
  - rewrite IH1. exact IH2.
Qed.

(** As an exact sum, [sum] yields the same number whatever the order of
    the items. *)
Lemma py_sum_perm (l l' : list json) (n : number) :
  Permutation l l' ->
  py_sum l = Ok n ->
  exists n', py_sum l' = Ok n' /\ same_number n n'.
Proof.
  unfold py_sum. intros Hp H.
  destruct (sum_from_Ok _ _ _ H) as (ns & -> & ->).
  destruct (Permutation_map_inv _ _ (Permutation_sym Hp)) as (ns' & -> & Hp').
  exists (fold_left py_add ns' (PyInt 0)).
  split; [apply sum_from_numbers|]. split.
  - rewrite !fold_py_add_is_float. f_equal. apply existsb_perm. exact Hp'.
  - rewrite !fold_py_add_val. apply Qplus_comp; [reflexivity|].
    apply q_sum_perm. exact Hp'.
Qed.

(** A sum of ints is exact, in binary64 as in the embedding. *)
Lemma sum_from64_ints (l : list json) :
  Forall (fun v => is_int v = true) l ->
  forall a : Z,
    sum_from64 (PyInt a) l = Ok (PyInt (a + z_sum l)) /\
    sum_from (PyInt a) l = Ok (PyInt (a + z_sum l)).
Proof.
  induction 1 as [|v l Hv _ IH]; intros a.
  - simpl. rewrite Z.add_0_r. split; reflexivity.
  - assert (add_to64 (PyInt a) v = Ok (PyInt (a + int_val v)) /\
            add_to (PyInt a) v = Ok (PyInt (a + int_val v))) as [E64 E].
    { destruct v as [|[[|]|z|q]| | |]; try discriminate Hv;
        split; reflexivity. }
    cbn [sum_from64 sum_from]. rewrite E64, E. cbn [bind].
    destruct (IH (a + int_val v)%Z) as [-> ->].
    change (z_sum (v :: l)) with (int_val v + z_sum l)%Z.
    rewrite Z.add_assoc. split; reflexivity.
Qed.

Lemma z_sum_perm (l l' : list json) :
  Permutation l l' -> z_sum l = z_sum l'.
Proof.
  induction 1 as [|x l l' _ IH|x y l|l l' l'' _ IH1 _ IH2].
  - reflexivity.
  - change (int_val x + z_sum l = int_val x + z_sum l')%Z. rewrite IH.
    reflexivity.
  - change (int_val y + (int_val x + z_sum l)
            = int_val x + (int_val y + z_sum l))%Z. lia.
  - congruence.
Qed.

Lemma py_sum64_ints {A : Type} (f : A -> json) (l l' : list A) :
  Permutation l l' ->
  Forall (fun a => is_int (f a) = true) l ->
  exists z, py_sum64 (map f l) = Ok (PyInt z) /\
            py_sum64 (map f l') = Ok (PyInt z) /\
            py_sum (map f l) = Ok (PyInt z).
Proof.
  intros Hp Hi. unfold py_sum64, py_sum.
  assert (Forall (fun v => is_int v = true) (map f l)) as H
    by (apply Forall_map; exact Hi).
  assert (Forall (fun v => is_int v = true) (map f l')) as H'.
  { apply Forall_map. apply Permutation_Forall with (1 := Hp). exact Hi. }
  destruct (sum_from64_ints _ H 0%Z) as [E1 E2].
  destruct (sum_from64_ints _ H' 0%Z) as [E1' _].
  exists (0 + z_sum (map f l))%Z. split; [exact E1|]. split; [|exact E2].
  rewrite E1'. rewrite (z_sum_perm (map f l) (map f l')); [reflexivity|].
  apply Permutation_map. exact Hp.
Qed.

(** C8, as stated, fails for the total duration, which is a sum of floats:
    for suites of 0.01, 0.11 and 0.03 seconds the additions from left to
    right give 0.15, printed [0.1], and in the reverse order
    0.15000000000000002, printed [0.2]; for 0.01, 2 and 14 seconds they
    give 16.009999999999998 and, with the first suite last, 16.01. *)
Lemma duration_total_depends_on_order :
  Permutation suites_timed (rev suites_timed) /\
  Permutation suites_mixed suites_mixed_last /\
  (exists n n',
     total_time64 suites_timed = Ok n /\
     total_time64 (rev suites_timed) = Ok n' /\
     num_val n == 5404319552844595 # 36028797018963968 /\
     num_val n' == 1351079888211149 # 9007199254740992 /\
     ~ num_val n == num_val n' /\
     num_fmt 1 n = "0.1" /\ num_fmt 1 n' = "0.2") /\
  (exists n n',
     total_time64 suites_mixed = Ok n /\
     total_time64 suites_mixed_last = Ok n' /\
     num_val n == 2253207188568801 # 140737488355328 /\
     num_val n' == 4506414377137603 # 281474976710656 /\
     ~ num_val n == num_val n').
Proof.
  split; [apply Permutation_rev|].
  split.
  { vm_compute. apply Permutation_cons_append. }
  split.
  - do 2 eexists. split; [vm_compute; reflexivity|].
    split; [vm_compute; reflexivity|].
    split; [reflexivity|]. split; [reflexivity|].
    split; [vm_compute; discriminate|].
    split; vm_compute; reflexivity.
  - do 2 eexists. split; [vm_compute; reflexivity|].
    split; [vm_compute; reflexivity|].
    split; [reflexivity|]. split; [reflexivity|].
    vm_compute. discriminate.
Qed.

(** C8 (amended): the three totals are sums in the order of the suites.
    As exact sums they are the same numbers for a sequence of analyses and
    for every permutation of it; as the binary64 sums of the program they
    are the same, and equal to the exact sum, whenever the summed values
    are ints, as the counts are. *)
Theorem totals_order_independent (analyses analyses' : list SuiteAnalysis) :
  Permutation analyses analyses' ->
  (forall n, total_tests analyses = Ok n ->
     exists n', total_tests analyses' = Ok n' /\ same_number n n') /\
  (forall n, total_passed analyses = Ok n ->
     exists n', total_passed analyses' = Ok n' /\ same_number n n') /\
  (forall n, total_time analyses = Ok n ->
     exists n', total_time analyses' = Ok n' /\ same_number n n') /\
  (Forall (fun a => is_int (total_runs a) = true) analyses ->
   exists z, total_tests64 analyses = Ok (PyInt z) /\
             total_tests64 analyses' = Ok (PyInt z) /\
             total_tests analyses = Ok (PyInt z)) /\
  (Forall (fun a => is_int (successful_runs a) = true) analyses ->
   exists z, total_passed64 analyses = Ok (PyInt z) /\
             total_passed64 analyses' = Ok (PyInt z) /\
             total_passed analyses = Ok (PyInt z)) /\
  (Forall (fun a => is_int (total_duration a) = true) analyses ->
   exists z, total_time64 analyses = Ok (PyInt z) /\
             total_time64 analyses' = Ok (PyInt z) /\
             total_time analyses = Ok (PyInt z)).
Proof.
  intros Hp.
  unfold total_tests, total_passed, total_time,
    total_tests64, total_passed64, total_time64.
  split; [|split; [|split; [|split; [|split]]]];
    try (intros n H;
         eapply py_sum_perm; [apply Permutation_map; exact Hp | exact H]);
    intros Hi; apply py_sum64_ints; assumption.
Qed.

Lemma totals_order_independent_witness :
  total_tests analyses_AB = Ok (PyInt 50) /\
  total_passed analyses_AB = Ok (PyInt 37) /\
  total_time analyses_AB = Ok (PyFloat 115) /\
  (exists n', total_time (rev analyses_AB) = Ok n'
              /\ same_number (PyFloat 115) n') /\
  (exists z, total_tests64 analyses_AB = Ok (PyInt z) /\
             total_tests64 (rev analyses_AB) = Ok (PyInt z) /\
             total_tests analyses_AB = Ok (PyInt z)) /\
  (exists z, total_time64 suites_whole = Ok (PyInt z) /\
             total_time64 (rev suites_whole) = Ok (PyInt z) /\
             total_time suites_whole = Ok (PyInt z)).
Proof.
  split; [reflexivity|]. split; [reflexivity|]. split; [reflexivity|].
  split.
  { exact (proj1 (proj2 (proj2
             (totals_order_independent analyses_AB (rev analyses_AB)
                (Permutation_rev analyses_AB))))
             (PyFloat 115) eq_refl). }
  split.
  - apply (proj1 (proj2 (proj2 (proj2
             (totals_order_independent analyses_AB (rev analyses_AB)
                (Permutation_rev analyses_AB)))))).
    repeat constructor.
  - apply (proj2 (proj2 (proj2 (proj2 (proj2
             (totals_order_independent suites_whole (rev suites_whole)
                (Permutation_rev suites_whole))))))).
    repeat constructor.
Defined.

(** ** The timestamp *)

Lemma cat_assoc (a b c : string) : (a +++ b) +++ c = a +++ b +++ c.
Proof.
  unfold cat. induction a as [|x a IH]; simpl; [reflexivity|].
  rewrite IH. reflexivity.
Qed.

Lemma has_newline_cat (a b : string) :
  has_newline (a +++ b) = has_newline a || has_newline b.
Proof.
  unfold cat. induction a as [|x a IH]; simpl; [reflexivity|].
  rewrite IH, orb_assoc. reflexivity.
Qed.

Lemma has_newline_uint (u : Decimal.uint) :
  has_newline (NilEmpty.string_of_uint u) = false.
Proof.
  induction u; simpl; assumption || reflexivity.
Qed.

Lemma has_newline_Z_str (z : Z) : has_newline (Z_str z) = false.
Proof.
  unfold Z_str, NilZero.string_of_int.
  destruct (Z.to_int z) as [u | u]; unfold NilZero.string_of_uint.
  - destruct u; try apply has_newline_uint. reflexivity.
  - destruct u; simpl; try apply has_newline_uint; reflexivity.
Qed.

Lemma has_newline_pad (width : nat) (s : string) :
  has_newline s = false -> has_newline (pad_left "0" width s) = false.
Proof.
  intros H. unfold pad_left. rewrite has_newline_cat, H, orb_false_r.
  induction (width - String.length s)%nat as [|k IH]; simpl;
    [reflexivity | exact IH].
Qed.

Lemma strftime_one_line (t : datetime) : has_newline (strftime t) = false.
Proof.
  unfold strftime, nat_str.
  repeat (rewrite has_newline_cat;
          rewrite has_newline_pad by apply has_newline_Z_str;
          cbn [orb]).
  repeat (rewrite has_newline_cat; cbn [has_newline Ascii.eqb orb];
          try rewrite has_newline_pad by apply has_newline_Z_str).
  try reflexivity.
Qed.

Lemma report_lines_split (now : datetime) (analyses : list SuiteAnalysis)
    (ls : list string) :
  report_lines now analyses = Ok ls ->
  exists body, forall now',
    report_lines now' analyses = Ok (header_lines now' ++ body).
Proof.
  unfold report_lines. intros H.
  apply bind_Ok in H. destruct H as (summary & Hs & H).
  apply bind_Ok in H. destruct H as (rows & Hr & H).
  apply bind_Ok in H. destruct H as (sections & Hc & H).
  apply bind_Ok in H. destruct H as (recs & He & _).
  eexists. intros now'. rewrite Hs, Hr, Hc, He. cbn [bind]. reflexivity.
Qed.

Lemma join_header (now : datetime) (body : list string) :
  join newline (header_lines now ++ body)
  = doc_prefix +++ strftime now +++ newline
    +++ join newline ([""; "---"; ""; "## Executive Summary"; ""] ++ body).
Proof.
  unfold header_lines, doc_prefix. generalize (strftime now). intros ts.
  cbn [app join]. rewrite !cat_assoc. reflexivity.
Qed.

(** C9: the document is a function of the analyses, the coordinator files
    and the clock, and the clock shows in one place only: every document
    is [doc_prefix], the timestamp, a line break and a text that is the same
    for every reading of the clock; the timestamp has no line break, so it
    stays on the third line. *)
Theorem timestamp_on_one_line (now : datetime)
    (analyses : list SuiteAnalysis) (coord_files : list (string * res json))
    (doc : string) :
  document now analyses coord_files = Ok doc ->
  exists rest, forall now',
    document now' analyses coord_files
    = Ok (doc_prefix +++ strftime now' +++ newline +++ rest) /\
    has_newline (strftime now') = false.
Proof.
  unfold document, generate_markdown_report. intros H.
  apply bind_Ok in H. destruct H as (report & Hr & H).
  apply bind_Ok in H. destruct H as (appendix & Ha & _).
  apply bind_Ok in Hr. destruct Hr as (ls & Hls & _).
  destruct (report_lines_split _ _ _ Hls) as (body & Hbody).
  exists (join newline ([""; "---"; ""; "## Executive Summary"; ""] ++ body)
          +++ appendix).
  intros now'. split; [|apply strftime_one_line].
  rewrite Hbody. cbn [bind]. rewrite Ha. cbn [bind].
  rewrite join_header, !cat_assoc.
  reflexivity.
Qed.

Lemma timestamp_on_one_line_witness :
  exists rest,
    document noon analyses_AB coord_files_1
    = Ok (doc_prefix +++ "2025-10-28 12:00:05" +++ newline +++ rest) /\
    document midnight analyses_AB coord_files_1
    = Ok (doc_prefix +++ "2026-01-01 00:00:00" +++ newline +++ rest).
Proof.
  destruct (document noon analyses_AB coord_files_1) as [doc| |] eqn:E;
    [|vm_compute in E; discriminate..].
  destruct (timestamp_on_one_line noon analyses_AB coord_files_1 doc E)
    as (rest & H).
  exists rest. split.
  - rewrite <- E. exact (proj1 (H noon)).
  - exact (proj1 (H midnight)).
Defined.

(** ** Reports that fail to load or to analyze *)



Lemma report_lines_sections (now : datetime) (analyses : list SuiteAnalysis)
    (ls : list string) :
  report_lines now analyses = Ok ls ->
  exists summary rows sections recs,
    Forall2 (fun a sec => suite_section a = Ok sec) analyses sections /\
    ls = header_lines now ++ summary ++ rows
         ++ [ ""; "---"; ""; "## Detailed Suite Analysis"; "" ]
         ++ List.concat sections ++ recs.
Proof.
  unfold report_lines. intros H.
  apply bind_Ok in H. destruct H as (summary & Hs & H).
  apply bind_Ok in H. destruct H as (rows & Hr & H).
  apply bind_Ok in H. destruct H as (sections & Hc & H).
  apply bind_Ok in H. destruct H as (recs & He & H).
  injection H as <-. exists summary, rows, sections, recs.
  split; [apply map_res_Forall2; exact Hc | reflexivity].
Qed.



(** * Further properties of the analyzer *)

(** ** [analyze_suite] on missing and on ill-typed fields *)

Lemma absent_or_default (p : json -> bool) (key : string)
    (m : list (string * json)) (d : json) :
  absent_or p key m = true -> p d = true ->
  p (match assoc_get key m with Some x => x | None => d end) = true.
Proof.
  unfold absent_or. destruct (assoc_get key m); auto.
Qed.

Lemma py_max1_not_zero (n : number) : Qeq_bool (num_val (py_max1 n)) 0 = false.
Proof.
  destruct (Qeq_bool (num_val (py_max1 n)) 0) eqn:E; [|reflexivity].
  apply Qeq_bool_iff in E. rewrite py_max1_val in E.
  pose proof (Q.le_max_l 1 (num_val n)) as H. rewrite E in H.
  exfalso. revert H. apply Qlt_not_le. reflexivity.
Qed.

Lemma py_truediv_max1 (a t : number) :
  py_truediv a (py_max1 t)
  = Ok (PyFloat (num_val a / num_val (py_max1 t))).
Proof.
  unfold py_truediv. rewrite py_max1_not_zero. reflexivity.
Qed.

Lemma mul100_num (v : json) :
  is_num v = true -> exists n, mul100 v = Ok n.
Proof.
  destruct v; simpl; try discriminate. eauto.
Qed.

Lemma rate_of_stats (m : list (string * json)) (key : string) :
  absent_or is_num key m = true ->
  exists n, (v <- py_get (JObj m) key zero ;; mul100 v) = Ok n.
Proof.
  intros H. cbn [py_get bind]. apply mul100_num.
  apply absent_or_default; [exact H | reflexivity].
Qed.

Lemma analyze_prompt_well_shaped (agg : json) :
  well_shaped_agg agg = true -> exists row, analyze_prompt agg = Ok row.
Proof.
  destruct agg as [| | | |m]; try discriminate. cbn [well_shaped_agg].
  intros H. unfold analyze_prompt. cbn [py_get bind].
  assert (well_shaped_stats
            (match assoc_get "overallStats" m with
             | Some x => x | None => JObj [] end) = true) as Hs
    by (apply absent_or_default; [exact H | reflexivity]).
  revert Hs.
  destruct (match assoc_get "overallStats" m with
            | Some x => x | None => JObj [] end) as [| | | |st];
    intros Hs; try discriminate Hs.
  cbn [well_shaped_stats] in Hs.
  repeat (apply andb_prop in Hs; destruct Hs as [Hs ?]).
  destruct (rate_of_stats st "passAtNRate") as (r1 & E1); [assumption|].
  destruct (rate_of_stats st "meanDupRate") as (r2 & E2); [assumption|].
  destruct (rate_of_stats st "stdevDupRate") as (r3 & E3); [assumption|].
  destruct (rate_of_stats st "jsonStrictRate") as (r4 & E4); [assumption|].
  destruct (rate_of_stats st "insufficientRate") as (r5 & E5); [assumption|].
  destruct (rate_of_stats st "formatErrorRate") as (r6 & E6); [assumption|].
  rewrite E1. cbn [bind]. rewrite E2. cbn [bind]. rewrite E3. cbn [bind].
  rewrite E4. cbn [bind]. rewrite E5. cbn [bind]. rewrite E6.
  cbn [bind py_get]. eauto.
Qed.

Lemma map_res_total {A B : Type} (f : A -> res B) (l : list A) :
  (forall x, In x l -> exists y, f x = Ok y) ->
  exists l', map_res f l = Ok l'.
Proof.
  induction l as [|x l IH]; simpl; intros H; [eauto|].
  destruct (H x (or_introl eq_refl)) as (y & ->).
  destruct IH as (l' & ->); [intros z Hz; apply H; right; exact Hz|].
  cbn [bind]. eauto.
Qed.

Lemma slice_of_ranking (m : list (string * json)) (key : string) :
  absent_or is_arr key m = true ->
  exists v, (v <- py_get (JObj m) key (JArr []) ;; slice_to 3 v) = Ok v.
Proof.
  intros H. cbn [py_get bind].
  assert (is_arr (match assoc_get key m with
                  | Some x => x | None => JArr [] end) = true) as Ha
    by (apply absent_or_default; [exact H | reflexivity]).
  revert Ha.
  destruct (match assoc_get key m with Some x => x | None => JArr [] end);
    intros Ha; try discriminate Ha.
  simpl. eauto.
Qed.

(** X1: [analyze_suite] needs no field: it returns an analysis for every
    report that is a dict in which each field it computes with is missing
    or well typed (with exact arithmetic: a number too large for a float
    is outside the embedding). *)
Theorem analyze_suite_total_on_well_shaped (id : string) (r : json) :
  well_shaped_report r = true -> exists a, analyze_suite id r = Ok a.
Proof.
  destruct r as [| | | |m]; try discriminate. cbn [well_shaped_report].
  intros H. repeat (apply andb_prop in H; destruct H as [H ?]).
  unfold analyze_suite. cbn [py_get bind].
  assert (is_num (match assoc_get "totalRuns" m with
                  | Some x => x | None => zero end) = true) as Ht
    by (apply absent_or_default; [assumption | reflexivity]).
  assert (is_num (match assoc_get "successfulRuns" m with
                  | Some x => x | None => zero end) = true) as Hs
    by (apply absent_or_default; [assumption | reflexivity]).
  assert (is_num (match assoc_get "totalDuration" m with
                  | Some x => x | None => zero end) = true) as Hd
    by (apply absent_or_default; [assumption | reflexivity]).
  assert (well_shaped_rankings
            (match assoc_get "rankings" m with
             | Some x => x | None => JObj [] end) = true) as Hr
    by (apply absent_or_default; [assumption | reflexivity]).
  assert (well_shaped_aggregates
            (match assoc_get "aggregateResults" m with
             | Some x => x | None => JArr [] end) = true) as Ha
    by (apply absent_or_default; [assumption | reflexivity]).
  revert Ht.
  destruct (match assoc_get "totalRuns" m with
            | Some x => x | None => zero end) as [|t| | |];
    intros Ht; try discriminate Ht.
  revert Hs.
  destruct (match assoc_get "successfulRuns" m with
            | Some x => x | None => zero end) as [|s| | |];
    intros Hs; try discriminate Hs.
  revert Hd.
  destruct (match assoc_get "totalDuration" m with
            | Some x => x | None => zero end) as [|d| | |];
    intros Hd; try discriminate Hd.
  cbn [max1 truediv bind]. rewrite !py_truediv_max1. cbn [bind].
  revert Hr.
  destruct (match assoc_get "rankings" m with
            | Some x => x | None => JObj [] end) as [| | | |rk];
    intros Hr; try discriminate Hr.
  cbn [well_shaped_rankings] in Hr.
  repeat (apply andb_prop in Hr; destruct Hr as [Hr ?]).
  destruct (slice_of_ranking rk "byPassRate") as (t1 & E1); [assumption|].
  destruct (slice_of_ranking rk "byQuality") as (t2 & E2); [assumption|].
  destruct (slice_of_ranking rk "bySpeed") as (t3 & E3); [assumption|].
  destruct (slice_of_ranking rk "byConsistency") as (t4 & E4); [assumption|].
  rewrite E1. cbn [bind]. rewrite E2. cbn [bind]. rewrite E3. cbn [bind].
  rewrite E4. cbn [bind].
  revert Ha.
  destruct (match assoc_get "aggregateResults" m with
            | Some x => x | None => JArr [] end) as [| | |l|];
    intros Ha; try discriminate Ha.
  cbn [well_shaped_aggregates] in Ha. cbn [py_iter bind].
  destruct (map_res_total analyze_prompt l) as (rows & ->).
  { intros x Hx. apply analyze_prompt_well_shaped.
    rewrite forallb_forall in Ha. apply Ha. exact Hx. }
  cbn [bind]. eauto.
Qed.

Lemma analyze_suite_total_on_well_shaped_witness :
  well_shaped_report report_A = true /\
  well_shaped_report (JObj []) = true /\
  (exists a, analyze_suite "A" report_A = Ok a) /\
  (exists a, analyze_suite "empty" (JObj []) = Ok a).
Proof.
  split; [reflexivity|]. split; [reflexivity|]. split.
  - exact (analyze_suite_total_on_well_shaped "A" report_A eq_refl).
  - exact (analyze_suite_total_on_well_shaped "empty" (JObj []) eq_refl).
Defined.

Lemma raises_only_bind {A B : Type} (P : exn -> Prop) (r : res A)
    (k : A -> res B) :
  raises_only P r ->
  (forall a, r = Ok a -> raises_only P (k a)) ->
  raises_only P (bind r k).
Proof.
  intros Hr Hk e. destruct r as [a | e' |]; simpl; intros H.
  - exact (Hk a eq_refl e H).
  - injection H as <-. apply Hr. reflexivity.
  - discriminate.
Qed.

Lemma raises_only_Ok {A : Type} (P : exn -> Prop) (a : A) :
  raises_only P (Ok a).
Proof.
  intros e H. discriminate.
Qed.

Lemma raises_only_map_res {A B : Type} (P : exn -> Prop) (f : A -> res B)
    (l : list A) :
  (forall x, raises_only P (f x)) -> raises_only P (map_res f l).
Proof.
  intros Hf. induction l as [|x l IH]; simpl.
  - apply raises_only_Ok.
  - apply raises_only_bind; [apply Hf|]. intros y _.
    apply raises_only_bind; [exact IH|]. intros ys _. apply raises_only_Ok.
Qed.

Lemma py_get_raises (v : json) (key : string) (d : json) :
  raises_only (fun e => is_type_error e = true) (py_get v key d).
Proof.
  intros e. destruct v; simpl; intros H; try discriminate;
    injection H as <-; reflexivity.
Qed.

Lemma max1_raises (v : json) :
  raises_only (fun e => is_type_error e = true) (max1 v).
Proof.
  intros e. destruct v; simpl; intros H; try discriminate;
    injection H as <-; reflexivity.
Qed.

Lemma truediv_max1_raises (v t : json) (d : number) :
  max1 t = Ok d ->
  raises_only (fun e => is_type_error e = true) (truediv v d).
Proof.
  intros Hd e. apply max1_Ok in Hd. destruct Hd as (n & _ & ->).
  destruct v; simpl; intros H; try (injection H as <-; reflexivity).
  rewrite py_truediv_max1 in H. discriminate.
Qed.

Lemma mul100_raises (v : json) :
  raises_only (fun e => is_type_error e = true) (mul100 v).
Proof.
  intros e. destruct v; simpl; intros H; try discriminate;
    injection H as <-; reflexivity.
Qed.

Lemma slice_to_raises (n : nat) (v : json) :
  raises_only (fun e => is_type_error e = true) (slice_to n v).
Proof.
  intros e. destruct v; simpl; intros H; try discriminate;
    injection H as <-; reflexivity.
Qed.

Lemma py_iter_raises (v : json) :
  raises_only (fun e => is_type_error e = true) (py_iter v).
Proof.
  intros e. destruct v; simpl; intros H; try discriminate;
    injection H as <-; reflexivity.
Qed.

Ltac raises_step :=
  first
    [ apply raises_only_Ok
    | apply py_get_raises
    | apply max1_raises
    | apply mul100_raises
    | apply slice_to_raises
    | apply py_iter_raises
    | eapply truediv_max1_raises; eassumption
    | apply raises_only_bind; [|intros ? ?] ].

Lemma analyze_prompt_raises (agg : json) :
  raises_only (fun e => is_type_error e = true) (analyze_prompt agg).
Proof.
  unfold analyze_prompt. repeat raises_step.
Qed.

Lemma bind_Unsupported {A B : Type} (r : res A) (k : A -> res B) :
  bind r k = Unsupported ->
  r = Unsupported \/ exists a, r = Ok a /\ k a = Unsupported.
Proof.
  destruct r as [a | e |]; simpl; intros H; try discriminate; eauto.
Qed.

Lemma py_get_supported (v : json) (key : string) (d : json) :
  py_get v key d <> Unsupported.
Proof.
  destruct v; discriminate.
Qed.

Lemma py_iter_supported (v : json) : py_iter v <> Unsupported.
Proof.
  destruct v; discriminate.
Qed.

Lemma success_rate_supported (t s : json) :
  (d <- max1 t ;; x <- truediv s d ;; Ok (py_mul x (PyInt 100)))
  <> Unsupported.
Proof.
  destruct t; cbn [max1 bind]; try discriminate.
  destruct s; cbn [truediv bind]; try discriminate.
  unfold py_truediv. destruct (Qeq_bool _ 0); discriminate.
Qed.

Lemma avg_duration_supported (t s : json) :
  (d <- max1 t ;; truediv s d) <> Unsupported.
Proof.
  destruct t; cbn [max1 bind]; try discriminate.
  destruct s; cbn [truediv bind]; try discriminate.
  unfold py_truediv. destruct (Qeq_bool _ 0); discriminate.
Qed.

Lemma ranking_unsupported (rankings : json) (key : string) :
  (v <- py_get rankings key (JArr []) ;; slice_to 3 v) = Unsupported ->
  holds_at is_obj rankings (JArr []) key = true.
Proof.
  unfold holds_at. intros H. apply bind_Unsupported in H.
  destruct H as [H | (v & -> & H)]; [destruct (py_get_supported _ _ _ H)|].
  destruct v; try discriminate H. reflexivity.
Qed.

Lemma rate_unsupported (stats : json) (key : string) :
  (v <- py_get stats key zero ;; mul100 v) = Unsupported ->
  holds_at is_sequence stats zero key = true.
Proof.
  unfold holds_at. intros H. apply bind_Unsupported in H.
  destruct H as [H | (v & -> & H)]; [destruct (py_get_supported _ _ _ H)|].
  destruct v; try discriminate H; reflexivity.
Qed.

Lemma existsb_at {A : Type} (f : A -> bool) (l : list A) (x : A) :
  In x l -> f x = true -> existsb f l = true.
Proof.
  intros Hin Hx. apply existsb_exists. exists x. auto.
Qed.

Lemma analyze_prompt_unsupported (agg : json) :
  analyze_prompt agg = Unsupported -> repeats_rate agg = true.
Proof.
  unfold analyze_prompt, repeats_rate. intros H.
  apply bind_Unsupported in H.
  destruct H as [H | (stats & -> & H)]; [destruct (py_get_supported _ _ _ H)|].
  apply bind_Unsupported in H.
  destruct H as [H | (pid & _ & H)]; [destruct (py_get_supported _ _ _ H)|].
  apply bind_Unsupported in H.
  destruct H as [H | (pname & _ & H)]; [destruct (py_get_supported _ _ _ H)|].
  do 6 (apply bind_Unsupported in H;
        destruct H as [H | (? & _ & H)];
        [ apply rate_unsupported in H;
          refine (existsb_at _ _ _ _ H); simpl; tauto |]).
  apply bind_Unsupported in H.
  destruct H as [H | (q & _ & H)]; [destruct (py_get_supported _ _ _ H)|].
  apply bind_Unsupported in H.
  destruct H as [H | (runs & _ & H)]; [destruct (py_get_supported _ _ _ H)|].
  discriminate H.
Qed.

Lemma map_res_Unsupported {A B : Type} (f : A -> res B) (l : list A) :
  map_res f l = Unsupported -> exists x, In x l /\ f x = Unsupported.
Proof.
  induction l as [|x l IH]; simpl; intros H; [discriminate|].
  apply bind_Unsupported in H. destruct H as [H | (y & _ & H)].
  - exists x. auto.
  - apply bind_Unsupported in H. destruct H as [H | (ys & _ & H)].
    + destruct (IH H) as (x' & Hin & Hx). exists x'. auto.
    + discriminate H.
Qed.

(** Where [analyze_suite] leaves the embedding: it slices a ranking that
    is a dict, or repeats a rate that is a string or a list. *)
Lemma analyze_suite_unsupported (id : string) (r : json) :
  analyze_suite id r = Unsupported ->
  slices_dict r = true \/ repeats_sequence r = true.
Proof.
  unfold analyze_suite, slices_dict, repeats_sequence. intros H.
  do 4 (apply bind_Unsupported in H;
        destruct H as [H | (? & _ & H)];
        [destruct (py_get_supported _ _ _ H)|]).
  apply bind_Unsupported in H.
  destruct H as [H | (rate & _ & H)];
    [destruct (success_rate_supported _ _ H)|].
  apply bind_Unsupported in H.
  destruct H as [H | (avg & _ & H)];
    [destruct (avg_duration_supported _ _ H)|].
  apply bind_Unsupported in H.
  destruct H as [H | (rankings & -> & H)];
    [destruct (py_get_supported _ _ _ H)|].
  do 4 (apply bind_Unsupported in H;
        destruct H as [H | (? & _ & H)];
        [ left; apply ranking_unsupported in H;
          refine (existsb_at _ _ _ _ H); simpl; tauto |]).
  right.
  apply bind_Unsupported in H.
  destruct H as [H | (aggregates & -> & H)];
    [destruct (py_get_supported _ _ _ H)|].
  apply bind_Unsupported in H.
  destruct H as [H | (items & -> & H)];
    [destruct (py_iter_supported _ H)|].
  apply bind_Unsupported in H.
  destruct H as [H | (rows & _ & H)].
  - apply map_res_Unsupported in H. destruct H as (agg & Hin & Hagg).
    apply analyze_prompt_unsupported in Hagg.
    exact (existsb_at _ _ _ Hin Hagg).
  - apply bind_Unsupported in H.
    destruct H as [H | (nm & _ & H)]; [destruct (py_get_supported _ _ _ H)|].
    apply bind_Unsupported in H.
    destruct H as [H | (env & _ & H)]; [destruct (py_get_supported _ _ _ H)|].
    discriminate H.
Qed.

Lemma analyze_suite_raises (id : string) (r : json) (e : exn) :
  analyze_suite id r = Raise e -> is_type_error e = true.
Proof.
  revert e. change (raises_only (fun e => is_type_error e = true)
                      (analyze_suite id r)).
  unfold analyze_suite.
  repeat first [ apply raises_only_map_res; intros ?; apply analyze_prompt_raises
               | raises_step ].
Qed.

(** X2: unless a ranking of the report is a dict (which lines 32-35
    slice) or a rate of a prompt is a string or a list (which lines 47-52
    repeat), [analyze_suite] returns an analysis or raises a [TypeError]
    or an [AttributeError], whatever the report is: a missing key raises
    nothing, and the divisions by [max(1, totalRuns)] never divide by
    zero.  (With exact arithmetic: the overflow of a number too large for
    a float is outside the embedding.) *)
Theorem analyze_suite_raises_type_errors_only (id : string) (r : json) :
  slices_dict r = false ->
  repeats_sequence r = false ->
  (exists a, analyze_suite id r = Ok a) \/
  (exists e, analyze_suite id r = Raise e /\ is_type_error e = true).
Proof.
  intros Hd Hs. destruct (analyze_suite id r) as [a | e |] eqn:E.
  - left. eauto.
  - right. exists e. split; [reflexivity|].
    exact (analyze_suite_raises _ _ _ E).
  - destruct (analyze_suite_unsupported _ _ E) as [H | H];
      [rewrite H in Hd | rewrite H in Hs]; discriminate.
Qed.

Lemma analyze_suite_raises_type_errors_only_witness :
  analyze_suite "list" (JArr [])
  = Raise (AttributeError "'list' object has no attribute 'get'") /\
  analyze_suite "runs" (JObj [("totalRuns", JStr "ten")])
  = Raise (TypeError
             "'>' not supported between instances of 'str' and 'int'") /\
  ((exists a, analyze_suite "runs" (JObj [("totalRuns", JStr "ten")]) = Ok a)
   \/
   (exists e, analyze_suite "runs" (JObj [("totalRuns", JStr "ten")])
              = Raise e /\ is_type_error e = true)) /\
  slices_dict report_dict_ranking = true /\
  analyze_suite "ranked" report_dict_ranking = Unsupported /\
  repeats_sequence report_text_rate = true /\
  analyze_suite "rated" report_text_rate = Unsupported.
Proof.
  split; [reflexivity|]. split; [reflexivity|].
  split.
  { exact (analyze_suite_raises_type_errors_only "runs"
             (JObj [("totalRuns", JStr "ten")]) eq_refl eq_refl). }
  repeat split; reflexivity.
Defined.

(** What [analyze_suite] keeps of the fields of the report. *)
Lemma analyze_suite_fields (id : string) (r : json) (a : SuiteAnalysis) :
  analyze_suite id r = Ok a ->
  exists rankings,
    py_get r "rankings" (JObj []) = Ok rankings /\
    (v <- py_get rankings "byPassRate" (JArr []) ;; slice_to 3 v)
    = Ok (byPassRate (top_prompts a)) /\
    (v <- py_get rankings "byQuality" (JArr []) ;; slice_to 3 v)
    = Ok (byQuality (top_prompts a)) /\
    (v <- py_get rankings "bySpeed" (JArr []) ;; slice_to 3 v)
    = Ok (bySpeed (top_prompts a)) /\
    (v <- py_get rankings "byConsistency" (JArr []) ;; slice_to 3 v)
    = Ok (byConsistency (top_prompts a)).
Proof.
  unfold analyze_suite. intros H.
  do 6 (let x := fresh "w" in let Hx := fresh "Hw" in
        apply bind_Ok in H; destruct H as (x & Hx & H)).
  apply bind_Ok in H. destruct H as (rankings & Hr & H).
  apply bind_Ok in H. destruct H as (t1 & H1 & H).
  apply bind_Ok in H. destruct H as (t2 & H2 & H).
  apply bind_Ok in H. destruct H as (t3 & H3 & H).
  apply bind_Ok in H. destruct H as (t4 & H4 & H).
  do 5 (let x := fresh "w" in let Hx := fresh "Hw" in
        apply bind_Ok in H; destruct H as (x & Hx & H)).
  injection H as <-. simpl. exists rankings. auto.
Qed.

Lemma sliced_ranking (rankings : json) (key : string) (l : list json)
    (t : json) :
  (v <- py_get rankings key (JArr []) ;; slice_to 3 v) = Ok t ->
  py_get rankings key (JArr []) = Ok (JArr l) ->
  t = JArr (firstn 3 l).
Proof.
  intros H Hg. rewrite Hg in H. simpl in H. injection H as <-. reflexivity.
Qed.

(** X3: each of the four rankings kept in [top_prompts] is the list of the
    report cut after its third entry: at most three entries, in the order
    of the report, and the empty list when the ranking is missing. *)
Theorem top_prompts_first_three (id : string) (r : json) (a : SuiteAnalysis)
    (rankings : json) (l1 l2 l3 l4 : list json) :
  analyze_suite id r = Ok a ->
  py_get r "rankings" (JObj []) = Ok rankings ->
  py_get rankings "byPassRate" (JArr []) = Ok (JArr l1) ->
  py_get rankings "byQuality" (JArr []) = Ok (JArr l2) ->
  py_get rankings "bySpeed" (JArr []) = Ok (JArr l3) ->
  py_get rankings "byConsistency" (JArr []) = Ok (JArr l4) ->
  top_prompts a
  = {| byPassRate := JArr (firstn 3 l1); byQuality := JArr (firstn 3 l2);
       bySpeed := JArr (firstn 3 l3);
       byConsistency := JArr (firstn 3 l4) |} /\
  (List.length (firstn 3 l1) <= 3)%nat /\
  (List.length (firstn 3 l2) <= 3)%nat /\
  (List.length (firstn 3 l3) <= 3)%nat /\
  (List.length (firstn 3 l4) <= 3)%nat.
Proof.
  intros Ha Hr H1 H2 H3 H4.
  destruct (analyze_suite_fields id r a Ha) as (rk & Hrk & E1 & E2 & E3 & E4).
  rewrite Hr in Hrk. injection Hrk as <-.
  split.
  - destruct (top_prompts a) as [t1 t2 t3 t4]. simpl in *.
    rewrite (sliced_ranking _ _ _ _ E1 H1), (sliced_ranking _ _ _ _ E2 H2),
      (sliced_ranking _ _ _ _ E3 H3), (sliced_ranking _ _ _ _ E4 H4).
    reflexivity.
  - repeat split; apply firstn_le_length.
Qed.

Lemma top_prompts_first_three_witness :
  exists a,
    analyze_suite "r" report_rankings = Ok a /\
    top_prompts a
    = {| byPassRate := JArr [ ranked "w" 1; ranked "x" (9 # 10);
                               ranked "y" (8 # 10) ];
         byQuality := JArr [];
         bySpeed := JArr [ ranked "y" (1 # 2) ];
         byConsistency := JArr [] |}.
Proof.
  eexists. split; [vm_compute; reflexivity|].
  exact (proj1 (top_prompts_first_three "r" report_rankings _ _
                  [ ranked "w" 1; ranked "x" (9 # 10);
                    ranked "y" (8 # 10); ranked "z" (7 # 10) ]
                  [] [ ranked "y" (1 # 2) ] []
                  eq_refl eq_refl eq_refl eq_refl eq_refl eq_refl)).
Defined.

(** ** The executive summary *)

Lemma analyze_suite_numeric (id : string) (r : json) (a : SuiteAnalysis) :
  analyze_suite id r = Ok a ->
  exists t s d,
    total_runs a = JNum t /\ successful_runs a = JNum s /\
    total_duration a = JNum d /\
    avg_duration_per_run a
    = PyFloat (num_val d / num_val (py_max1 t)).
Proof.
  unfold analyze_suite. intros H.
  inv_bind H. inv_bind H. inv_bind H. inv_bind H.
  apply bind_Ok in H. destruct H as (rate & Hrate & H).
  apply bind_Ok in H. destruct H as (avg & Havg & H).
  do 10 (let x := fresh "w" in let Hx := fresh "Hw" in
         apply bind_Ok in H; destruct H as (x & Hx & H)).
  injection H as <-. simpl.
  apply bind_Ok in Hrate. destruct Hrate as (d1 & Hd1 & Hrate).
  apply bind_Ok in Hrate. destruct Hrate as (x & Hx & _).
  apply bind_Ok in Havg. destruct Havg as (d2 & Hd2 & Havg).
  apply max1_Ok in Hd1. destruct Hd1 as (t & Ht & ->).
  apply truediv_Ok in Hx. destruct Hx as (s & Hs & _).
  rewrite Ht in Hd2. simpl in Hd2. injection Hd2 as <-.
  apply truediv_Ok in Havg. destruct Havg as (d & Hd & ->).
  exists t, s, d. auto.
Qed.

Lemma py_sum_numbers {A : Type} (f : A -> json) (l : list A) :
  Forall (fun a => exists n, f a = JNum n) l ->
  exists ns, map f l = map JNum ns /\
             py_sum (map f l) = Ok (fold_left py_add ns (PyInt 0)).
Proof.
  intros H.
  assert (exists ns, map f l = map JNum ns) as (ns & E).
  { induction H as [|a l (n & Hn) _ (ns & IH)].
    - exists []. reflexivity.
    - exists (n :: ns). simpl. rewrite Hn, IH. reflexivity. }
  exists ns. split; [exact E|]. rewrite E. apply sum_from_numbers.
Qed.

Lemma overall_rate_Ok (passed tests : number) :
  overall_rate passed tests
  = Ok (py_mul (PyFloat (num_val passed / num_val (py_max1 tests)))
          (PyInt 100)).
Proof.
  unfold overall_rate. rewrite py_truediv_max1. reflexivity.
Qed.

Lemma num_comma_no_raise (n : number) (e : exn) : num_comma n <> Raise e.
Proof.
  destruct n as [[|]|z|q]; simpl; try discriminate.
  destruct (float_integral q); discriminate.
Qed.

(** X4: on analyses returned by [analyze_suite] the totals of runs, of
    successful runs and of durations and the overall rate are always
    computed; the executive summary can raise on [failedRuns] only, the
    one field [analyze_suite] stores without computing with it. *)
Theorem summary_fails_on_failed_runs_only (analyses : list SuiteAnalysis) :
  Forall produced analyses ->
  (exists tests passed time rate,
     total_tests analyses = Ok tests /\
     total_passed analyses = Ok passed /\
     total_time analyses = Ok time /\
     overall_rate passed tests = Ok rate) /\
  forall e, summary_lines analyses = Raise e ->
            total_failed analyses = Raise e.
Proof.
  intros H.
  destruct (py_sum_numbers total_runs analyses) as (ts & _ & Et).
  { apply Forall_impl with (2 := H). intros a (id & r & Ha).
    destruct (analyze_suite_numeric _ _ _ Ha) as (t & s & d & Ht & _).
    eauto. }
  destruct (py_sum_numbers successful_runs analyses) as (ss & _ & Es).
  { apply Forall_impl with (2 := H). intros a (id & r & Ha).
    destruct (analyze_suite_numeric _ _ _ Ha) as (t & s & d & _ & Hs & _).
    eauto. }
  destruct (py_sum_numbers total_duration analyses) as (ds & _ & Ed).
  { apply Forall_impl with (2 := H). intros a (id & r & Ha).
    destruct (analyze_suite_numeric _ _ _ Ha) as (t & s & d & _ & _ & Hd & _).
    eauto. }
  split.
  - do 4 eexists. repeat split; try eassumption. apply overall_rate_Ok.
  - intros e. unfold summary_lines, total_tests, total_passed, total_time.
    rewrite Et, Es. cbn [bind].
    destruct (total_failed analyses) as [f | e' |]; cbn [bind];
      [|intros He; injection He as <-; reflexivity | discriminate].
    rewrite overall_rate_Ok, Ed. cbn [bind].
    destruct (num_comma _) as [c | e' |] eqn:Ec; cbn [bind];
      [| exfalso; exact (num_comma_no_raise _ _ Ec) | discriminate].
    unfold py_truediv at 1. simpl Qeq_bool. cbn iota. cbn [bind].
    rewrite py_truediv_max1. cbn [bind]. discriminate.
Qed.

Lemma summary_fails_on_failed_runs_only_witness :
  Forall produced analyses_AB /\
  exists tests passed time rate,
    total_tests analyses_AB = Ok tests /\
    total_passed analyses_AB = Ok passed /\
    total_time analyses_AB = Ok time /\
    overall_rate passed tests = Ok rate.
Proof.
  assert (Forall produced analyses_AB) as H.
  { repeat constructor.
    - exists "A", report_A. vm_compute. reflexivity.
    - exists "B", report_B. vm_compute. reflexivity. }
  split; [exact H|].
  exact (proj1 (summary_fails_on_failed_runs_only analyses_AB H)).
Defined.

Lemma q_sum_bounds (analyses : list SuiteAnalysis) :
  Forall consistent_counts analyses ->
  exists ss ts,
    map successful_runs analyses = map JNum ss /\
    map total_runs analyses = map JNum ts /\
    0 <= q_sum ss <= q_sum ts.
Proof.
  induction 1 as [|a l (s & t & Hs & Ht & Hb) _ (ss & ts & Es & Et & IH)].
  - exists [], []. simpl. repeat split; apply Qle_refl.
  - exists (s :: ss), (t :: ts). simpl. rewrite Hs, Ht, Es, Et.
    repeat split; lra.
Qed.

(** X5: when every suite has [0 <= successful_runs <= total_runs], the
    overall success rate of the executive summary is
    [total_passed / max(1, total_tests) * 100] and lies between 0 and
    100. *)
Theorem overall_rate_bounds (analyses : list SuiteAnalysis) :
  Forall consistent_counts analyses ->
  exists tests passed rate,
    total_tests analyses = Ok tests /\
    total_passed analyses = Ok passed /\
    overall_rate passed tests = Ok rate /\
    num_val rate == num_val passed / Qmax 1 (num_val tests) * 100 /\
    0 <= num_val rate <= 100.
Proof.
  intros H. destruct (q_sum_bounds _ H) as (ss & ts & Es & Et & Hb).
  exists (fold_left py_add ts (PyInt 0)), (fold_left py_add ss (PyInt 0)).
  eexists. unfold total_tests, total_passed. rewrite Es, Et.
  split; [apply sum_from_numbers|]. split; [apply sum_from_numbers|].
  split; [apply overall_rate_Ok|].
  assert (num_val (py_mul
            (PyFloat (num_val (fold_left py_add ss (PyInt 0))
                      / num_val (py_max1 (fold_left py_add ts (PyInt 0)))))
            (PyInt 100))
          == num_val (fold_left py_add ss (PyInt 0))
             / Qmax 1 (num_val (fold_left py_add ts (PyInt 0))) * 100) as E.
  { rewrite py_mul_val. cbn [num_val]. rewrite py_max1_val. reflexivity. }
  split; [exact E|]. rewrite E.
  apply rate_bounds. rewrite !fold_py_add_val. cbn [num_val].
  change (inject_Z 0) with 0. lra.
Qed.

Lemma overall_rate_bounds_witness :
  Forall consistent_counts analyses_AB /\
  exists tests passed rate,
    total_tests analyses_AB = Ok tests /\
    total_passed analyses_AB = Ok passed /\
    overall_rate passed tests = Ok rate /\
    num_val rate == num_val passed / Qmax 1 (num_val tests) * 100 /\
    0 <= num_val rate <= 100.
Proof.
  assert (Forall consistent_counts analyses_AB) as H.
  { repeat constructor.
    - exists (PyInt 15), (PyInt 20). repeat split; discriminate.
    - exists (PyInt 22), (PyInt 30). repeat split; discriminate. }
  split; [exact H|]. exact (overall_rate_bounds analyses_AB H).
Defined.

(** ** The prompt table and the leaderboard *)

Lemma map_res_length {A B : Type} (f : A -> res B) (l : list A)
    (l' : list B) :
  map_res f l = Ok l' -> List.length l' = List.length l.
Proof.
  intros H. apply map_res_Forall2 in H. symmetry.
  exact (Forall2_length H).
Qed.

(** X6: the prompt table of a suite shows the first ten rows of
    [prompt_analysis], in their order, between four heading lines and an
    empty line; a suite without prompts has no table at all. *)
Theorem prompt_table_first_ten (rows : list PromptStats) (ls : list string) :
  prompt_table rows = Ok ls ->
  (rows = [] -> ls = []) /\
  (rows <> [] ->
   exists lines,
     Forall2 (fun p line => prompt_row p = Ok line) (firstn 10 rows) lines /\
     List.length lines = Nat.min 10 (List.length rows) /\
     ls = [ "#### Detailed Prompt Analysis"; "";
            "| Prompt | Pass@N | Dup Rate | JSON | Quality | Runs |";
            "|--------|--------|----------|------|---------|------|" ]
          ++ lines ++ [""]).
Proof.
  unfold prompt_table. destruct rows as [|p rows]; intros H.
  - injection H as <-. split; [reflexivity | congruence].
  - split; [discriminate|]. intros _.
    apply bind_Ok in H. destruct H as (lines & Hl & H).
    injection H as <-. exists lines.
    split; [apply map_res_Forall2; exact Hl|].
    split; [|reflexivity].
    rewrite (map_res_length _ _ _ Hl). apply length_firstn.
Qed.

Lemma prompt_table_first_ten_witness :
  List.length rows_twelve = 12%nat /\
  exists ls lines,
    prompt_table rows_twelve = Ok ls /\
    List.length lines = 10%nat /\
    ls = [ "#### Detailed Prompt Analysis"; "";
           "| Prompt | Pass@N | Dup Rate | JSON | Quality | Runs |";
           "|--------|--------|----------|------|---------|------|" ]
         ++ lines ++ [""].
Proof.
  split; [reflexivity|].
  destruct (prompt_table rows_twelve) as [ls| |] eqn:Et;
    [| vm_compute in Et; discriminate..].
  destruct (proj2 (prompt_table_first_ten _ _ Et)) as (lines & _ & Hn & Hls);
    [vm_compute; discriminate|].
  exists ls, lines. split; [reflexivity|]. split; [exact Hn | exact Hls].
Defined.

Lemma In_firstn {A : Type} (n : nat) (l : list A) (x : A) :
  In x (firstn n l) -> In x l.
Proof.
  intros H. rewrite <- (firstn_skipn n l). apply in_or_app. left. exact H.
Qed.

(** X7: the leaderboards are cut to size: [best_overall] has
    [min(5, n)] and [worst_overall] [min(3, n)] of the [n] entries of
    [all_prompts], and they hold no entry that is not in the dict. *)
Theorem leaderboard_sizes (entries : list (json * LeaderboardEntry)) :
  List.length (best_overall entries) = Nat.min 5 (List.length entries) /\
  List.length (worst_overall entries) = Nat.min 3 (List.length entries) /\
  incl (best_overall entries) entries /\
  incl (worst_overall entries) entries.
Proof.
  unfold best_overall, worst_overall.
  rewrite !length_firstn,
    <- (Permutation_length (list_sort_perm avg_key true entries)),
    <- (Permutation_length (list_sort_perm avg_key false entries)).
  repeat split; intros x Hx; apply In_firstn in Hx;
    (eapply Permutation_in; [apply Permutation_sym, list_sort_perm | exact Hx]).
Qed.

(** X8: when an id comes with different names, the leaderboard keeps the
    name of the first row met with that id. *)
Theorem leaderboard_keeps_first_name (analyses : list SuiteAnalysis)
    (entries : list (json * LeaderboardEntry)) (k : json)
    (e : LeaderboardEntry) :
  all_prompts analyses = Ok entries ->
  In (k, e) entries ->
  exists p rest,
    rows_for k (all_rows analyses) = p :: rest /\
    name (totals e) = promptName p.
Proof.
  intros H Hin.
  destruct (all_prompts_entry _ _ _ _ H Hin) as ((Hn & _) & _).
  destruct (rows_for k (all_rows analyses)) as [|p rest];
    [discriminate|].
  simpl in Hn. injection Hn as Hn. exists p, rest. auto.
Qed.

Lemma leaderboard_keeps_first_name_witness :
  exists e p rest,
    all_prompts analyses_renamed = Ok [(JStr "p1", e)] /\
    map promptName (all_rows analyses_renamed)
    = [JStr "Old name"; JStr "New name"] /\
    name (totals e) = JStr "Old name" /\
    rows_for (JStr "p1") (all_rows analyses_renamed) = p :: rest /\
    name (totals e) = promptName p.
Proof.
  destruct (all_prompts analyses_renamed) as [entries| |] eqn:E;
    try (vm_compute in E; discriminate).
  destruct entries as [|[k e] [|x l]];
    try (vm_compute in E; discriminate).
  assert (k = JStr "p1") as -> by (vm_compute in E; congruence).
  destruct (leaderboard_keeps_first_name analyses_renamed _ (JStr "p1") e E
              (or_introl eq_refl)) as (p & rest & Hr & Hn).
  exists e, p, rest. split; [reflexivity|].
  split; [vm_compute; reflexivity|].
  split; [vm_compute in E; injection E as <-; reflexivity|].
  auto.
Defined.

(** ** Runs without a usable report *)

Lemma cat_empty_r (s : string) : s +++ "" = s.
Proof.
  unfold cat. induction s as [|c s IH]; simpl; [reflexivity|].
  rewrite IH. reflexivity.
Qed.

Lemma report_lines_empty (now : datetime) :
  report_lines now [] = Ok (header_lines now ++ empty_report_body).
Proof.
  vm_compute. reflexivity.
Qed.

Lemma document_empty (now : datetime) :
  document now [] []
  = Ok (join newline (header_lines now ++ empty_report_body)).
Proof.
  unfold document, generate_markdown_report.
  rewrite report_lines_empty. cbn [bind coordinator_appendix].
  rewrite cat_empty_r. reflexivity.
Qed.

Lemma analyze_files_all_fail (files : list (string * res json)) :
  Forall (fun f => exists e, analysis_of f = Raise e) files ->
  exists printed, analyze_files files = Ok (printed, []).
Proof.
  induction 1 as [|f files (e & He) _ (printed & IH)]; simpl.
  - eauto.
  - unfold analyze_file. rewrite He, IH. cbn [bind fst snd app]. eauto.
Qed.

(** X9: when report files were found but none of them loads and analyzes,
    the run still writes a document, the report on no suite, and ends with
    exit status 0. *)
Theorem all_reports_failing_still_writes (now : datetime)
    (results_dir : string) (report_files : list (string * res json)) :
  report_files <> [] ->
  Forall (fun f => exists e, analysis_of f = Raise e) report_files ->
  exists out,
    main now results_dir report_files []
    = Exited 0 out
        (Some (join newline (header_lines now ++ empty_report_body))).
Proof.
  intros Hne Hall. destruct (analyze_files_all_fail _ Hall) as (printed & Hf).
  unfold main. destruct report_files as [|f fs]; [congruence|].
  rewrite Hf, document_empty.
  replace (console_summary [])
    with ([ str_repeat "=" 70; "ANALYSIS SUMMARY"; str_repeat "=" 70; "";
            "Total Tests: 0"; "Overall Success Rate: 0.0%"; "";
            "Suite Performance:"; "" ], @Ok unit tt)
    by (vm_compute; reflexivity).
  eexists. reflexivity.
Qed.

Lemma all_reports_failing_still_writes_witness :
  Forall (fun f => exists e, analysis_of f = Raise e) broken_files /\
  exists out,
    main noon "results" broken_files []
    = Exited 0 out
        (Some (join newline (header_lines noon ++ empty_report_body))).
Proof.
  assert (Forall (fun f => exists e, analysis_of f = Raise e) broken_files)
    as H by (repeat constructor; eexists; reflexivity).
  split; [exact H|].
  exact (all_reports_failing_still_writes noon "results" broken_files
           ltac:(discriminate) H).
Defined.

Lemma main_needs_document (now : datetime) (results_dir : string)
    (report_files coord_files : list (string * res json))
    (printed : list string) (analyses : list SuiteAnalysis) :
  report_files <> [] ->
  analyze_files report_files = Ok (printed, analyses) ->
  (forall doc, document now analyses coord_files <> Ok doc) ->
  aborted_without_document
    (main now results_dir report_files coord_files).
Proof.
  intros Hne Hf Hd. unfold main, aborted_without_document.
  destruct report_files as [|f fs]; [congruence|]. rewrite Hf.
  destruct (document now analyses coord_files) as [doc | e |].
  - exfalso. exact (Hd doc eq_refl).
  - right. eauto.
  - left. reflexivity.
Qed.

Lemma Forall2_In_l {A B : Type} (R : A -> B -> Prop) (l : list A)
    (l' : list B) (x : A) :
  Forall2 R l l' -> In x l -> exists y, In y l' /\ R x y.
Proof.
  induction 1 as [|a b l l' Hab Hl IH]; simpl; intros Hin; [contradiction|].
  destruct Hin as [<- | Hin].
  - exists b. auto.
  - destruct (IH Hin) as (y & Hy & Hr). exists y. auto.
Qed.

Lemma document_Ok_report (now : datetime) (analyses : list SuiteAnalysis)
    (coord_files : list (string * res json)) (doc : string) :
  document now analyses coord_files = Ok doc ->
  exists ls, report_lines now analyses = Ok ls.
Proof.
  unfold document, generate_markdown_report. intros H.
  apply bind_Ok in H. destruct H as (report & Hr & _).
  apply bind_Ok in Hr. destruct Hr as (ls & Hls & _). eauto.
Qed.

Lemma prompt_row_named (p : PromptStats) (line : string) :
  prompt_row p = Ok line -> promptName p <> JNull.
Proof.
  unfold prompt_row. intros H C. rewrite C in H. discriminate.
Qed.

Lemma suite_section_rows (a : SuiteAnalysis) (sec : list string)
    (p : PromptStats) :
  suite_section a = Ok sec ->
  In p (firstn 10 (prompt_analysis a)) ->
  exists line, prompt_row p = Ok line.
Proof.
  unfold suite_section. intros H Hin.
  do 9 (let x := fresh "w" in let Hx := fresh "Hw" in
        apply bind_Ok in H; destruct H as (x & Hx & H)).
  apply bind_Ok in H. destruct H as (table & Ht & _).
  unfold prompt_table in Ht.
  destruct (prompt_analysis a) as [|q rows] eqn:E.
  - destruct Hin.
  - apply bind_Ok in Ht. destruct Ht as (ls & Hls & _).
    apply map_res_Forall2 in Hls.
    destruct (Forall2_In_l _ _ _ _ Hls Hin) as (line & _ & Hl). eauto.
Qed.

(** X10: [analyze_suite] accepts a prompt row without [promptName], but
    the prompt table cannot slice the missing name: when such a row is
    among the first ten of a suite, the run ends on the uncaught exception
    and no document is written. *)
Theorem nameless_prompt_aborts_run (now : datetime) (results_dir : string)
    (report_files coord_files : list (string * res json))
    (printed : list string) (analyses : list SuiteAnalysis)
    (a : SuiteAnalysis) (p : PromptStats) :
  report_files <> [] ->
  analyze_files report_files = Ok (printed, analyses) ->
  In a analyses ->
  In p (firstn 10 (prompt_analysis a)) ->
  promptName p = JNull ->
  aborted_without_document
    (main now results_dir report_files coord_files).
Proof.
  intros Hne Hf Ha Hp Hn.
  apply main_needs_document with (printed := printed) (analyses := analyses);
    try assumption.
  intros doc Hd. destruct (document_Ok_report _ _ _ _ Hd) as (ls & Hls).
  destruct (report_lines_sections _ _ _ Hls) as (_ & _ & secs & _ & HF & _).
  destruct (Forall2_In_l _ _ _ _ HF Ha) as (sec & _ & Hsec).
  destruct (suite_section_rows _ _ _ Hsec Hp) as (line & Hl).
  exact (prompt_row_named _ _ Hl Hn).
Qed.

Lemma nameless_prompt_aborts_run_witness :
  exists a p,
    analysis_of nameless_file = Ok a /\
    prompt_analysis a = [p] /\
    promptName p = JNull /\
    main noon "results" [nameless_file] []
    = Crashed (TypeError "'NoneType' object is not subscriptable")
        [ "Found 1 unified test reports"; ""; "Analyzing nameless...";
          "  ✅ Success rate: 0.0%"; "";
          "Generating detailed analysis report..." ]
        None /\
    aborted_without_document (main noon "results" [nameless_file] []).
Proof.
  destruct (analysis_of nameless_file) as [a| |] eqn:Ea;
    [| vm_compute in Ea; discriminate..].
  destruct (prompt_analysis a) as [|p [|q l]] eqn:Ep;
    try (vm_compute in Ea; injection Ea as <-; vm_compute in Ep;
         discriminate).
  assert (promptName p = JNull) as Hn
    by (vm_compute in Ea; injection Ea as <-; vm_compute in Ep;
        injection Ep as <-; reflexivity).
  exists a, p. split; [reflexivity|]. split; [exact Ep|].
  split; [exact Hn|]. split; [vm_compute; reflexivity|].
  apply (nameless_prompt_aborts_run noon "results" [nameless_file] []
           [ "Analyzing nameless..."; "  ✅ Success rate: 0.0%" ] [a] a p).
  - discriminate.
  - cbn [analyze_files]. unfold analyze_file. rewrite Ea.
    vm_compute in Ea. injection Ea as <-. reflexivity.
  - left. reflexivity.
  - rewrite Ep. left. reflexivity.
  - exact Hn.
Defined.

Lemma sum_Ok_numbers {A : Type} (f : A -> json) (l : list A) (n : number)
    (a : A) :
  py_sum (map f l) = Ok n -> In a l -> exists x, f a = JNum x.
Proof.
  unfold py_sum. intros H Hin.
  destruct (sum_from_Ok _ _ _ H) as (ns & E & _).
  assert (In (f a) (map JNum ns)) as Hm
    by (rewrite <- E; apply in_map; exact Hin).
  apply in_map_iff in Hm. destruct Hm as (x & Hx & _). eauto.
Qed.

(** X11: [analyze_suite] stores [failedRuns] as it is; when it is not a
    number in some suite, the sum of the failed runs raises in the
    executive summary, outside any [try]: the run ends on the uncaught
    exception and no document is written. *)
Theorem non_numeric_failed_runs_aborts_run (now : datetime)
    (results_dir : string)
    (report_files coord_files : list (string * res json))
    (printed : list string) (analyses : list SuiteAnalysis)
    (a : SuiteAnalysis) :
  report_files <> [] ->
  analyze_files report_files = Ok (printed, analyses) ->
  In a analyses ->
  is_num (failed_runs a) = false ->
  aborted_without_document
    (main now results_dir report_files coord_files).
Proof.
  intros Hne Hf Ha Hn.
  apply main_needs_document with (printed := printed) (analyses := analyses);
    try assumption.
  intros doc Hd. destruct (document_Ok_report _ _ _ _ Hd) as (ls & Hls).
  unfold report_lines in Hls.
  apply bind_Ok in Hls. destruct Hls as (summary & Hs & _).
  unfold summary_lines in Hs.
  apply bind_Ok in Hs. destruct Hs as (tests & _ & Hs).
  apply bind_Ok in Hs. destruct Hs as (passed & _ & Hs).
  apply bind_Ok in Hs. destruct Hs as (failed & Hfailed & _).
  destruct (sum_Ok_numbers failed_runs analyses failed a Hfailed Ha)
    as (x & Hx).
  rewrite Hx in Hn. discriminate.
Qed.

Lemma non_numeric_failed_runs_aborts_run_witness :
  exists a,
    analysis_of failed_text_file = Ok a /\
    failed_runs a = JStr "none" /\
    main noon "results" [failed_text_file] []
    = Crashed
        (TypeError "unsupported operand type(s) for +: 'int' and 'str'")
        [ "Found 1 unified test reports"; ""; "Analyzing text...";
          "  ✅ Success rate: 0.0%"; "";
          "Generating detailed analysis report..." ]
        None /\
    aborted_without_document (main noon "results" [failed_text_file] []).
Proof.
  destruct (analysis_of failed_text_file) as [a| |] eqn:Ea;
    [| vm_compute in Ea; discriminate..].
  assert (failed_runs a = JStr "none") as Hn
    by (vm_compute in Ea; injection Ea as <-; reflexivity).
  exists a. split; [reflexivity|]. split; [exact Hn|].
  split; [vm_compute; reflexivity|].
  apply (non_numeric_failed_runs_aborts_run noon "results"
           [failed_text_file] []
           [ "Analyzing text..."; "  ✅ Success rate: 0.0%" ] [a] a).
  - discriminate.
  - cbn [analyze_files]. unfold analyze_file. rewrite Ea.
    vm_compute in Ea. injection Ea as <-. reflexivity.
  - left. reflexivity.
  - rewrite Hn. reflexivity.
Defined.

(** ** The coordinator appendix *)

Lemma coord_file_no_raise (file : string * res json) (e : exn) :
  coord_file file <> Raise e.
Proof.
  unfold coord_file. destruct (snd file) as [data | e' |]; try discriminate.
  destruct (coord_body (fst file) data) as [ls [[] | e' |]]; discriminate.
Qed.

Lemma map_res_no_raise {A B : Type} (f : A -> res B) (l : list A) :
  (forall x e, f x <> Raise e) -> forall e, map_res f l <> Raise e.
Proof.
  intros Hf. induction l as [|x l IH]; simpl; intros e; [discriminate|].
  destruct (f x) as [y | e' |] eqn:E; cbn [bind]; try discriminate.
  - destruct (map_res f l) as [ys | e'' |] eqn:El; cbn [bind];
      try discriminate.
    exfalso. exact (IH e'' eq_refl).
  - exfalso. exact (Hf x e' E).
Qed.

Lemma coordinator_appendix_no_raise (coord_files : list (string * res json))
    (e : exn) :
  coordinator_appendix coord_files <> Raise e.
Proof.
  unfold coordinator_appendix. destruct coord_files as [|f fs];
    [discriminate|].
  destruct (map_res coord_file (f :: fs)) as [secs | e' |] eqn:E;
    cbn [bind]; try discriminate.
  exfalso. exact (map_res_no_raise coord_file (f :: fs) coord_file_no_raise
                    e' E).
Qed.

(** X12: the coordinator appendix never raises.  Everything that reads a
    coordinator file runs inside the [try] of line 336, so whatever the
    files hold, and whether or not they load, an exception raised while
    the document is put together is the exception of
    [generate_markdown_report].  (This is about the appendix only: a
    coordinator file whose name ends in [_report.json] is also one of the
    report files of line 298, and is analysed there as a suite like any
    other.) *)
Theorem appendix_never_raises (now : datetime)
    (analyses : list SuiteAnalysis) (coord_files : list (string * res json))
    (e : exn) :
  coordinator_appendix coord_files <> Raise e /\
  (document now analyses coord_files = Raise e ->
   generate_markdown_report now analyses = Raise e).
Proof.
  split; [apply coordinator_appendix_no_raise|].
  unfold document.
  destruct (generate_markdown_report now analyses) as [report | e' |];
    cbn [bind]; try discriminate.
  - destruct (coordinator_appendix coord_files) as [appendix | e' |] eqn:E;
      cbn [bind]; try discriminate.
    exfalso. exact (coordinator_appendix_no_raise _ _ E).
  - intros H. injection H as <-. reflexivity.
Qed.

Lemma appendix_never_raises_witness :
  coordinator_appendix [("coordinator_experiments.report.json", Ok (JArr []))]
  = Ok (join newline
          [ ""; newline +++ "---" +++ newline;
            "## Coordinator Experiments (Appendix)"; newline;
            "### coordinator_experiments.report.json"; "";
            "(error parsing report: 'list' object has no attribute 'get')";
            "" ]) /\
  document noon (analysed [nameless_file])
    [("coordinator_experiments.report.json", Ok (JArr []))]
  = Raise (TypeError "'NoneType' object is not subscriptable") /\
  generate_markdown_report noon (analysed [nameless_file])
  = Raise (TypeError "'NoneType' object is not subscriptable").
Proof.
  assert (document noon (analysed [nameless_file])
            [("coordinator_experiments.report.json", Ok (JArr []))]
          = Raise (TypeError "'NoneType' object is not subscriptable")) as H
    by (vm_compute; reflexivity).
  split; [vm_compute; reflexivity|]. split; [exact H|].
  exact (proj2 (appendix_never_raises _ _ _ _) H).
Defined.

Lemma coord_header_heading (fname : string) (data : json)
    (hdr : list string) (items : list json) :
  coord_header fname data = Ok (hdr, items) ->
  exists rest, hdr = ("### " +++ fname) :: rest.
Proof.
  unfold coord_header. intros H.
  do 10 (let x := fresh "w" in let Hx := fresh "Hw" in
         apply bind_Ok in H; destruct H as (x & Hx & H)).
  injection H as <- _. eauto.
Qed.

(** X13: every coordinator file shows in the appendix: its section starts
    with the heading of the file, and when loading the file or summarising
    it raised, the section ends with the error stub that carries the
    message, after the lines written before the exception. *)
Theorem coordinator_file_always_shows (file : string * res json)
    (ls : list string) :
  coord_file file = Ok ls ->
  hd_error ls = Some ("### " +++ fst file) /\
  match coord_failure file with
  | Some e => exists written, ls = written ++ coord_error (fst file) e
  | None => exists written, ls = written ++ [""]
  end.
Proof.
  unfold coord_file, coord_failure.
  destruct (snd file) as [data | e |]; try discriminate.
  - unfold coord_body.
    destruct (coord_header (fst file) data) as [[hdr items] | e |] eqn:Eh;
      cbn [snd]; try discriminate.
    + destruct (coord_header_heading _ _ _ _ Eh) as (rest & ->).
      destruct (by_scenario items []) as [groups | e |]; cbn [snd];
        try discriminate.
      * destruct (scenario_rows groups) as [rows [[] | e |]]; cbn [snd];
          intros H; try discriminate; injection H as <-.
        -- split; [reflexivity|].
           exists ((("### " +++ fst file) :: rest) ++ scenario_table_head
                   ++ rows).
           rewrite <- !app_assoc. reflexivity.
        -- split; [reflexivity|].
           exists ((("### " +++ fst file) :: rest) ++ scenario_table_head
                   ++ rows ++ []).
           reflexivity.
      * intros H. injection H as <-. split; [reflexivity|].
        exists (("### " +++ fst file) :: rest). reflexivity.
    + intros H. injection H as <-. split; [reflexivity|].
      exists []. reflexivity.
  - intros H. injection H as <-. split; [reflexivity|].
    exists []. reflexivity.
Qed.

Lemma coordinator_file_always_shows_witness :
  exists ls,
    coord_file coord_half_file = Ok ls /\
    ls = [ "### coordinator_experiments_half_report.json"; "";
           "- **Scenarios:** n/a"; "- **Runs:** 2"; "- **Successful:** 1";
           "";
           "### coordinator_experiments_half_report.json"; "";
           "(error parsing report: unhashable type: 'list')"; "" ] /\
    hd_error ls = Some ("### " +++ fst coord_half_file).
Proof.
  eexists. split; [vm_compute; reflexivity|]. split; [reflexivity|].
  exact (proj1 (coordinator_file_always_shows coord_half_file _ eq_refl)).
Defined.

Lemma group_add_perm (sid r : json) (m : list (json * list json)) :
  Permutation (List.concat (map snd (group_add sid r m)))
              (r :: List.concat (map snd m)).
Proof.
  induction m as [|[k rs] m IH]; simpl.
  - apply Permutation_refl.
  - destruct (key_eqb k sid); simpl.
    + rewrite <- app_assoc. simpl. apply Permutation_sym, Permutation_middle.
    + apply perm_trans with (rs ++ r :: List.concat (map snd m)).
      * apply Permutation_app_head. exact IH.
      * apply Permutation_sym, Permutation_middle.
Qed.

Lemma by_scenario_perm (results : list json) :
  forall m m', by_scenario results m = Ok m' ->
  Permutation (List.concat (map snd m'))
              (List.concat (map snd m) ++ results).
Proof.
  induction results as [|r results IH]; simpl; intros m m' H.
  - injection H as <-. rewrite app_nil_r. apply Permutation_refl.
  - apply bind_Ok in H. destruct H as (sid & _ & H).
    apply bind_Ok in H. destruct H as (_ & _ & H).
    apply perm_trans with (1 := IH _ _ H).
    apply perm_trans
      with ((r :: List.concat (map snd m)) ++ results).
    + apply Permutation_app_tail. apply group_add_perm.
    + simpl. apply Permutation_middle.
Qed.

Lemma key_eqb_str (k : json) (s : string) :
  key_eqb k (JStr s) = true -> k = JStr s.
Proof.
  destruct k; simpl; intros H; try discriminate.
  apply String.eqb_eq in H. congruence.
Qed.

(** X14: [by_scenario] splits the run records into groups without losing
    or repeating one: the groups, put end to end, are a permutation of the
    records, no two groups have the same id, every record is in the group
    of its [scenarioId], and a record without [scenarioId] is in the group
    ["unknown"]. *)
Theorem by_scenario_partitions (results : list json)
    (groups : list (json * list json)) :
  by_scenario results [] = Ok groups ->
  Permutation (List.concat (map snd groups)) results /\
  distinct_keys (map fst groups) /\
  (forall r, In r results ->
     exists sid runs, In (sid, runs) groups /\
                      key_eqb sid (scenario_of r) = true /\ In r runs) /\
  (forall m, In (JObj m) results -> assoc_get "scenarioId" m = None ->
     exists runs, In (JStr "unknown", runs) groups /\ In (JObj m) runs).
Proof.
  intros H.
  assert (groups_inv [] []) as H0.
  { repeat split; try constructor. intros r []. }
  destruct (by_scenario_inv results [] [] groups H0 H) as (I1 & I2 & I3).
  simpl in I1, I3.
  assert (forall r, In r results ->
            exists sid runs, In (sid, runs) groups /\
                             key_eqb sid (scenario_of r) = true /\
                             In r runs) as Hcover.
  { intros r Hr. specialize (I3 r Hr). apply Exists_exists in I3.
    destruct I3 as (k & Hk & Hkr). apply in_map_iff in Hk.
    destruct Hk as ([k' runs] & <- & Hin). simpl in Hkr.
    exists k', runs. split; [exact Hin|]. split; [exact Hkr|].
    rewrite Forall_forall in I1. destruct (I1 _ Hin) as (_ & _ & Hg).
    simpl in Hg. rewrite Hg. unfold records_for. apply filter_In.
    split; [exact Hr|]. rewrite key_eqb_sym. exact Hkr. }
  split; [exact (by_scenario_perm results [] groups H)|].
  split; [exact I2|]. split; [exact Hcover|].
  intros m Hin Hm. destruct (Hcover _ Hin) as (sid & runs & Hg & Hk & Hr).
  assert (scenario_of (JObj m) = JStr "unknown") as E
    by (unfold scenario_of; simpl; rewrite Hm; reflexivity).
  rewrite E in Hk. apply key_eqb_str in Hk. subst sid. eauto.
Qed.

Lemma by_scenario_partitions_witness :
  exists g2 gu g3,
    by_scenario runs_mixed []
    = Ok [ (JStr "s2", g2); (JStr "unknown", gu); (JStr "s3", g3) ] /\
    List.length g2 = 2%nat /\ List.length gu = 2%nat /\
    Permutation (g2 ++ gu ++ g3 ++ []) runs_mixed.
Proof.
  do 3 eexists. split; [vm_compute; reflexivity|].
  split; [reflexivity|]. split; [reflexivity|].
  exact (proj1 (by_scenario_partitions runs_mixed _ eq_refl)).
Defined.

(** X15: a scenario summary counts within its records: the pass count and
    the escalation count never exceed the run count, and when every
    numeric [diagnostics.dupRate] lies in [0, 1] so does the average dup
    rate. *)
Theorem scenario_summary_within_bounds (sid : json) (runs : list json)
    (s : ScenarioSummary) :
  scenario_summary sid runs = Ok s ->
  Forall (fun n => 0 <= num_val n <= 1) (numeric_dup_rates runs) ->
  (passCount s <= runCount s)%nat /\
  (escalationCount s <= runCount s)%nat /\
  0 <= num_val (avgDupRate s) <= 1.
Proof.
  intros H Hd.
  destruct (scenario_summary_parts _ _ _ H) as (-> & -> & -> & ->).
  split; [apply filter_length_le|]. split; [apply filter_length_le|].
  pose proof (q_sum_unit_interval _ Hd) as [Hl Hu].
  destruct (numeric_dup_rates runs) as [|n ns] eqn:E.
  - simpl. split; discriminate.
  - unfold mean_or_zero. cbn [num_val].
    rewrite (fold_py_add_val (n :: ns) (PyInt 0)). cbn [num_val].
    change (inject_Z 0) with 0.
    set (len := inject_Z (Z.of_nat (List.length (n :: ns)))) in *.
    assert (0 < len) as Hpos.
    { unfold len. change 0 with (inject_Z 0). rewrite <- Zlt_Qlt.
      simpl. lia. }
    split.
    + apply Qle_shift_div_l; [exact Hpos | lra].
    + apply Qle_shift_div_r; [exact Hpos | lra].
Qed.

Lemma scenario_summary_within_bounds_witness :
  exists s,
    scenario_summary (JStr "s1") runs_s1 = Ok s /\
    (passCount s <= runCount s)%nat /\
    (escalationCount s <= runCount s)%nat /\
    0 <= num_val (avgDupRate s) <= 1.
Proof.
  eexists. split; [vm_compute; reflexivity|].
  apply (scenario_summary_within_bounds (JStr "s1") runs_s1 _ eq_refl).
  repeat constructor; discriminate.
Defined.

(** ** The console summary after the document *)

Lemma summary_lines_console (analyses : list SuiteAnalysis)
    (ls : list string) :
  summary_lines analyses = Ok ls ->
  exists totals, console_totals analyses = Ok totals.
Proof.
  unfold summary_lines, console_totals. intros H.
  apply bind_Ok in H. destruct H as (tests & E1 & H).
  apply bind_Ok in H. destruct H as (passed & E2 & H).
  apply bind_Ok in H. destruct H as (failed & _ & H).
  apply bind_Ok in H. destruct H as (rate & E3 & H).
  apply bind_Ok in H. destruct H as (time & _ & H).
  apply bind_Ok in H. destruct H as (s_tests & E4 & _).
  rewrite E1. cbn [bind]. rewrite E2. cbn [bind]. rewrite E3. cbn [bind].
  rewrite E4. cbn [bind]. eauto.
Qed.

Lemma status_line_cases (a : SuiteAnalysis) (nm : string) :
  py_str (suite_name a) = Ok nm ->
  if formattable (suite_name a)
  then exists l, status_line a = Ok l
  else status_line a = Raise (format_error (suite_name a)).
Proof.
  unfold status_line. destruct (suite_name a) as [|n|s|l|m];
    cbn [py_str formattable]; intros H; try discriminate.
  - reflexivity.
  - destruct n as [b|z|q]; cbn [py_ljust];
      [cbn [bind]; eauto | rewrite H; cbn [bind]; eauto ..].
  - cbn [py_ljust bind]. eauto.
Qed.

Lemma status_lines_cases (analyses : list SuiteAnalysis) :
  Forall (fun a => exists nm, py_str (suite_name a) = Ok nm) analyses ->
  match find (fun a => negb (formattable (suite_name a))) analyses with
  | None => exists ls, status_lines analyses = (ls, Ok tt)
  | Some a =>
      exists ls,
        status_lines analyses = (ls, Raise (format_error (suite_name a)))
  end.
Proof.
  induction 1 as [|a l (nm & Hnm) _ IH]; cbn [find status_lines].
  - eauto.
  - pose proof (status_line_cases a nm Hnm) as Hc.
    destruct (formattable (suite_name a)); cbn [negb].
    + destruct Hc as (line & ->).
      destruct (find _ l) as [b|]; destruct IH as (ls & ->); eauto.
    + rewrite Hc. eauto.
Qed.

Lemma report_lines_names (now : datetime) (analyses : list SuiteAnalysis)
    (ls : list string) :
  report_lines now analyses = Ok ls ->
  (exists summary, summary_lines analyses = Ok summary) /\
  Forall (fun a => exists nm, py_str (suite_name a) = Ok nm) analyses.
Proof.
  unfold report_lines. intros H.
  apply bind_Ok in H. destruct H as (summary & Hs & H).
  apply bind_Ok in H. destruct H as (rows & Hr & _).
  split; [eauto|].
  apply map_res_Forall2 in Hr. apply Forall_forall. intros a Ha.
  destruct (Forall2_In_l _ _ _ _ Hr Ha) as (row & _ & Hrow).
  unfold comparison_row in Hrow.
  apply bind_Ok in Hrow. destruct Hrow as (nm & Hnm & _). eauto.
Qed.

(** X16: once the document is rendered it is written before the console
    summary is printed.  The run then ends with exit status 0 when every
    suite name is a string or a number; otherwise it ends, with the
    document on disk, on the [TypeError] that the left-aligned format of
    line 401 raises on the first other name ([None] for a JSON [null] in
    [suiteName]; a name that is a list or a dict is rendered with [repr],
    outside the embedding). *)
Theorem run_after_document (now : datetime) (results_dir : string)
    (report_files coord_files : list (string * res json))
    (printed : list string) (analyses : list SuiteAnalysis) (doc : string) :
  report_files <> [] ->
  analyze_files report_files = Ok (printed, analyses) ->
  document now analyses coord_files = Ok doc ->
  match find (fun a => negb (formattable (suite_name a))) analyses with
  | None =>
      exists out, main now results_dir report_files coord_files
                  = Exited 0 out (Some doc)
  | Some a =>
      exists out, main now results_dir report_files coord_files
                  = Crashed (format_error (suite_name a)) out (Some doc)
  end.
Proof.
  intros Hne Hf Hd.
  destruct (document_Ok_report _ _ _ _ Hd) as (ls & Hls).
  destruct (report_lines_names _ _ _ Hls) as ((summary & Hs) & Hnames).
  destruct (summary_lines_console _ _ Hs) as (totals & Ht).
  unfold main. destruct report_files as [|f fs]; [congruence|].
  rewrite Hf, Hd. unfold console_summary. rewrite Ht.
  pose proof (status_lines_cases _ Hnames) as Hc.
  destruct (find _ analyses) as [a|]; destruct Hc as (sl & ->); eauto.
Qed.

Lemma run_after_document_witness :
  exists printed a doc out,
    analyze_files [null_name_file] = Ok (printed, [a]) /\
    suite_name a = JNull /\
    document noon [a] [] = Ok doc /\
    occurs "### None" doc = true /\
    main noon "results" [null_name_file] []
    = Crashed none_format_error out (Some doc).
Proof.
  destruct (analyze_files [null_name_file]) as [[printed analyses]| |] eqn:Ef;
    [| vm_compute in Ef; discriminate..].
  destruct analyses as [|a [|b l]];
    try (vm_compute in Ef; discriminate).
  assert (suite_name a = JNull) as Hn
    by (vm_compute in Ef; injection Ef as _ <-; reflexivity).
  destruct (document noon [a] []) as [doc| |] eqn:Ed;
    try (vm_compute in Ef; injection Ef as _ <-; vm_compute in Ed;
         discriminate).
  assert (occurs "### None" doc = true) as Ho
    by (vm_compute in Ef; injection Ef as _ <-; vm_compute in Ed;
        injection Ed as <-; vm_compute; reflexivity).
  pose proof (run_after_document noon "results" [null_name_file] []
                printed [a] doc ltac:(discriminate) Ef Ed) as Hm.
  cbn [find] in Hm. rewrite Hn in Hm. cbn [formattable negb] in Hm.
  destruct Hm as (out & Hm).
  exists printed, a, doc, out.
  split; [reflexivity|]. split; [exact Hn|]. split; [exact Ed|].
  split; [exact Ho|]. rewrite Hn in Hm. exact Hm.
Defined.

(** ** What the leaderboard adds up and what the report leaves out *)

Lemma rows_for_unseen (rows : list PromptStats) (ks : list json)
    (pid : json) :
  (forall p, In p rows ->
     Exists (fun k => key_eqb k (promptId p) = true) ks) ->
  Forall (fun k => key_eqb k pid = false) ks ->
  rows_for pid rows = [].
Proof.
  intros Hcover Hnone. unfold rows_for.
  destruct (filter _ rows) as [|q qs] eqn:E; [reflexivity|exfalso].
  assert (In q (filter (fun p0 => key_eqb (promptId p0) pid) rows))
    as Hq by (rewrite E; left; reflexivity).
  apply filter_In in Hq. destruct Hq as [Hq Hqk].
  specialize (Hcover q Hq). apply Exists_exists in Hcover.
  destruct Hcover as (k & Hkin & Hkq).
  rewrite Forall_forall in Hnone. specialize (Hnone k Hkin).
  rewrite (key_eqb_trans _ _ _ Hkq Hqk) in Hnone. discriminate.
Qed.

Lemma bump_runs (p : PromptStats) (d d' : PromptTotals) :
  bump p d = Ok d' ->
  exists n, totalRuns p = JNum n /\ sum_runs d' = py_add (sum_runs d) n.
Proof.
  unfold bump. intros H. apply bind_Ok in H. destruct H as (runs & Hr & H).
  injection H as <-. simpl.
  destruct (totalRuns p); simpl in Hr; try discriminate.
  injection Hr as <-. eauto.
Qed.

Lemma runs_tracked_other (rows : list PromptStats) (p : PromptStats)
    (m : list (json * PromptTotals)) :
  runs_tracked rows m ->
  Forall (fun kd => key_eqb (fst kd) (promptId p) = false) m ->
  runs_tracked (rows ++ [p]) m.
Proof.
  unfold runs_tracked. intros H1 H2. rewrite Forall_forall in *.
  intros kd Hin. rewrite rows_for_other by (apply H2; exact Hin).
  apply H1. exact Hin.
Qed.

Lemma add_prompt_runs (rows : list PromptStats) (p : PromptStats)
    (m m' : list (json * PromptTotals)) :
  leaderboard_inv rows m ->
  runs_tracked rows m ->
  hashable (promptId p) = Ok tt ->
  add_prompt p m = Ok m' ->
  runs_tracked (rows ++ [p]) m'.
Proof.
  intros (_ & I2 & I3 & _) Hr Hh Ha. apply key_eqb_refl in Hh.
  destruct (add_prompt_Ok _ _ _ Ha)
    as [(Hall & d0 & Hd0 & ->)
       | (m1 & k & d & m2 & d' & -> & Hall & Hk & Hb & ->)].
  - apply Forall_app. split; [apply runs_tracked_other; assumption|].
    constructor; [|constructor]. simpl.
    rewrite rows_for_same by exact Hh.
    rewrite (rows_for_unseen rows (map fst m) (promptId p) I3)
      by (apply (Forall_fst (fun a => key_eqb a (promptId p) = false));
          exact Hall).
    destruct (bump_runs _ _ _ Hd0) as (n & Hn & Hs).
    exists [n]. simpl. rewrite Hn, Hs. split; reflexivity.
  - assert (Forall (fun kd => key_eqb (fst kd) (promptId p) = false) m2)
      as Hall2.
    { rewrite map_app in I2. simpl in I2.
      apply distinct_keys_after in I2.
      apply (Forall_fst (fun a => key_eqb a (promptId p) = false)).
      apply Forall_impl with (2 := I2). intros b Hkb.
      rewrite key_eqb_sym in Hk.
      rewrite <- (key_eqb_congr _ _ b Hk), key_eqb_sym in Hkb.
      exact Hkb. }
    unfold runs_tracked in Hr. apply Forall_app in Hr.
    destruct Hr as [Hr1 Hr2].
    inversion Hr2 as [|? ? (ns & Hns & Hsum) Hr3]; subst.
    simpl in Hns, Hsum.
    apply Forall_app. split; [apply runs_tracked_other; assumption|].
    constructor; [|apply runs_tracked_other; assumption].
    simpl. rewrite rows_for_same by exact Hk.
    destruct (bump_runs _ _ _ Hb) as (n & Hn & Hs).
    exists (ns ++ [n]).
    rewrite !map_app, fold_left_app, Hns, Hs, Hsum. simpl. rewrite Hn.
    split; reflexivity.
Qed.

Lemma add_prompts_runs (rows : list PromptStats) :
  forall (done : list PromptStats) (m m' : list (json * PromptTotals)),
  leaderboard_inv done m ->
  runs_tracked done m ->
  add_prompts rows m = Ok m' ->
  runs_tracked (done ++ rows) m'.
Proof.
  induction rows as [|p rows IH]; simpl; intros done m m' Hinv Hr H.
  - injection H as <-. rewrite app_nil_r. exact Hr.
  - apply bind_Ok in H. destruct H as ([] & Hh & H).
    apply bind_Ok in H. destruct H as (m1 & Hm1 & H).
    replace (done ++ p :: rows) with ((done ++ [p]) ++ rows)
      by (rewrite <- app_assoc; reflexivity).
    apply IH with (m := m1); [| |exact H].
    + apply add_prompt_inv with (m := m); assumption.
    + apply add_prompt_runs with (m := m); assumption.
Qed.

(** X17: the "Total Runs" of a leaderboard entry is the sum of the
    [totalRuns] of the rows filed under its id, over all suites; these are
    all numbers when the leaderboard is built at all. *)
Theorem leaderboard_total_runs (analyses : list SuiteAnalysis)
    (entries : list (json * LeaderboardEntry)) (k : json)
    (e : LeaderboardEntry) :
  all_prompts analyses = Ok entries ->
  In (k, e) entries ->
  exists ns,
    map totalRuns (rows_for k (all_rows analyses)) = map JNum ns /\
    sum_runs (totals e) = fold_left py_add ns (PyInt 0) /\
    num_val (sum_runs (totals e)) == q_sum ns.
Proof.
  unfold all_prompts. intros H Hin.
  apply bind_Ok in H. destruct H as (m & Hm & H).
  assert (runs_tracked (all_rows analyses) m) as Hr.
  { apply (add_prompts_runs (all_rows analyses) [] [] m);
      [apply leaderboard_inv_nil | constructor | exact Hm]. }
  apply map_res_Forall2 in H.
  destruct (Forall2_In_r _ _ _ _ H Hin) as ([k0 d] & Hkd & Hw).
  apply with_averages_Ok in Hw. simpl in Hw. destruct Hw as (-> & -> & _).
  unfold runs_tracked in Hr. rewrite Forall_forall in Hr.
  destruct (Hr _ Hkd) as (ns & Hns & Hsum). simpl in Hns, Hsum.
  exists ns. split; [exact Hns|]. split; [exact Hsum|].
  rewrite Hsum, fold_py_add_val. apply Qplus_0_l.
Qed.

Lemma leaderboard_total_runs_witness :
  exists e rest ns,
    all_prompts analyses_AB = Ok ((JStr "p1", e) :: rest) /\
    sum_runs (totals e) = PyInt 20 /\
    map totalRuns (rows_for (JStr "p1") (all_rows analyses_AB))
    = map JNum ns /\
    sum_runs (totals e) = fold_left py_add ns (PyInt 0).
Proof.
  destruct (all_prompts analyses_AB) as [entries| |] eqn:E;
    [| vm_compute in E; discriminate..].
  destruct entries as [|[k e] rest]; [vm_compute in E; discriminate|].
  assert (k = JStr "p1") as -> by (vm_compute in E; congruence).
  assert (sum_runs (totals e) = PyInt 20) as Hs
    by (vm_compute in E; injection E as <- _; reflexivity).
  destruct (leaderboard_total_runs analyses_AB _ (JStr "p1") e E
              (or_introl eq_refl)) as (ns & Hns & Hsum & _).
  exists e, rest, ns. auto.
Defined.

Lemma map_res_map_same {A B : Type} (f : A -> res B) (g : A -> A)
    (l : list A) :
  (forall x, f (g x) = f x) -> map_res f (map g l) = map_res f l.
Proof.
  intros H. induction l as [|x l IH]; simpl; [reflexivity|].
  rewrite H, IH. reflexivity.
Qed.

Lemma prompt_table_forget (rows : list PromptStats) :
  prompt_table (map forget_row rows) = prompt_table rows.
Proof.
  destruct rows as [|p rows]; [reflexivity|].
  change (prompt_table (map forget_row (p :: rows)))
    with (ls <- map_res prompt_row
                  (firstn 10 (map forget_row (p :: rows))) ;;
          Ok ([ "#### Detailed Prompt Analysis"; "";
                "| Prompt | Pass@N | Dup Rate | JSON | Quality | Runs |";
                "|--------|--------|----------|------|---------|------|" ]
              ++ ls ++ [""])).
  rewrite firstn_map, map_res_map_same by reflexivity. reflexivity.
Qed.

Lemma suite_section_forget (a : SuiteAnalysis) :
  suite_section (forget_unused a) = suite_section a.
Proof.
  unfold suite_section.
  change (prompt_analysis (forget_unused a))
    with (map forget_row (prompt_analysis a)).
  rewrite prompt_table_forget. reflexivity.
Qed.

Lemma add_prompt_forget (p : PromptStats) (m : list (json * PromptTotals)) :
  add_prompt (forget_row p) m = add_prompt p m.
Proof.
  induction m as [|[k d] m IH]; [reflexivity|].
  cbn [add_prompt]. rewrite IH. reflexivity.
Qed.

Lemma add_prompts_forget (rows : list PromptStats) :
  forall m, add_prompts (map forget_row rows) m = add_prompts rows m.
Proof.
  induction rows as [|p rows IH]; intros m; [reflexivity|].
  cbn [map add_prompts]. rewrite add_prompt_forget.
  change (promptId (forget_row p)) with (promptId p).
  destruct (hashable (promptId p)); cbn [bind]; try reflexivity.
  destruct (add_prompt p m); cbn [bind]; try reflexivity. apply IH.
Qed.

Lemma all_rows_forget (analyses : list SuiteAnalysis) :
  all_rows (map forget_unused analyses) = map forget_row (all_rows analyses).
Proof.
  unfold all_rows. rewrite concat_map, !map_map. reflexivity.
Qed.

Lemma report_lines_forget (now : datetime) (analyses : list SuiteAnalysis) :
  report_lines now (map forget_unused analyses) = report_lines now analyses.
Proof.
  unfold report_lines, summary_lines, recommendation_lines, all_prompts,
    total_tests, total_passed, total_failed, total_time.
  rewrite all_rows_forget, add_prompts_forget, !map_map.
  rewrite (map_res_map_same comparison_row forget_unused) by reflexivity.
  rewrite (map_res_map_same suite_section forget_unused)
    by exact suite_section_forget.
  reflexivity.
Qed.

Lemma status_lines_forget (analyses : list SuiteAnalysis) :
  status_lines (map forget_unused analyses) = status_lines analyses.
Proof.
  induction analyses as [|a l IH]; [reflexivity|].
  cbn [map status_lines]. rewrite IH. reflexivity.
Qed.

Lemma console_summary_forget (analyses : list SuiteAnalysis) :
  console_summary (map forget_unused analyses) = console_summary analyses.
Proof.
  unfold console_summary, console_totals, total_tests, total_passed.
  rewrite status_lines_forget, !map_map. reflexivity.
Qed.

Lemma document_forget (now : datetime) (analyses : list SuiteAnalysis)
    (coord_files : list (string * res json)) :
  document now (map forget_unused analyses) coord_files
  = document now analyses coord_files.
Proof.
  unfold document, generate_markdown_report.
  rewrite report_lines_forget. reflexivity.
Qed.

(** X18: the consistency ranking of a suite and the [insufficientRate] and
    [formatErrorRate] of its prompts are computed by [analyze_suite] and
    never read again: two runs over as many reports, with the same lines
    printed by the analysis loop and analyses that agree on every other
    field, write the same document and end the same way. *)
Theorem unused_fields_never_shown (now : datetime) (results_dir : string)
    (files files' coord_files : list (string * res json))
    (printed : list string) (analyses analyses' : list SuiteAnalysis) :
  analyze_files files = Ok (printed, analyses) ->
  analyze_files files' = Ok (printed, analyses') ->
  List.length files = List.length files' ->
  map forget_unused analyses = map forget_unused analyses' ->
  document now analyses coord_files = document now analyses' coord_files /\
  main now results_dir files coord_files
  = main now results_dir files' coord_files.
Proof.
  intros Hf Hf' Hlen Heq.
  assert (document now analyses coord_files
          = document now analyses' coord_files) as Hd.
  { rewrite <- (document_forget now analyses),
      <- (document_forget now analyses'), Heq. reflexivity. }
  assert (console_summary analyses = console_summary analyses') as Hc.
  { rewrite <- (console_summary_forget analyses),
      <- (console_summary_forget analyses'), Heq. reflexivity. }
  split; [exact Hd|].
  unfold main. rewrite Hf, Hf', Hd, Hc, Hlen.
  destruct files as [|f fs], files' as [|f' fs']; try discriminate Hlen;
    reflexivity.
Qed.

Lemma unused_fields_never_shown_witness :
  exists printed analyses analyses',
    analyze_files [("A", Ok report_A)] = Ok (printed, analyses) /\
    analyze_files [("A", Ok report_A_more)] = Ok (printed, analyses') /\
    analyses <> analyses' /\
    document noon analyses coord_files_1
    = document noon analyses' coord_files_1 /\
    main noon "results" [("A", Ok report_A)] coord_files_1
    = main noon "results" [("A", Ok report_A_more)] coord_files_1.
Proof.
  destruct (analyze_files [("A", Ok report_A)]) as [[printed analyses]| |]
    eqn:E; [| vm_compute in E; discriminate..].
  destruct (analyze_files [("A", Ok report_A_more)])
    as [[printed' analyses']| |] eqn:E';
    [| vm_compute in E'; discriminate..].
  assert (printed' = printed) as ->
    by (vm_compute in E, E'; congruence).
  exists printed, analyses, analyses'.
  split; [reflexivity|]. split; [reflexivity|].
  split.
  - vm_compute in E, E'. injection E as _ <-. injection E' as _ <-.
    discriminate.
  - apply (unused_fields_never_shown noon "results" [("A", Ok report_A)]
             [("A", Ok report_A_more)] coord_files_1 printed
             analyses analyses' E E' eq_refl).
    vm_compute in E, E'. injection E as _ <-. injection E' as _ <-.
    vm_compute. reflexivity.
Defined.

Lemma add_prompt_needs_runs (p : PromptStats)
    (m m' : list (json * PromptTotals)) :
  add_prompt p m = Ok m' -> is_num (totalRuns p) = true.
Proof.
  intros H.
  destruct (add_prompt_Ok _ _ _ H)
    as [(_ & d0 & Hb & _) | (_ & _ & d & _ & d' & _ & _ & _ & Hb & _)];
    destruct (bump_runs _ _ _ Hb) as (n & -> & _); reflexivity.
Qed.

Lemma add_prompts_needs (rows : list PromptStats) :
  forall (m m' : list (json * PromptTotals)) (p : PromptStats),
  add_prompts rows m = Ok m' -> In p rows ->
  hashable (promptId p) = Ok tt /\ is_num (totalRuns p) = true.
Proof.
  induction rows as [|q rows IH]; simpl; intros m m' p H Hin;
    [contradiction|].
  apply bind_Ok in H. destruct H as ([] & Hh & H).
  apply bind_Ok in H. destruct H as (m1 & Hm1 & H).
  destruct Hin as [<- | Hin].
  - split; [exact Hh|]. exact (add_prompt_needs_runs _ _ _ Hm1).
  - exact (IH _ _ _ H Hin).
Qed.

(** X19: the leaderboard files every prompt row of every suite, also those
    beyond the tenth, under its id and adds up its [totalRuns]: when the id
    of some row is a list or an object, or its [totalRuns] is not a number,
    the run ends on the uncaught exception and no document is written. *)
Theorem unusable_prompt_row_aborts_run (now : datetime)
    (results_dir : string)
    (report_files coord_files : list (string * res json))
    (printed : list string) (analyses : list SuiteAnalysis)
    (a : SuiteAnalysis) (p : PromptStats) :
  report_files <> [] ->
  analyze_files report_files = Ok (printed, analyses) ->
  In a analyses ->
  In p (prompt_analysis a) ->
  hashable (promptId p) <> Ok tt \/ is_num (totalRuns p) = false ->
  aborted_without_document
    (main now results_dir report_files coord_files).
Proof.
  intros Hne Hf Ha Hp Hbad.
  apply main_needs_document with (printed := printed) (analyses := analyses);
    try assumption.
  intros doc Hd. destruct (document_Ok_report _ _ _ _ Hd) as (ls & Hls).
  unfold report_lines in Hls.
  apply bind_Ok in Hls. destruct Hls as (summary & _ & Hls).
  apply bind_Ok in Hls. destruct Hls as (rows & _ & Hls).
  apply bind_Ok in Hls. destruct Hls as (sections & _ & Hls).
  apply bind_Ok in Hls. destruct Hls as (recs & Hrecs & _).
  unfold recommendation_lines in Hrecs.
  apply bind_Ok in Hrecs. destruct Hrecs as (entries & He & _).
  unfold all_prompts in He.
  apply bind_Ok in He. destruct He as (m & Hm & _).
  assert (In p (all_rows analyses)) as Hin.
  { unfold all_rows. apply in_concat. exists (prompt_analysis a).
    split; [apply in_map; exact Ha | exact Hp]. }
  destruct (add_prompts_needs _ _ _ _ Hm Hin) as (Hh & Hn).
  destruct Hbad as [Hbad | Hbad]; [exact (Hbad Hh)|].
  rewrite Hbad in Hn. discriminate.
Qed.

Lemma unusable_prompt_row_aborts_run_witness :
  exists a p,
    analysis_of list_id_file = Ok a /\
    prompt_analysis a = [p] /\
    promptId p = JArr [JStr "p"] /\
    main noon "results" [list_id_file] []
    = Crashed (TypeError "unhashable type: 'list'")
        [ "Found 1 unified test reports"; ""; "Analyzing listid...";
          "  ✅ Success rate: 0.0%"; "";
          "Generating detailed analysis report..." ]
        None /\
    aborted_without_document (main noon "results" [list_id_file] []).
Proof.
  destruct (analysis_of list_id_file) as [a| |] eqn:Ea;
    [| vm_compute in Ea; discriminate..].
  destruct (prompt_analysis a) as [|p [|q l]] eqn:Ep;
    try (vm_compute in Ea; injection Ea as <-; vm_compute in Ep;
         discriminate).
  assert (promptId p = JArr [JStr "p"]) as Hn
    by (vm_compute in Ea; injection Ea as <-; vm_compute in Ep;
        injection Ep as <-; reflexivity).
  exists a, p. split; [reflexivity|]. split; [exact Ep|].
  split; [exact Hn|]. split; [vm_compute; reflexivity|].
  apply (unusable_prompt_row_aborts_run noon "results" [list_id_file] []
           [ "Analyzing listid..."; "  ✅ Success rate: 0.0%" ] [a] a p).
  - discriminate.
  - cbn [analyze_files]. unfold analyze_file. rewrite Ea.
    vm_compute in Ea. injection Ea as <-. reflexivity.
  - left. reflexivity.
  - rewrite Ep. left. reflexivity.
  - left. rewrite Hn. discriminate.
Defined.
